(** * A shallow embedding of the Kong admin-API client

    The development follows the Python sources:

    - [kong/__init__.py]: class [Kong], the transport adapter ([_url], [_get],
      [_post], [_patch], [_put], [_delete], [status]);
    - [kong/route.py]: [route_list], [route_get], [route_query],
      [route_delete];
    - [kong/plugin.py]: [_prepare_config], [plugin_query], [plugin_apply],
      [plugin_delete].

    Python values that travel through the client (parsed JSON bodies, payload
    dictionaries, header maps) are values of the type [val]; a Python [dict]
    with string keys is a [gmap string _].  A method of the client is a
    function in the monad [M]: it threads the client object, the gateway and
    the trace of HTTP requests issued so far, and ends by returning a value or
    by raising a Python exception.

    The gateway is a parameter: any function from a request and a gateway
    state to an answer and a new gateway state.  So are the strings that
    [uuid.UUID] accepts.  [kong/service.py] and [kong/consumer.py] are not
    among the sources; [service_get] and [consumer_get] follow the
    description the spec gives of a resolver's [get]. *)

From Stdlib Require Import ZArith Ascii.
From stdpp Require Import gmap strings list fin_maps sorting.

Local Open Scope Z_scope.

(** ** Python values *)

(** What [json.loads] can produce, with integers for numbers.  [VNone] is
    Python's [None] (JSON [null]). *)
#[warnings="-register-all"]
Inductive val : Type :=
| VNone
| VBool (b : bool)
| VInt (z : Z)
| VStr (s : string)
| VList (l : list val)
| VDict (m : gmap string val).

Global Instance val_inhabited : Inhabited val := populate VNone.

(** An optional name argument of the plugin methods: [None], [False] (the
    default of [consumer_name] in [plugin_apply] and [plugin_delete]) or a
    [str]. *)
Inductive arg : Type :=
| ANone
| AFalse
| AStr (s : string).

(** ** Outcomes *)

(** The exceptions the client can end with.  [HTTPError] is
    [requests.HTTPError] as raised by [raise_for_status]; [ConnectionError]
    stands for the failures of [requests] below the HTTP level;
    [JSONDecodeError] is what [r.json()] raises on a body that is not JSON;
    [UnexpectedStatus] and [UnexpectedDeleteStatus] are the plain
    [Exception]s of [_post], [_patch] and [_delete], with the values their
    message is formatted from. *)
Inductive exn : Type :=
| ValueError (msg : string)
| AttributeError
| KeyError (key : string)
| TypeError
| HTTPError (status : Z)
| ConnectionError
| JSONDecodeError
| UnexpectedStatus (status expected : Z) (url : string) (error data : val)
| UnexpectedDeleteStatus (status expected : Z).

(** Two ways in which the model, not the program, stops: the [while] loop of
    [plugin_query] used up its fuel, or [sorted] met an iterable that is not
    made of [str] only (the order of other Python values is not modelled). *)
Inductive stuck : Type :=
| OutOfFuel
| OutsideModel.

Inductive outcome (A : Type) : Type :=
| Return (a : A)
| Raise (e : exn)
| Stuck (s : stuck).
Global Arguments Return {A} a.
Global Arguments Raise {A} e.
Global Arguments Stuck {A} s.

Global Instance outcome_ret : MRet outcome := λ A a, Return a.
Global Instance outcome_bind : MBind outcome := λ A B f c,
  match c with
  | Return a => f a
  | Raise e => Raise e
  | Stuck s => Stuck s
  end.

(** ** Python's operations on values *)

(** [bool(v)]. *)
Definition truthy (v : val) : bool :=
  match v with
  | VNone => false
  | VBool b => b
  | VInt z => negb (z =? 0)
  | VStr s => negb (String.eqb s "")
  | VList l => match l with [] => false | _ => true end
  | VDict m => negb (bool_decide (m = ∅))
  end.

Definition is_none (v : val) : bool :=
  match v with VNone => true | _ => false end.

Definition arg_val (a : arg) : val :=
  match a with
  | ANone => VNone
  | AFalse => VBool false
  | AStr s => VStr s
  end.

Definition opt_val (o : option string) : val :=
  match o with
  | None => VNone
  | Some s => VStr s
  end.

(** [str(a)], as [format] renders an argument. *)
Definition arg_str (a : arg) : string :=
  match a with
  | ANone => "None"
  | AFalse => "False"
  | AStr s => s
  end.

Definition opt_str (o : option string) : string :=
  match o with
  | None => "None"
  | Some s => s
  end.

(** [v.get(key, default)]: only a [dict] has the method. *)
Definition dot_get (v : val) (key : string) (default : val) : outcome val :=
  match v with
  | VDict m => Return (from_option id default (m !! key))
  | _ => Raise AttributeError
  end.

(** [v[key]] for a [str] key: [KeyError] on a [dict] without the key,
    [TypeError] on every value that is not a [dict]. *)
Definition getitem (v : val) (key : string) : outcome val :=
  match v with
  | VDict m =>
      match m !! key with
      | Some x => Return x
      | None => Raise (KeyError key)
      end
  | _ => Raise TypeError
  end.

(** [v[key] = x] on a value that [getitem] has just read from. *)
Definition setitem (v : val) (key : string) (x : val) : outcome val :=
  match v with
  | VDict m => Return (VDict (<[key := x]> m))
  | _ => Raise TypeError
  end.

Fixpoint chars (s : string) : list val :=
  match s with
  | EmptyString => []
  | String c s' => VStr (String c EmptyString) :: chars s'
  end.

(** [list(v)], what a [for] loop or [list.extend] walks through: the items of
    a list, the characters of a [str], the keys of a [dict] (in the order the
    map lists them; the client only ever walks a [dict] where every item makes
    it fail alike). *)
Definition iter (v : val) : outcome (list val) :=
  match v with
  | VList l => Return l
  | VStr s => Return (chars s)
  | VDict m => Return (VStr <$> (map_to_list m).*1)
  | _ => Raise TypeError
  end.

Definition as_int (v : val) : option Z :=
  match v with
  | VInt z => Some z
  | VBool b => Some (if b then 1 else 0)
  | _ => None
  end.

(** [a += b], returning the new value of [a]: a list is extended by any
    iterable, [str] and numbers add among themselves. *)
Definition iadd (a b : val) : outcome val :=
  match a with
  | VList l => ys ← iter b; Return (VList (l ++ ys))
  | VStr s => match b with VStr t => Return (VStr (s +:+ t)) | _ => Raise TypeError end
  | VInt _ | VBool _ =>
      match as_int a, as_int b with
      | Some x, Some y => Return (VInt (x + y))
      | _, _ => Raise TypeError
      end
  | _ => Raise TypeError
  end.

(** [s.strip('/')]: every leading and every trailing slash goes. *)
Fixpoint lstrip_slash (s : string) : string :=
  match s with
  | String "/"%char s' => lstrip_slash s'
  | _ => s
  end.

Fixpoint rstrip_slash (s : string) : string :=
  match s with
  | EmptyString => EmptyString
  | String c s' =>
      match rstrip_slash s' with
      | EmptyString => if Ascii.eqb c "/"%char then EmptyString else String c EmptyString
      | r => String c r
      end
  end.

Definition strip_slash (s : string) : string := rstrip_slash (lstrip_slash s).

(** [v.strip('/')]: a method of [str] only. *)
Definition dot_strip (v : val) : outcome val :=
  match v with
  | VStr s => Return (VStr (strip_slash s))
  | _ => Raise AttributeError
  end.

(** ['/'.join(items)]: [TypeError] on an item that is not a [str]. *)
Fixpoint join_slash (items : list val) : outcome string :=
  match items with
  | [] => Return ""
  | [VStr s] => Return s
  | VStr s :: rest => r ← join_slash rest; Return (s +:+ "/" +:+ r)
  | _ :: _ => Raise TypeError
  end.

(** [a != b] where [b] is [None] or a [str]: the left operand differs from
    [b] unless it is the same [None] or the same string. *)
Definition ne_opt_str (a : val) (b : option string) : bool :=
  match a, b with
  | VNone, None => false
  | VStr s, Some t => negb (String.eqb s t)
  | _, _ => true
  end.

Definition opt_truthy (o : option string) : bool := truthy (opt_val o).
Definition arg_truthy (a : arg) : bool := truthy (arg_val a).

(** The strings of a list whose items are all [str]. *)
Fixpoint all_str (l : list val) : option (list string) :=
  match l with
  | [] => Some []
  | VStr s :: l' => (s ::.) <$> all_str l'
  | _ :: _ => None
  end.

(** [sorted(l)] for a list of [str]: the order of [str] is the lexicographic
    one, by code point. *)
Definition sorted_str (l : list string) : list string := merge_sort String.le l.

(** [sorted(v)]: [TypeError] when [v] is not iterable, as in Python; the
    sorted strings when [v] yields [str] only. *)
Definition sorted (v : val) : outcome (list string) :=
  items ← iter v;
  match all_str items with
  | Some l => Return (sorted_str l)
  | None => Stuck OutsideModel
  end.

(** ** The gateway, seen from [requests] *)

Inductive method : Type := GET | POST | PATCH | PUT | DELETE.

Global Instance method_eq_dec : EqDecision method.
Proof. solve_decision. Defined.

(** One call of [requests.get], [.post], [.patch], [.put] or [.delete]: the
    URL and the keyword arguments [params], [data], [auth] and [headers]. *)
Record request : Type := Request {
  req_method : method;
  req_url : string;
  req_params : val;
  req_data : val;
  req_auth : option (string * string);
  req_headers : gmap string string;
}.

(** The response object: [r.status_code], and what [r.json()] gives, [None]
    when the body is not JSON. *)
Record response : Type := Response {
  status_code : Z;
  json : option val;
}.

Inductive reply : Type :=
| Answer (r : response)
| NoAnswer.

(** [requests.codes]. *)
Definition codes_ok : Z := 200.
Definition codes_created : Z := 201.
Definition codes_no_content : Z := 204.

(** [r.raise_for_status()]: [HTTPError] on a 4xx or 5xx status. *)
Definition raise_for_status (r : response) : outcome unit :=
  if (400 <=? status_code r) && (status_code r <? 600)
  then Raise (HTTPError (status_code r))
  else Return ().

(** [r.json()]. *)
Definition dot_json (r : response) : outcome val :=
  match json r with
  | Some v => Return v
  | None => Raise JSONDecodeError
  end.

(** [uuid.UUID(hex)] of the standard library, which is not part of the
    sources: which strings it accepts is a parameter, and it rejects the empty
    string (it asks for 32 hexadecimal digits). *)
Record uuid_module : Type := UuidModule {
  uuid_accepts : string → bool;
  uuid_rejects_empty : uuid_accepts "" = false;
}.

(** The attributes of a [Kong] object, set by [__init__]. *)
Record Kong : Type := MkKong {
  base_url : string;
  auth : option (string * string);
  headers : gmap string string;
}.

Section Client.

(** The gateway is any machine that answers a request and moves to a new
    state. *)
Context {World : Type}.
Variable send : request → World → reply * World.
Variable uuid : uuid_module.

(** What a method runs in: the object [self], the gateway, and the requests
    issued so far, oldest first. *)
Record state : Type := State {
  self : Kong;
  world : World;
  trace : list request;
}.

Definition M (A : Type) : Type := state → outcome A * state.

Global Instance M_ret : MRet M := λ A a st, (Return a, st).
Global Instance M_bind : MBind M := λ A B f c st,
  match c st with
  | (Return a, st') => f a st'
  | (Raise e, st') => (Raise e, st')
  | (Stuck s, st') => (Stuck s, st')
  end.

(** A computation that touches neither the object nor the gateway. *)
Definition pure {A} (c : outcome A) : M A := λ st, (c, st).
Definition raise {A} (e : exn) : M A := pure (Raise e).

Definition get_self : M Kong := λ st, (Return (self st), st).
Definition set_headers (h : gmap string string) : M unit := λ st,
  (Return (),
   State (MkKong (base_url (self st)) (auth (self st)) h) (world st) (trace st)).

(** [requests.<method>(url, params=.., data=.., auth=self.auth,
    headers=self.headers)]. *)
Definition requests (m : method) (url : string) (params data : val) : M response :=
  λ st,
    let req := Request m url params data (auth (self st)) (headers (self st)) in
    let '(a, w) := send req (world st) in
    (match a with
     | Answer r => Return r
     | NoAnswer => Raise ConnectionError
     end,
     State (self st) w (trace st ++ [req])).

(** [try: c  except requests.HTTPError: return None  else: return r]. *)
Definition try_except_HTTPError (c : M val) : M val := λ st,
  match c st with
  | (Raise (HTTPError _), st') => (Return VNone, st')
  | res => res
  end.

(** [uuid.UUID(v)]: [TypeError] on [None], [AttributeError] on another value
    that is not a [str] (it has no [replace]), [ValueError] on a [str] the
    module does not accept (one message stands for the two it can carry).
    The source drops the result and keeps [v]; the model returns [v] as the
    [str] it is known to be from there on. *)
Definition uuid_UUID (v : val) : outcome string :=
  match v with
  | VStr s =>
      if uuid_accepts uuid s then Return s
      else Raise (ValueError "badly formed hexadecimal UUID string")
  | VNone => Raise TypeError
  | _ => Raise AttributeError
  end.

(** *** [kong/__init__.py] *)

(** [_url(self, *args)], always called with the one argument [uri]. *)
Definition _url (uri : val) : M string :=
  k ← get_self;
  let args := match uri with VList l => l | _ => [uri] end in
  let args := List.filter (λ x, negb (is_none x)) args in
  match args with
  | [] => mret (base_url k)
  | _ => pure (join_slash (VStr (base_url k) :: args))
  end.

Definition _get (uri : val) (params : val) : M val :=
  url ← _url uri;
  r ← requests GET url params VNone;
  pure (raise_for_status r);;
  pure (dot_json r).

(** [if headers and isinstance(headers, dict): self.headers.update(headers)];
    [headers] is [None] or a [dict]. *)
Definition update_headers (hdrs : option (gmap string string)) : M unit :=
  match hdrs with
  | Some h =>
      if bool_decide (h = ∅) then mret ()
      else k ← get_self; set_headers (h ∪ headers k)
  | None => mret ()
  end.

Definition _post (uri : val) (data : val) (hdrs : option (gmap string string)) : M val :=
  update_headers hdrs;;
  url ← _url uri;
  r ← requests POST url VNone data;
  if status_code r =? codes_created then pure (dot_json r)
  else
    err ← pure (dot_json r);
    raise (UnexpectedStatus (status_code r) codes_created url err data).

Definition _patch (uri : val) (data : val) (hdrs : option (gmap string string)) : M val :=
  update_headers hdrs;;
  url ← _url uri;
  r ← requests PATCH url VNone data;
  if status_code r =? codes_ok then pure (dot_json r)
  else
    err ← pure (dot_json r);
    raise (UnexpectedStatus (status_code r) codes_ok url err data).

Definition _put (uri : val) (data : val) : M val :=
  url ← _url uri;
  r ← requests PUT url VNone data;
  if status_code r =? codes_created then mret (VBool true)
  else
    pure (raise_for_status r);;
    pure (dot_json r).

Definition _delete (uri : val) : M bool :=
  url ← _url uri;
  r ← requests DELETE url VNone VNone;
  if negb (status_code r =? codes_no_content)
  then raise (UnexpectedDeleteStatus (status_code r) codes_no_content)
  else mret true.

(** The property [status]. *)
Definition status : M val := _get (VStr "status") VNone.

(** [Kong.__init__(base_url, auth_user, auth_pass, ping)] on a fresh
    object, against the gateway [w]. *)
Definition Kong__init__ (url : string) (auth_user auth_pass : option string)
    (ping : bool) (w : World) : outcome unit * state :=
  let k :=
    match auth_user, auth_pass with
    | Some u, Some p => MkKong url (Some (u, p)) (<["Kong-Admin-Token" := p]> ∅)
    | _, _ => MkKong url None ∅
    end in
  (if ping then status;; mret () else mret ()) (State k w []).

(** *** The resolvers of [kong/service.py] and [kong/consumer.py] *)

(** Modelled from the spec: [service_get] of [kong/service.py], a file that
    is not among the sources.  "[get(identifier) -> Resource | None]:
    performs a GET by id or name; returns [None] specifically when the
    Transport Adapter reports not found (HTTP 404-class failure)". *)
Definition service_get (service_id : val) : M val := λ st,
  match _get (VList [VStr "services"; service_id]) VNone st with
  | (Raise (HTTPError 404), st') => (Return VNone, st')
  | res => res
  end.

(** Modelled from the spec: [consumer_get] of [kong/consumer.py], a file
    that is not among the sources; the same sentence of the spec as for
    [service_get]. *)
Definition consumer_get (consumer_id : val) : M val := λ st,
  match _get (VList [VStr "consumers"; consumer_id]) VNone st with
  | (Raise (HTTPError 404), st') => (Return VNone, st')
  | res => res
  end.

(** *** [kong/route.py] *)

Definition route_list (service_name : val) : M val :=
  r ← _get (VList [VStr "services"; service_name; VStr "routes"]) VNone;
  pure (dot_get r "data" (VList [])).

Definition route_get (route_id : val) : M val :=
  try_except_HTTPError (_get (VList [VStr "routes"; route_id]) VNone).

(** [r.get(field) if r.get(field) is not None else []]. *)
Definition existing (r : val) (field : string) : outcome val :=
  x ← dot_get r field VNone;
  Return (if is_none x then VList [] else x).

(** [sorted(x) == sorted(wanted)]. *)
Definition sorted_eq (x : val) (wanted : list string) : outcome bool :=
  sx ← sorted x;
  Return (bool_decide (sx = sorted_str wanted)).

(** The condition of the [if] in the loop of [route_query], after the four
    assignments before it; [and] evaluates its right operand only when the
    left one holds. *)
Definition route_matches (hosts paths methods protocols : list string) (r : val)
    : outcome bool :=
  existing_hosts ← existing r "hosts";
  existing_paths ← existing r "paths";
  existing_methods ← existing r "methods";
  existing_protocols ← existing r "protocols";
  b ← sorted_eq existing_hosts hosts;
  if negb b then Return false else
  b ← sorted_eq existing_paths paths;
  if negb b then Return false else
  b ← sorted_eq existing_methods methods;
  if negb b then Return false else
  sorted_eq existing_protocols protocols.

(** A [for] loop that appends to [result] the items passing [test]. *)
Fixpoint select (test : val → outcome bool) (items result : list val)
    : outcome (list val) :=
  match items with
  | [] => Return result
  | x :: items' =>
      b ← test x;
      select test items' (if b : bool then result ++ [x] else result)
  end.

Definition route_query (service_name : string)
    (hosts paths methods protocols : list string) : M val :=
  s ← service_get (VStr service_name);
  if is_none s then
    raise (ValueError ("Service " +:+ service_name +:+ " not found. Has it been created?"))
  else
    routes ← route_list (VStr service_name);
    items ← pure (iter routes);
    result ← pure (select (route_matches hosts paths methods protocols) items []);
    if (1 <? length result)%nat then
      raise (ValueError "Duplicate routes found. Clean up manually first")
    else
      mret (match result with r :: _ => r | [] => VNone end).

Definition route_delete (route_id : val) : M bool :=
  r ← route_get route_id;
  if truthy r then _delete (VList [VStr "routes"; route_id])
  else mret false.

(** *** [kong/plugin.py] *)

(** [{'config.' + k: v for k, v in iteritems(config)}]. *)
Definition _prepare_config (config : gmap string val) : gmap string val :=
  kmap (String.append "config.") config.

(** One of the three blocks of [plugin_query] that resolve a name:
<<
    if service_name:
        uri = ['services', service_name, 'plugins']
        service_name = self.service_get(service_name)
        service_id = service_name.get('id')
        uuid.UUID(service_id)
        if service_name is None:
            raise ValueError("Service '{}' not found. Has it been created?".format(service_name))
>>
    It yields the new [uri] and the id, which past [uuid.UUID] is a [str].
    The message is formatted from the rebound name, [None] at that
    point. *)
Definition query_binding (getter : val → M val) (collection message : string)
    (name : arg) (uri : val) : M (val * option string) :=
  if arg_truthy name then
    let uri := VList [VStr collection; arg_val name; VStr "plugins"] in
    found ← getter (arg_val name);
    found_id ← pure (dot_get found "id" VNone);
    id ← pure (uuid_UUID found_id);
    if is_none found then raise (ValueError message)
    else mret (uri, Some id)
  else mret (uri, None).

(** The loop [while res['next']: ...] of [plugin_query]: [plugins] is the
    first page, whose ['data'] grows, [res] the page fetched last. *)
Fixpoint plugin_query_while (fuel : nat) (plugins res : val) : M val :=
  next ← pure (getitem res "next");
  if truthy next then
    match fuel with
    | O => pure (Stuck OutOfFuel)
    | S fuel' =>
        uri ← pure (dot_strip next);
        res ← _get uri VNone;
        data ← pure (getitem plugins "data");
        more ← pure (getitem res "data");
        data ← pure (iadd data more);
        plugins ← pure (setitem plugins "data" data);
        plugin_query_while fuel' plugins res
    end
  else mret plugins.

(** One of the three pairs of tests in the loop over the plugins:
<<
    if bool(plugin_consumer) != bool(consumer_id):
        continue
    if plugin_consumer and plugin_consumer.get('id') != consumer_id:
        continue
>>
    [true] when the plugin is kept. *)
Definition binding_agrees (bound : val) (id : option string) : outcome bool :=
  if negb (eqb (truthy bound) (opt_truthy id)) then Return false
  else if truthy bound then
    bound_id ← dot_get bound "id" VNone;
    Return (negb (ne_opt_str bound_id id))
  else Return true.

(** The body of [for plugin in plugins['data']]: [true] when the plugin is
    appended to [result]. *)
Definition plugin_matches (name consumer_id service_id route_id : option string)
    (plugin : val) : outcome bool :=
  plugin_consumer ← dot_get plugin "consumer" VNone;
  plugin_service ← dot_get plugin "service" VNone;
  plugin_route ← dot_get plugin "route" VNone;
  plugin_name ← dot_get plugin "name" VNone;
  if ne_opt_str plugin_name name then Return false else
  b ← binding_agrees plugin_consumer consumer_id;
  if negb b then Return false else
  b ← binding_agrees plugin_service service_id;
  if negb b then Return false else
  binding_agrees plugin_route route_id.

Definition plugin_query (fuel : nat) (name : option string)
    (service_name route_name consumer_name : arg) (plugin_id : option string)
    : M (list val) :=
  match plugin_id, name with
  | None, None => raise (ValueError "Need at least one of 'plugin_id' or 'name'")
  | _, _ =>
      let uri := VList [VStr "plugins"] in
      let uri :=
        if opt_truthy plugin_id then VList [VStr "plugins"; opt_val plugin_id]
        else uri in
      '(uri, service_id) ←
        query_binding service_get "services"
          "Service 'None' not found. Has it been created?" service_name uri;
      '(uri, route_id) ←
        query_binding route_get "routes"
          "Route 'None' not found. Has it been created?" route_name uri;
      '(uri, consumer_id) ←
        query_binding consumer_get "consumers"
          "Consumer None not found. Has it been created?" consumer_name uri;
      res ← _get uri VNone;
      plugins ← plugin_query_while fuel res res;
      data ← pure (getitem plugins "data");
      items ← pure (iter data);
      pure (select (plugin_matches name consumer_id service_id route_id) items [])
  end.

(** One of the three blocks of [plugin_apply] that bind the payload:
<<
    if service_name:
        s = self.service_get(service_name)
        if s is None:
            raise ValueError("Service '{}' not found".format(service_name))
        data['service.id'] = s['id']
>>  *)
Definition apply_binding (getter : val → M val) (label key : string)
    (name : arg) (data : gmap string val) : M (gmap string val) :=
  if arg_truthy name then
    s ← getter (arg_val name);
    if is_none s then
      raise (ValueError (label +:+ " '" +:+ arg_str name +:+ "' not found"))
    else
      id ← pure (getitem s "id");
      mret (<[key := id]> data)
  else mret data.

(** The payload of [plugin_apply]: everything before the query. *)
Definition plugin_payload (name : option string) (config : val)
    (service_name route_name consumer_name : arg) : M (gmap string val) :=
  let data : gmap string val := {["name" := opt_val name]} in
  data ←
    match config with
    | VNone => mret data
    | VDict c => mret (_prepare_config c ∪ data)
    | _ => raise (ValueError "'config' parameter is not a dict")
    end;
  data ← apply_binding service_get "Service" "service.id" service_name data;
  data ← apply_binding route_get "Route" "route.id" route_name data;
  apply_binding consumer_get "Consumer" "consumer.id" consumer_name data.

(** [format(name, service_name, route_name, consumer_name)] in the two
    messages about several matching plugins. *)
Definition plugin_tuple (name : option string)
    (service_name route_name consumer_name : arg) : string :=
  "name: '" +:+ opt_str name +:+ "', service: '" +:+ arg_str service_name
  +:+ "', route: '" +:+ arg_str route_name
  +:+ "', consumer: '" +:+ arg_str consumer_name +:+ "'".

Definition plugin_apply (fuel : nat) (name : option string) (config : val)
    (service_name route_name consumer_name : arg) : M val :=
  data ← plugin_payload name config service_name route_name consumer_name;
  p ← plugin_query fuel name service_name route_name consumer_name None;
  if (1 <? length p)%nat then
    raise (ValueError ("Multiple Plugin records for "
                       +:+ plugin_tuple name service_name route_name consumer_name))
  else
    match p with
    | p0 :: _ =>
        id ← pure (dot_get p0 "id" VNone);
        _patch (VList [VStr "plugins"; id]) (VDict data) None
    | [] => _post (VList [VStr "plugins"]) (VDict data) None
    end.

Definition plugin_delete (fuel : nat) (name : option string)
    (service_name route_name consumer_name : arg) : M bool :=
  p ← plugin_query fuel name service_name route_name consumer_name None;
  if (1 <? length p)%nat then
    raise (ValueError ("Found multiple Plugin records for "
                       +:+ plugin_tuple name service_name route_name consumer_name))
  else
    match p with
    | p0 :: _ =>
        id ← pure (dot_get p0 "id" VNone);
        _delete (VList [VStr "plugins"; id])
    | [] => mret false
    end.

(** *** The rest of [kong/__init__.py], [kong/plugin.py] and [kong/route.py] *)

(** The property [version]: [self._get("")], then [r.get('version', None)]. *)
Definition version : M val :=
  r ← _get (VStr "") VNone;
  pure (dot_get r "version" VNone).

(** The property [healthy]:
    [self.status.get('database', {}).get('reachable', False)]. *)
Definition healthy : M val :=
  s ← status;
  database ← pure (dot_get s "database" (VDict ∅));
  pure (dot_get database "reachable" (VBool false)).

Definition plugin_list : M val := _get (VStr "plugins") VNone.

(** [json.dumps] of the standard library, which is not part of the sources:
    a parameter. *)
Variable json_dumps : val → string.

(** A list argument of [route_apply], [None] or a list of [str]. *)
Definition opt_list_val (o : option (list string)) : val :=
  match o with
  | None => VNone
  | Some l => VList (VStr <$> l)
  end.

(** The dictionary [payload] of [route_apply], with the resolved service
    [s]; [s.get('id')] is evaluated while the dictionary is built. *)
Definition route_payload (s : val) (name : option string)
    (hosts paths methods protocols : option (list string))
    (strip_path preserve_host : bool) : outcome val :=
  service_id ← dot_get s "id" VNone;
  Return (VDict (<["name" := opt_val name]> (<["protocols" := opt_list_val protocols]>
           (<["methods" := opt_list_val methods]> (<["hosts" := opt_list_val hosts]>
           (<["paths" := opt_list_val paths]> (<["strip_path" := VBool strip_path]>
           (<["preserve_host" := VBool preserve_host]>
           {["service" := VDict {["id" := service_id]}]})))))))).

Definition route_apply (service_name name : option string)
    (hosts paths methods protocols : option (list string))
    (strip_path preserve_host : bool) (route_id : option string) : M val :=
  match protocols, hosts, paths, methods with
  | None, None, None, None =>
      raise (ValueError "Need at least one of protocols, hosts, paths or methods.")
  | _, _, _, _ =>
      match service_name with
      | None => raise (ValueError "service_name needs to be specified.")
      | Some service =>
          s ← service_get (VStr service);
          if is_none s then
            raise (ValueError ("Service " +:+ service +:+ " not found. Has it been created?"))
          else
            payload ← pure (route_payload s name hosts paths methods protocols
                              strip_path preserve_host);
            let headers : gmap string string :=
              {["content-type" := "application/json"]} in
            if opt_truthy route_id then
              _patch (VList [VStr "routes"; opt_val route_id])
                (VStr (json_dumps payload)) (Some headers)
            else
              _post (VStr "routes") (VStr (json_dumps payload)) (Some headers)
      end
  end.

End Client.

(** ** [kong/helpers.py] *)

Definition newline : string := String "010"%char EmptyString.

(** [render_list(inlist)] for a list of [str], on which [str(x)] is [x]:
    [''] for the empty list, else the items joined by newlines, between one
    newline and two. *)
Definition render_list (inlist : list string) : string :=
  match inlist with
  | [] => ""
  | _ => newline +:+ String.concat newline inlist +:+ newline +:+ newline
  end.

(** ** Vocabulary of the statements *)

(** A computation only reads: it leaves the object as it was and adds nothing
    but GET requests to the trace. *)
Definition only_gets (reqs : list request) : Prop :=
  Forall (λ r, req_method r = GET) reqs.

Definition reads_only {World A} (c : @M World A) : Prop :=
  ∀ st o st', c st = (o, st') →
    self st' = self st ∧ ∃ gets, trace st' = trace st ++ gets ∧ only_gets gets.

(** A computation that leaves the object as it found it. *)
Definition keeps_self {World A} (c : @M World A) : Prop :=
  ∀ st, self (c st).2 = self st.

(** The object after [_post] or [_patch] was given the extra headers [hdrs]:
    they are merged into its header map, over the entries it had. *)
Definition with_headers (k : Kong) (hdrs : option (gmap string string)) : Kong :=
  match hdrs with
  | Some h => MkKong (base_url k) (auth k) (h ∪ headers k)
  | None => k
  end.

(** The object [__init__] builds. *)
Definition constructed (url : string) (auth_user auth_pass : option string) : Kong :=
  match auth_user, auth_pass with
  | Some u, Some p => MkKong url (Some (u, p)) {["Kong-Admin-Token" := p]}
  | _, _ => MkKong url None ∅
  end.

(** The requests of a trace that are not GETs. *)
Definition writes (reqs : list request) : list request :=
  List.filter (λ r, negb (bool_decide (req_method r = GET))) reqs.

(** The exception of the first test of [plugin_query]. *)
Definition need_one : exn :=
  ValueError "Need at least one of 'plugin_id' or 'name'".

(** A computation that never ends with [need_one]. *)
Definition past_the_check {World A} (c : @M World A) : Prop :=
  ∀ st, (c st).1 ≠ Raise need_one.

(** What [plugin.get(relation)] gives, [None] when [plugin] has no such key. *)
Definition binding (plugin : val) (relation : string) : val :=
  match plugin with
  | VDict m => from_option id VNone (m !! relation)
  | _ => VNone
  end.

(** A plugin is bound to a service, route or consumer when the field holds a
    reference: in the admin API the field is [null] or an object with the
    [id] of the resource, and the client tests it with [bool]. *)
Definition bound (plugin : val) (relation : string) : Prop :=
  truthy (binding plugin relation) = true.

(** The id a plugin is bound to. *)
Definition bound_id (plugin : val) (relation : string) : val :=
  binding (binding plugin relation) "id".

(** How a name argument of [plugin_query] resolves from the state [st]: a
    falsy argument (no name) resolves to no id and leaves the state alone; a
    name resolves to the [id] of the object its resolver returns. *)
Definition resolution {World} (getter : val → @M World val) (name : arg)
    (st : @state World) (id : option string) (st' : @state World) : Prop :=
  if arg_truthy name then
    ∃ found s,
      getter (arg_val name) st = (Return found, st')
      ∧ binding found "id" = VStr s ∧ id = Some s
  else id = None ∧ st' = st.

(** A plugin agrees with a resolved binding: unbound when there is no id,
    bound to that very id when there is one. *)
Definition binding_matches (plugin : val) (relation : string) (id : option string)
    : Prop :=
  match id with
  | None => ¬ bound plugin relation
  | Some s => bound plugin relation ∧ bound_id plugin relation = VStr s
  end.

(** How a name argument of [plugin_apply] contributes to the payload, from
    the state [st]: nothing for a falsy argument; for a name, the ['id'] of
    the object its resolver returns. *)
Definition payload_id {World} (getter : val → @M World val) (name : arg)
    (st : @state World) (id : option val) (st' : @state World) : Prop :=
  if arg_truthy name then
    ∃ found x,
      getter (arg_val name) st = (Return found, st')
      ∧ getitem found "id" = Return x ∧ id = Some x
  else id = None ∧ st' = st.

(** The strings of a match field of a route: the field is absent or [null]
    (no strings) or a list of [str]. *)
Definition strings_of (v : val) : option (list string) :=
  match v with
  | VNone => Some []
  | VList l => all_str l
  | _ => None
  end.

Definition route_field (route : val) (field : string) : option (list string) :=
  match route with
  | VDict m => strings_of (from_option id VNone (m !! field))
  | _ => None
  end.

(** A route as the admin API lists it: an object whose four match fields are
    absent, [null] or lists of [str]. *)
Definition is_route (route : val) : Prop :=
  ∀ field, field ∈ ["hosts"; "paths"; "methods"; "protocols"] →
    is_Some (route_field route field).

Definition field_strings (route : val) (field : string) : list string :=
  default [] (route_field route field).

(** The two readings of "the same collection": the same strings with the same
    number of occurrences, in any order; or the same set of strings. *)
Definition same_multiset (l1 l2 : list string) : Prop := l1 ≡ₚ l2.
Definition same_set (l1 l2 : list string) : Prop := ∀ x, x ∈ l1 ↔ x ∈ l2.

(** A route is equivalent to the wanted collections under a reading [same]
    of "the same collection". *)
Definition route_equivalent (same : list string → list string → Prop) (route : val)
    (hosts paths methods protocols : list string) : Prop :=
  same (field_strings route "hosts") hosts
  ∧ same (field_strings route "paths") paths
  ∧ same (field_strings route "methods") methods
  ∧ same (field_strings route "protocols") protocols.

(** A page of a list endpoint: an object with a ['data'] list and a ['next']
    cursor. *)
Definition is_page (p : val) (data : list val) (next : val) : Prop :=
  ∃ m, p = VDict m ∧ m !! "data" = Some (VList data) ∧ m !! "next" = Some next.

(** The first page once the data of the later pages are appended to its
    own. *)
Definition with_data (p : val) (data : list val) : val :=
  match p with
  | VDict m => VDict (<["data" := VList data]> m)
  | _ => p
  end.

(** The GET request the object of [st] sends for [url]. *)
Definition get_request {World} (st : @state World) (url : string) : request :=
  Request GET url VNone VNone (auth (self st)) (headers (self st)).

(** The request with the method [m] and the body [data] that the object of
    [st] sends for [url]. *)
Definition write_request {World} (st : @state World) (m : method) (url : string)
    (data : val) : request :=
  Request m url VNone data (auth (self st)) (headers (self st)).

(** What [_post] ([expected] 201) and [_patch] ([expected] 200) make of the
    gateway's answer. *)
Definition written (expected : Z) (url : string) (data : val) (a : reply) : outcome val :=
  match a with
  | NoAnswer => Raise ConnectionError
  | Answer r =>
      if status_code r =? expected then dot_json r
      else err ← dot_json r; Raise (UnexpectedStatus (status_code r) expected url err data)
  end.

(** What [_delete] makes of the gateway's answer. *)
Definition deleted (a : reply) : outcome bool :=
  match a with
  | NoAnswer => Raise ConnectionError
  | Answer r =>
      if status_code r =? 204 then Return true
      else Raise (UnexpectedDeleteStatus (status_code r) 204)
  end.

(** The state after the gateway, now [w], has been sent [req]. *)
Definition sent {World} (st : @state World) (req : request) (w : World) : @state World :=
  State (self st) w (trace st ++ [req]).

(** [follows send p st qs st']: from the state [st], in which [p] is the page
    fetched last, the gateway serves the pages [qs] one after the other, each
    at the cursor of the page before it taken as a path under the base URL
    without its slashes at the ends, and the last page has a falsy cursor. *)
Inductive follows {World} (send : request → World → reply * World)
    : val → @state World → list val → @state World → Prop :=
| follows_end p data next st :
    is_page p data next → truthy next = false →
    follows send p st [] st
| follows_next p data cursor st status q w qs st' :
    is_page p data (VStr cursor) → cursor ≠ "" →
    send (get_request st (base_url (self st) +:+ "/" +:+ strip_slash cursor)) (world st)
      = (Answer (Response status (Some q)), w) →
    ¬ (400 ≤ status < 600) →
    follows send q
      (sent st (get_request st (base_url (self st) +:+ "/" +:+ strip_slash cursor)) w)
      qs st' →
    follows send p st (q :: qs) st'.

(** The cursor of a page, when it is a [str]. *)
Definition cursor_of (p : val) : string :=
  match binding p "next" with
  | VStr c => c
  | _ => ""
  end.

(** The GET that follows the cursor of [page]: the cursor without its
    slashes at the ends, as a path under the base URL. *)
Definition cursor_request {World} (st : @state World) (page : val) : request :=
  get_request st (base_url (self st) +:+ "/" +:+ strip_slash (cursor_of page)).

(** The data of a page. *)
Definition data_of (p : val) : list val :=
  match binding p "data" with
  | VList l => l
  | _ => []
  end.

(** The URL of the path segments that are present, under the base URL of the
    object. *)
Definition url_of {World} (st : @state World) (segments : list (option string)) : string :=
  String.concat "/" (base_url (self st) :: omap id segments).

(** The request with the method [m] that the object [k] sends for [url]. *)
Definition request_of (k : Kong) (m : method) (url : string) (params data : val) : request :=
  Request m url params data (auth k) (headers k).

(** The path under which [plugin_query] lists the candidates: the collection
    of the last name given among service, route and consumer, else the plugin
    of the given id, else all the plugins. *)
Definition scope (service_name route_name consumer_name : arg)
    (plugin_id : option string) : list (option string) :=
  if arg_truthy consumer_name then
    [Some "consumers"; Some (arg_str consumer_name); Some "plugins"]
  else if arg_truthy route_name then
    [Some "routes"; Some (arg_str route_name); Some "plugins"]
  else if arg_truthy service_name then
    [Some "services"; Some (arg_str service_name); Some "plugins"]
  else if opt_truthy plugin_id then [Some "plugins"; plugin_id]
  else [Some "plugins"].

(** A computation that adds at most one request that is not a GET to the
    trace, with a method among [allowed]. *)
Definition at_most_one_write {World A} (allowed : list method) (c : @M World A) : Prop :=
  ∀ st o st', c st = (o, st') →
    ∃ ws, (length ws ≤ 1)%nat
          ∧ Forall (λ r, req_method r ∈ allowed) ws
          ∧ writes (trace st') = writes (trace st) ++ ws.

(** What [_post] (with [expected] 201) and [_patch] (200) return or raise for
    an answer, the body being read in either case. *)
Definition answered (expected : Z) (url : string) (data : val) (a : reply) : outcome val :=
  match a with
  | NoAnswer => Raise ConnectionError
  | Answer r =>
      match json r with
      | None => Raise JSONDecodeError
      | Some body =>
          if status_code r =? expected then Return body
          else Raise (UnexpectedStatus (status_code r) expected url body data)
      end
  end.

(** The dictionary that [route_apply] serialises, for the service id
    [service_id]. *)
Definition route_document (service_id : val) (name : option string)
    (hosts paths methods protocols : option (list string))
    (strip_path preserve_host : bool) : gmap string val :=
  <["name" := opt_val name]> (<["protocols" := opt_list_val protocols]>
    (<["methods" := opt_list_val methods]> (<["hosts" := opt_list_val hosts]>
    (<["paths" := opt_list_val paths]> (<["strip_path" := VBool strip_path]>
    (<["preserve_host" := VBool preserve_host]>
    {["service" := VDict {["id" := service_id]}]})))))).

(** The test as a boolean, [false] where it does not return. *)
Definition passes (test : val → outcome bool) (x : val) : bool :=
  match test x with
  | Return b => b
  | _ => false
  end.

(** A computation that adds no request other than GETs to the trace. *)
Definition writes_nothing {World A} (c : @M World A) : Prop :=
  ∀ st o st', c st = (o, st') → writes (trace st') = writes (trace st).

(** [s.split('\n')]: the pieces of [s] between its newlines. *)
Fixpoint split_lines (s : string) : list string :=
  match s with
  | EmptyString => [EmptyString]
  | String c s' =>
      if Ascii.eqb c "010"%char then EmptyString :: split_lines s'
      else match split_lines s' with
           | piece :: pieces => String c piece :: pieces
           | [] => [String c EmptyString]
           end
  end.

(** A string without a newline in it. *)
Fixpoint one_line (s : string) : Prop :=
  match s with
  | EmptyString => True
  | String c s' => c ≠ "010"%char ∧ one_line s'
  end.

(** ** A gateway for the examples *)

(** A gateway without state that answers by method and URL from a table, and
    with 404 elsewhere. *)
Definition not_found : response :=
  Response 404 (Some (VDict {["message" := VStr "Not found"]})).

Fixpoint table_lookup (table : list (method * string * response)) (m : method)
    (url : string) : response :=
  match table with
  | [] => not_found
  | (m', url', r) :: table' =>
      if bool_decide (m' = m) && String.eqb url' url then r
      else table_lookup table' m url
  end.

Definition table_gateway (table : list (method * string * response))
    : request → unit → reply * unit :=
  λ req _, (Answer (table_lookup table (req_method req) (req_url req)), ()).

(** A [uuid] module that accepts the strings of 36 characters. *)
Definition uuid36 : uuid_module :=
  UuidModule (λ s, bool_decide (String.length s = 36%nat)) eq_refl.

Definition example_client : Kong := MkKong "http://kong:8001" None ∅.

Definition example_state : @state unit := State example_client () [].

Definition ok (v : val) : response := Response 200 (Some v).

Definition reference (id : string) : val := VDict {["id" := VStr id]}.

Definition list_page (data : list val) (next : val) : val :=
  VDict (<["data" := VList data]> {["next" := next]}).

Definition svc1_id : string := "11111111-1111-1111-1111-111111111111".
Definition con1_id : string := "22222222-2222-2222-2222-222222222222".
Definition plugin_a_id : string := "aaaaaaaa-aaaa-aaaa-aaaa-aaaaaaaaaaaa".
Definition plugin_b_id : string := "bbbbbbbb-bbbb-bbbb-bbbb-bbbbbbbbbbbb".

(** A plugin object of the admin API. *)
Definition plugin_object (id name : string) (service route consumer : val) : val :=
  VDict (<["id" := VStr id]> (<["name" := VStr name]> (<["service" := service]>
         (<["route" := route]> {["consumer" := consumer]})))).

Definition only_service : val := plugin_object plugin_a_id "rate-limiting"
  (reference svc1_id) VNone VNone.

Definition service_and_consumer : val := plugin_object plugin_b_id "rate-limiting"
  (reference svc1_id) VNone (reference con1_id).

(** A gateway with the service ["svc1"], the consumer ["con1"] and two
    ["rate-limiting"] plugins on the service, the second one bound to the
    consumer as well. *)
Definition gateway1 : request → unit → reply * unit :=
  table_gateway
    [ (GET, "http://kong:8001/services/svc1",
       ok (VDict (<["id" := VStr svc1_id]> {["name" := VStr "svc1"]})));
      (GET, "http://kong:8001/consumers/con1",
       ok (VDict (<["id" := VStr con1_id]> {["username" := VStr "con1"]})));
      (GET, "http://kong:8001/services/svc1/plugins",
       ok (list_page [only_service; service_and_consumer] VNone));
      (GET, "http://kong:8001/consumers/con1/plugins",
       ok (list_page [service_and_consumer] VNone));
      (GET, "http://kong:8001/plugins",
       ok (list_page [only_service; service_and_consumer] VNone));
      (POST, "http://kong:8001/plugins", Response 201 (Some (reference plugin_b_id)));
      (PATCH, "http://kong:8001/plugins/aaaaaaaa-aaaa-aaaa-aaaa-aaaaaaaaaaaa",
       Response 200 (Some only_service));
      (DELETE, "http://kong:8001/plugins/aaaaaaaa-aaaa-aaaa-aaaa-aaaaaaaaaaaa",
       Response 204 None) ].

(** The state after the requests to [urls], one GET each, from [st]. *)
Definition after_gets (st : @state unit) (urls : list string) : @state unit :=
  foldl (λ st url, sent st (get_request st url) ()) st urls.

(** The config [{"a": 1, "b": {"c": 2}}] and the payload it gives for
    ["rate-limiting"] on ["svc1"]. *)
Definition example_config : gmap string val :=
  <["a" := VInt 1]> {["b" := VDict {["c" := VInt 2]}]}.

Definition example_payload : gmap string val :=
  <["service.id" := VStr svc1_id]>
    (<["config.a" := VInt 1]> (<["config.b" := VDict {["c" := VInt 2]}]>
       {["name" := VStr "rate-limiting"]})).

(** Three pages of plugins, chained by their cursors. *)
Definition page1 : val := list_page [only_service] (VStr "/plugins?offset=2").
Definition page2 : val := list_page [service_and_consumer] (VStr "/plugins?offset=3").
Definition page3 : val := list_page [reference plugin_b_id] VNone.

Definition gateway3 : request → unit → reply * unit :=
  table_gateway
    [ (GET, "http://kong:8001/plugins", ok page1);
      (GET, "http://kong:8001/plugins?offset=2", ok page2);
      (GET, "http://kong:8001/plugins?offset=3", ok page3) ].

(** A route of ["svc1"] with the hosts [a] and [b], and one that lists the
    host [a] twice. *)
Definition route_ab : val :=
  VDict (<["id" := VStr plugin_a_id]> {["hosts" := VList [VStr "a"; VStr "b"]]}).

Definition route_aa : val :=
  VDict (<["id" := VStr plugin_b_id]> {["hosts" := VList [VStr "a"; VStr "a"]]}).

Definition service1 : val := VDict (<["id" := VStr svc1_id]> {["name" := VStr "svc1"]}).

Definition gateway_ab : request → unit → reply * unit :=
  table_gateway
    [ (GET, "http://kong:8001/services/svc1", ok service1);
      (GET, "http://kong:8001/services/svc1/routes",
       ok (VDict {["data" := VList [route_ab]]})) ].

Definition gateway_aa : request → unit → reply * unit :=
  table_gateway
    [ (GET, "http://kong:8001/services/svc1", ok service1);
      (GET, "http://kong:8001/services/svc1/routes",
       ok (VDict {["data" := VList [route_aa]]})) ].

(** A gateway that fails on every request with 500. *)
Definition gateway_500 : request → unit → reply * unit :=
  λ _ _, (Answer (Response 500 (Some (VDict {["message" := VStr "An unexpected error occurred"]}))), ()).

(** The headers [route_apply] passes to [_post] and [_patch]. *)
Definition json_headers : gmap string string :=
  {["content-type" := "application/json"]}.

(** A gateway whose status reports a reachable database. *)
Definition status_body : val :=
  VDict {["database" := VDict {["reachable" := VBool true]}]}.

Definition gateway_status : request → unit → reply * unit :=
  table_gateway [ (GET, "http://kong:8001/status", ok status_body) ].

(** A serialiser for the examples: it only tells the documents apart by the
    name of the route. *)
Definition dumps_name (v : val) : string :=
  match binding v "name" with
  | VStr s => "{name: " +:+ s +:+ "}"
  | _ => "{}"
  end.

Definition gateway_routes : request → unit → reply * unit :=
  table_gateway
    [ (GET, "http://kong:8001/services/svc1", ok service1);
      (GET, "http://kong:8001/services/svc1/routes",
       ok (VDict {["data" := VList [route_ab]]}));
      (POST, "http://kong:8001/routes", Response 201 (Some route_ab));
      (PATCH, "http://kong:8001/routes/r1", Response 200 (Some route_ab)) ].

(** A gateway whose list of plugins points to itself, one that serves a
    single plugin at its id, and one whose service has an id that is no
    UUID. *)
Definition gateway_loop : request → unit → reply * unit :=
  table_gateway
    [ (GET, "http://kong:8001/plugins", ok (list_page [only_service] (VStr "/plugins"))) ].

Definition gateway_one : request → unit → reply * unit :=
  table_gateway
    [ (GET, "http://kong:8001/plugins/aaaaaaaa-aaaa-aaaa-aaaa-aaaaaaaaaaaa",
       ok only_service) ].

Definition gateway_bad_id : request → unit → reply * unit :=
  table_gateway
    [ (GET, "http://kong:8001/services/svc1", ok (VDict {["id" := VStr "123"]})) ].

(** A gateway with a state: whether it is ready, and whether it holds the
    route ["r1"].  Until it is ready it answers 503, and is ready from the
    next request on.  Once ready it serves the route it holds at
    [/routes/r1], removes it on DELETE with 204, and answers 404
    elsewhere. *)
Definition route_r1 : val :=
  VDict (<["id" := VStr plugin_a_id]> {["name" := VStr "r1"]}).

Definition unavailable : response :=
  Response 503 (Some (VDict {["message" := VStr "Service unavailable"]})).

Definition gateway_warming : request → bool * bool → reply * (bool * bool) :=
  λ req w,
    let '(ready, present) := w in
    if negb ready then (Answer unavailable, (true, present))
    else if negb (String.eqb (req_url req) "http://kong:8001/routes/r1") || negb present
    then (Answer not_found, (true, present))
    else match req_method req with
         | GET => (Answer (ok route_r1), (true, true))
         | DELETE => (Answer (Response 204 None), (true, false))
         | _ => (Answer not_found, (true, true))
         end.

(** The client before the first request to that gateway, which holds the
    route. *)
Definition warming_state : @state (bool * bool) :=
  State example_client (false, true) [].

(** ** Facts about the monad and the transport adapter *)

Section Transport_facts.

Context {World : Type}.
Variable send : request → World → reply * World.
Local Abbreviation M := (@M World).
Local Abbreviation state := (@state World).

Lemma bind_Return {A B} (c : M A) (f : A → M B) st a st' :
  c st = (Return a, st') → (c ≫= f) st = f a st'.
Proof. intros H. unfold mbind, M_bind. by rewrite H. Qed.

Lemma bind_Raise {A B} (c : M A) (f : A → M B) st e st' :
  c st = (Raise e, st') → (c ≫= f) st = (Raise e, st').
Proof. intros H. unfold mbind, M_bind. by rewrite H. Qed.

Lemma bind_Stuck {A B} (c : M A) (f : A → M B) st s st' :
  c st = (Stuck s, st') → (c ≫= f) st = (Stuck s, st').
Proof. intros H. unfold mbind, M_bind. by rewrite H. Qed.

Lemma bind_inv {A B} (c : M A) (f : A → M B) st b st2 :
  (c ≫= f) st = (Return b, st2) →
  ∃ a st1, c st = (Return a, st1) ∧ f a st1 = (Return b, st2).
Proof.
  unfold mbind, M_bind. destruct (c st) as [[a|e|s] st1]; [eauto|done..].
Qed.

Lemma pure_inv {A} (c : outcome A) (st : state) o st' :
  pure c st = (o, st') → o = c ∧ st' = st.
Proof. unfold pure. by intros [= <- <-]. Qed.

Lemma only_gets_nil : only_gets [].
Proof. constructor. Qed.

Lemma only_gets_app l1 l2 : only_gets l1 → only_gets l2 → only_gets (l1 ++ l2).
Proof. apply Forall_app_2. Qed.

Lemma writes_app l1 l2 : writes (l1 ++ l2) = writes l1 ++ writes l2.
Proof. apply List.filter_app. Qed.

Lemma writes_only_gets l : only_gets l → writes l = [].
Proof.
  induction 1 as [|r l Hr _ IH]; [done|].
  simpl. by rewrite bool_decide_eq_true_2.
Qed.

Lemma reads_nothing (st : state) :
  self st = self st ∧ ∃ gets, trace st = trace st ++ gets ∧ only_gets gets.
Proof. split; [done|]. exists []. split; [by rewrite app_nil_r | constructor]. Qed.

Lemma reads_only_ret {A} (a : A) : reads_only (mret a : M A).
Proof. intros st o st' [= <- <-]. apply reads_nothing. Qed.

Lemma reads_only_pure {A} (c : outcome A) : reads_only (pure c : M A).
Proof. intros st o st' [-> ->]%pure_inv. apply reads_nothing. Qed.

Lemma reads_only_raise {A} e : reads_only (raise e : M A).
Proof. apply reads_only_pure. Qed.

Lemma reads_only_bind {A B} (c : M A) (f : A → M B) :
  reads_only c → (∀ a, reads_only (f a)) → reads_only (c ≫= f).
Proof.
  intros Hc Hf st o st'. unfold mbind, M_bind.
  destruct (c st) as [[a|e|s] st1] eqn:E;
    destruct (Hc _ _ _ E) as (Hs & g1 & Ht & Hg).
  - intros E2. destruct (Hf _ _ _ _ E2) as (Hs2 & g2 & Ht2 & Hg2).
    split; [congruence|]. exists (g1 ++ g2).
    split; [by rewrite Ht2, Ht, app_assoc | by apply only_gets_app].
  - intros [= <- <-]. eauto.
  - intros [= <- <-]. eauto.
Qed.

Lemma reads_only_get_self : reads_only (get_self : M Kong).
Proof. intros st o st' [= <- <-]. apply reads_nothing. Qed.

Lemma reads_only_requests_GET url params data :
  reads_only (requests send GET url params data).
Proof.
  intros st o st'. unfold requests.
  destruct (send _ (world st)) as [a w]. intros [= <- <-].
  split; [done|]. eexists. split; [done|]. by repeat constructor.
Qed.

Lemma reads_only_url uri : reads_only (_url uri : M string).
Proof.
  unfold _url. apply reads_only_bind; [apply reads_only_get_self|].
  intros k. destruct (List.filter _ _);
    [apply reads_only_ret | apply reads_only_pure].
Qed.

Lemma reads_only_get uri params : reads_only (_get send uri params).
Proof.
  unfold _get. apply reads_only_bind; [apply reads_only_url|]. intros url.
  apply reads_only_bind; [apply reads_only_requests_GET|]. intros r.
  apply reads_only_bind; intros; apply reads_only_pure.
Qed.

Lemma reads_only_try (c : M val) : reads_only c → reads_only (try_except_HTTPError c).
Proof.
  intros Hc st o st'. unfold try_except_HTTPError.
  destruct (c st) as [[a|e|s] st1] eqn:E; [| destruct e |];
    intros [= <- <-]; eauto.
Qed.

End Transport_facts.

(** ** Facts about the resolvers and the queries *)

Section Query_facts.

Context {World : Type}.
Variable send : request → World → reply * World.
Variable uuid : uuid_module.
Local Abbreviation M := (@M World).
Local Abbreviation state := (@state World).

Lemma reads_only_service_get id : reads_only (service_get send id).
Proof.
  intros st o st'. unfold service_get.
  destruct (_get send _ VNone st) as [o1 st1] eqn:E.
  pose proof (reads_only_get send _ _ _ _ _ E) as H.
  destruct o1 as [a|e|s]; [| destruct e as [| | | |z| | | |] |];
    try (intros [= <- <-]; exact H).
  destruct z as [|p|p]; try (intros [= <- <-]; exact H).
  repeat (destruct p as [p|p|]; try (intros [= <- <-]; exact H)).
Qed.

Lemma reads_only_consumer_get id : reads_only (consumer_get send id).
Proof.
  intros st o st'. unfold consumer_get.
  destruct (_get send _ VNone st) as [o1 st1] eqn:E.
  pose proof (reads_only_get send _ _ _ _ _ E) as H.
  destruct o1 as [a|e|s]; [| destruct e as [| | | |z| | | |] |];
    try (intros [= <- <-]; exact H).
  destruct z as [|p|p]; try (intros [= <- <-]; exact H).
  repeat (destruct p as [p|p|]; try (intros [= <- <-]; exact H)).
Qed.

Lemma reads_only_route_get id : reads_only (route_get send id).
Proof. apply reads_only_try, reads_only_get. Qed.

Lemma reads_only_route_list name : reads_only (route_list send name).
Proof.
  unfold route_list. apply reads_only_bind; [apply reads_only_get|].
  intros r. apply reads_only_pure.
Qed.

Lemma reads_only_query_binding (getter : val → M val) collection message name uri :
  (∀ id, reads_only (getter id)) →
  reads_only (query_binding uuid getter collection message name uri).
Proof.
  intros Hg. unfold query_binding.
  destruct (arg_truthy name); [|apply reads_only_ret].
  apply reads_only_bind; [apply Hg|]. intros found.
  apply reads_only_bind; [apply reads_only_pure|]. intros found_id.
  apply reads_only_bind; [apply reads_only_pure|]. intros id.
  destruct (is_none found); [apply reads_only_raise | apply reads_only_ret].
Qed.

Lemma reads_only_plugin_query_while fuel plugins res :
  reads_only (plugin_query_while send fuel plugins res).
Proof.
  revert plugins res. induction fuel as [|fuel IH]; intros plugins res; simpl.
  - apply reads_only_bind; [apply reads_only_pure|]. intros next.
    destruct (truthy next); [apply reads_only_pure | apply reads_only_ret].
  - apply reads_only_bind; [apply reads_only_pure|]. intros next.
    destruct (truthy next); [|apply reads_only_ret].
    apply reads_only_bind; [apply reads_only_pure|]. intros uri.
    apply reads_only_bind; [apply reads_only_get|]. intros res'.
    do 4 (apply reads_only_bind; [apply reads_only_pure|]; intros ?).
    apply IH.
Qed.

Lemma reads_only_plugin_query fuel name service_name route_name consumer_name plugin_id :
  reads_only
    (plugin_query send uuid fuel name service_name route_name consumer_name plugin_id).
Proof.
  unfold plugin_query.
  assert (reads_only
    ('(uri, service_id) ←
       query_binding uuid (service_get send) "services"
         "Service 'None' not found. Has it been created?" service_name
         (if opt_truthy plugin_id then VList [VStr "plugins"; opt_val plugin_id]
          else VList [VStr "plugins"]);
     '(uri, route_id) ←
       query_binding uuid (route_get send) "routes"
         "Route 'None' not found. Has it been created?" route_name uri;
     '(uri, consumer_id) ←
       query_binding uuid (consumer_get send) "consumers"
         "Consumer None not found. Has it been created?" consumer_name uri;
     res ← _get send uri VNone;
     plugins ← plugin_query_while send fuel res res;
     data ← pure (getitem plugins "data");
     items ← pure (iter data);
     pure (select (plugin_matches name consumer_id service_id route_id) items []))) as H.
  { apply reads_only_bind;
      [apply reads_only_query_binding, reads_only_service_get|]. intros [uri1 sid].
    apply reads_only_bind;
      [apply reads_only_query_binding, reads_only_route_get|]. intros [uri2 rid].
    apply reads_only_bind;
      [apply reads_only_query_binding, reads_only_consumer_get|]. intros [uri3 cid].
    apply reads_only_bind; [apply reads_only_get|]. intros res.
    apply reads_only_bind; [apply reads_only_plugin_query_while|]. intros plugins.
    do 2 (apply reads_only_bind; [apply reads_only_pure|]; intros ?).
    apply reads_only_pure. }
  destruct plugin_id, name; try exact H. apply reads_only_raise.
Qed.

Lemma reads_only_apply_binding (getter : val → M val) label key name data :
  (∀ id, reads_only (getter id)) →
  reads_only (apply_binding getter label key name data).
Proof.
  intros Hg. unfold apply_binding.
  destruct (arg_truthy name); [|apply reads_only_ret].
  apply reads_only_bind; [apply Hg|]. intros s.
  destruct (is_none s); [apply reads_only_raise|].
  apply reads_only_bind; [apply reads_only_pure|]. intros id.
  apply reads_only_ret.
Qed.

Lemma reads_only_plugin_payload name config service_name route_name consumer_name :
  reads_only (plugin_payload send name config service_name route_name consumer_name).
Proof.
  unfold plugin_payload.
  apply reads_only_bind.
  { destruct config; try apply reads_only_raise; apply reads_only_ret. }
  intros d0.
  apply reads_only_bind;
    [apply reads_only_apply_binding, reads_only_service_get|]. intros d1.
  apply reads_only_bind;
    [apply reads_only_apply_binding, reads_only_route_get|]. intros d2.
  apply reads_only_apply_binding, reads_only_consumer_get.
Qed.

End Query_facts.

(** ** The precondition of [plugin_query] *)

Section Precondition_facts.

Context {World : Type}.
Variable send : request → World → reply * World.
Variable uuid : uuid_module.
Local Abbreviation M := (@M World).
Local Abbreviation state := (@state World).

Lemma past_ret {A} (a : A) : past_the_check (mret a : M A).
Proof. by intros st. Qed.

Lemma past_pure {A} (c : outcome A) : c ≠ Raise need_one → past_the_check (pure c : M A).
Proof. by intros H st. Qed.

(** Closes [f x ≠ Raise need_one] for an operation [f] on values, by cases. *)
Ltac other_exception f :=
  apply past_pure; unfold f, need_one; repeat case_match; simpl; congruence.

Lemma past_bind {A B} (c : M A) (f : A → M B) :
  past_the_check c → (∀ a, past_the_check (f a)) → past_the_check (c ≫= f).
Proof.
  intros Hc Hf st. unfold mbind, M_bind.
  specialize (Hc st). destruct (c st) as [[a|e|s] st1]; simpl in *.
  - apply Hf.
  - intros [= ->]. by apply Hc.
  - done.
Qed.

Lemma join_slash_raises items e : join_slash items = Raise e → e = TypeError.
Proof.
  induction items as [|x items IH]; simpl; [done|].
  destruct x; try by intros [= <-].
  destruct items as [|y items]; [done|].
  destruct (join_slash (y :: items)) as [r|e'|s'] eqn:E; simpl; try done;
    try (intros [= <-]; by apply IH).
Qed.

Lemma past_url uri : past_the_check (_url uri : M string).
Proof.
  unfold _url. apply past_bind; [by intros st|]. intros k.
  destruct (List.filter _ _) as [|x l]; [apply past_ret|].
  apply past_pure. intros H. by apply join_slash_raises in H.
Qed.

Lemma past_requests m url params data : past_the_check (requests send m url params data).
Proof.
  intros st. unfold requests. destruct (send _ _) as [[r|] w]; by simpl.
Qed.

Lemma past_get uri params : past_the_check (_get send uri params).
Proof.
  unfold _get. apply past_bind; [apply past_url|]. intros url.
  apply past_bind; [apply past_requests|]. intros r.
  apply past_bind.
  - other_exception raise_for_status.
  - intros _. other_exception dot_json.
Qed.

Lemma past_service_get id : past_the_check (service_get send id).
Proof.
  intros st. unfold service_get.
  pose proof (past_get (VList [VStr "services"; id]) VNone st) as H.
  destruct (_get send _ VNone st) as [o st1]. simpl in H.
  repeat case_match; simplify_eq; by simpl.
Qed.

Lemma past_consumer_get id : past_the_check (consumer_get send id).
Proof.
  intros st. unfold consumer_get.
  pose proof (past_get (VList [VStr "consumers"; id]) VNone st) as H.
  destruct (_get send _ VNone st) as [o st1]. simpl in H.
  repeat case_match; simplify_eq; by simpl.
Qed.

Lemma past_route_get id : past_the_check (route_get send id).
Proof.
  intros st. unfold route_get, try_except_HTTPError.
  pose proof (past_get (VList [VStr "routes"; id]) VNone st) as H.
  destruct (_get send _ VNone st) as [o st1]. simpl in H.
  repeat case_match; simplify_eq; by simpl.
Qed.

Lemma past_query_binding (getter : val → M val) collection message name uri :
  (∀ id, past_the_check (getter id)) → ValueError message ≠ need_one →
  past_the_check (query_binding uuid getter collection message name uri).
Proof.
  intros Hg Hm. unfold query_binding.
  destruct (arg_truthy name); [|apply past_ret].
  apply past_bind; [apply Hg|]. intros found.
  apply past_bind; [other_exception dot_get|]. intros found_id.
  apply past_bind; [other_exception uuid_UUID|]. intros id.
  destruct (is_none found); [|apply past_ret].
  apply past_pure. congruence.
Qed.

Lemma past_plugin_query_while fuel plugins res :
  past_the_check (plugin_query_while send fuel plugins res).
Proof.
  revert plugins res. induction fuel as [|fuel IH]; intros plugins res; simpl.
  - apply past_bind; [other_exception getitem|].
    intros next. destruct (truthy next); [by apply past_pure | apply past_ret].
  - apply past_bind; [other_exception getitem|].
    intros next. destruct (truthy next); [|apply past_ret].
    apply past_bind; [other_exception dot_strip|]. intros uri.
    apply past_bind; [apply past_get|]. intros res'.
    apply past_bind; [other_exception getitem|]. intros d.
    apply past_bind; [other_exception getitem|]. intros d'.
    apply past_bind.
    { apply past_pure. unfold iadd, iter, need_one.
      repeat case_match; simpl; congruence. }
    intros d''.
    apply past_bind; [other_exception setitem|]. intros p.
    apply IH.
Qed.

Lemma select_raises test items result e :
  select test items result = Raise e → ∃ x, x ∈ items ∧ test x = Raise e.
Proof.
  revert result. induction items as [|x items IH]; intros result; simpl; [done|].
  destruct (test x) as [b|e'|s] eqn:E; simpl.
  - intros H. destruct (IH _ H) as (y & Hy & Hr). exists y. split; [by right|done].
  - intros [= <-]. exists x. split; [by left|done].
  - done.
Qed.

Lemma binding_agrees_raises bound id e :
  binding_agrees bound id = Raise e → e = AttributeError.
Proof.
  unfold binding_agrees, dot_get. repeat case_match; simpl; try done.
  all: by intros [= <-].
Qed.

Lemma plugin_matches_raises name cid sid rid plugin e :
  plugin_matches name cid sid rid plugin = Raise e → e = AttributeError.
Proof.
  unfold plugin_matches. destruct plugin; simpl; try by intros [= <-].
  case_match; [done|].
  destruct (binding_agrees _ cid) as [b|e'|s] eqn:E1; simpl; try done.
  2: { intros [= <-]. by eapply binding_agrees_raises. }
  destruct b; simpl; [|done].
  destruct (binding_agrees _ sid) as [b|e'|s] eqn:E2; simpl; try done.
  2: { intros [= <-]. by eapply binding_agrees_raises. }
  destruct b; simpl; [|done].
  apply binding_agrees_raises.
Qed.

Lemma past_plugin_query fuel name service_name route_name consumer_name plugin_id :
  is_Some name ∨ is_Some plugin_id →
  past_the_check
    (plugin_query send uuid fuel name service_name route_name consumer_name plugin_id).
Proof.
  intros Hsome. unfold plugin_query.
  assert (past_the_check
    ('(uri, service_id) ←
       query_binding uuid (service_get send) "services"
         "Service 'None' not found. Has it been created?" service_name
         (if opt_truthy plugin_id then VList [VStr "plugins"; opt_val plugin_id]
          else VList [VStr "plugins"]);
     '(uri, route_id) ←
       query_binding uuid (route_get send) "routes"
         "Route 'None' not found. Has it been created?" route_name uri;
     '(uri, consumer_id) ←
       query_binding uuid (consumer_get send) "consumers"
         "Consumer None not found. Has it been created?" consumer_name uri;
     res ← _get send uri VNone;
     plugins ← plugin_query_while send fuel res res;
     data ← pure (getitem plugins "data");
     items ← pure (iter data);
     pure (select (plugin_matches name consumer_id service_id route_id) items []))) as H.
  { apply past_bind;
      [apply past_query_binding; [apply past_service_get | done]|]. intros [uri1 sid].
    apply past_bind;
      [apply past_query_binding; [apply past_route_get | done]|]. intros [uri2 rid].
    apply past_bind;
      [apply past_query_binding; [apply past_consumer_get | done]|]. intros [uri3 cid].
    apply past_bind; [apply past_get|]. intros res.
    apply past_bind; [apply past_plugin_query_while|]. intros plugins.
    apply past_bind; [other_exception getitem|]. intros d.
    apply past_bind; [other_exception iter|]. intros items.
    apply past_pure. intros Hr.
    apply select_raises in Hr as (x & _ & Hx).
    by apply plugin_matches_raises in Hx. }
  destruct plugin_id, name; try exact H.
  destruct Hsome as [[? [=]]|[? [=]]].
Qed.

(** C10: a call of [plugin_query] with neither [name] nor [plugin_id] raises
    the [ValueError] "Need at least one of 'plugin_id' or 'name'" and has sent
    nothing by then: the state, with its trace of requests, is the one the
    call started in.  A call with at least one of the two never ends with that
    exception. *)
Theorem plugin_query_needs_name_or_id
    fuel service_name route_name consumer_name (st : state) :
  plugin_query send uuid fuel None service_name route_name consumer_name None st
    = (Raise (ValueError "Need at least one of 'plugin_id' or 'name'"), st)
  ∧ ∀ name plugin_id,
      is_Some name ∨ is_Some plugin_id →
      (plugin_query send uuid fuel name service_name route_name consumer_name
         plugin_id st).1
        ≠ Raise (ValueError "Need at least one of 'plugin_id' or 'name'").
Proof.
  split; [done|].
  intros name plugin_id H. by apply past_plugin_query.
Qed.

End Precondition_facts.

(** ** A name that does not resolve *)

Section Unresolved_facts.

Context {World : Type}.
Variable send : request → World → reply * World.
Variable uuid : uuid_module.
Local Abbreviation M := (@M World).
Local Abbreviation state := (@state World).

(** In [plugin_query] the id is read off the resolved object before the
    object is compared with [None]. *)
Lemma query_binding_unresolved (getter : val → M val) collection message name uri st st' :
  arg_truthy name = true →
  getter (arg_val name) st = (Return VNone, st') →
  query_binding uuid getter collection message name uri st = (Raise AttributeError, st').
Proof.
  intros Ht Hg. unfold query_binding. rewrite Ht.
  by rewrite (bind_Return _ _ _ _ _ Hg).
Qed.

(** In [plugin_apply] the comparison with [None] comes first. *)
Lemma apply_binding_unresolved (getter : val → M val) label key name data st st' :
  arg_truthy name = true →
  getter (arg_val name) st = (Return VNone, st') →
  apply_binding getter label key name data st
    = (Raise (ValueError (label +:+ " '" +:+ arg_str name +:+ "' not found")), st').
Proof.
  intros Ht Hg. unfold apply_binding. rewrite Ht.
  by rewrite (bind_Return _ _ _ _ _ Hg).
Qed.

(** C4: when a service name is supplied and [service_get] returns [None],
    [plugin_query] does not raise the [ValueError] "Service ... not found. Has
    it been created?" of its source: it ends with the [AttributeError] of
    [None.get('id')], in the state [service_get] left, so without any write.
    [plugin_apply], which tests for [None] first, does raise a [ValueError],
    "Service '<name>' not found", in that same state. *)
Theorem plugin_query_unresolved_service
    fuel name plugin_id (config : option (gmap string val))
    service_name route_name consumer_name (st st' : state) :
  is_Some name ∨ is_Some plugin_id →
  arg_truthy service_name = true →
  service_get send (arg_val service_name) st = (Return VNone, st') →
  plugin_query send uuid fuel name service_name route_name consumer_name plugin_id st
    = (Raise AttributeError, st')
  ∧ plugin_apply send uuid fuel name (from_option VDict VNone config)
      service_name route_name consumer_name st
    = (Raise (ValueError ("Service '" +:+ arg_str service_name +:+ "' not found")), st')
  ∧ writes (trace st') = writes (trace st).
Proof.
  intros Hsome Ht Hg. split; [|split].
  - unfold plugin_query.
    assert (∀ uri,
      ('(uri, service_id) ←
         query_binding uuid (service_get send) "services"
           "Service 'None' not found. Has it been created?" service_name uri;
       '(uri, route_id) ←
         query_binding uuid (route_get send) "routes"
           "Route 'None' not found. Has it been created?" route_name uri;
       '(uri, consumer_id) ←
         query_binding uuid (consumer_get send) "consumers"
           "Consumer None not found. Has it been created?" consumer_name uri;
       res ← _get send uri VNone;
       plugins ← plugin_query_while send fuel res res;
       data ← pure (getitem plugins "data");
       items ← pure (iter data);
       pure (select (plugin_matches name consumer_id service_id route_id) items []))
        st = (Raise AttributeError, st')) as H.
    { intros uri. apply bind_Raise. by apply query_binding_unresolved. }
    destruct plugin_id, name; try apply H.
    destruct Hsome as [[? [=]]|[? [=]]].
  - unfold plugin_apply, plugin_payload.
    apply bind_Raise.
    assert (∃ data0 : gmap string val,
      (match from_option VDict VNone config with
       | VNone => mret ({["name" := opt_val name]} : gmap string val)
       | VDict c => mret (_prepare_config c ∪ {["name" := opt_val name]})
       | _ => raise (ValueError "'config' parameter is not a dict")
       end : M _) st = (Return data0, st)) as [data0 H0].
    { destruct config; simpl; eauto. }
    rewrite (bind_Return _ _ _ _ _ H0).
    apply bind_Raise. by apply apply_binding_unresolved.
  - destruct (reads_only_service_get send _ _ _ _ Hg) as (_ & gets & -> & Hgets).
    by rewrite writes_app, (writes_only_gets _ Hgets), app_nil_r.
Qed.

End Unresolved_facts.

(** A gateway that knows no service: the lookup of ["svc1"] gives [None], the
    query stops on [AttributeError], the apply on [ValueError]. *)
Lemma plugin_query_unresolved_service_witness :
  service_get (table_gateway []) (VStr "svc1") example_state
    = (Return VNone,
       sent example_state
         (get_request example_state "http://kong:8001/services/svc1") ())
  ∧ plugin_query (table_gateway []) uuid36 0 (Some "rate-limiting")
      (AStr "svc1") ANone AFalse None example_state
    = (Raise AttributeError,
       sent example_state
         (get_request example_state "http://kong:8001/services/svc1") ())
  ∧ plugin_apply (table_gateway []) uuid36 0 (Some "rate-limiting") VNone
      (AStr "svc1") ANone AFalse example_state
    = (Raise (ValueError "Service 'svc1' not found"),
       sent example_state
         (get_request example_state "http://kong:8001/services/svc1") ()).
Proof.
  assert (service_get (table_gateway []) (VStr "svc1") example_state
    = (Return VNone,
       sent example_state
         (get_request example_state "http://kong:8001/services/svc1") ())) as H
    by (vm_compute; reflexivity).
  split; [exact H|].
  destruct (plugin_query_unresolved_service (table_gateway []) uuid36 0
    (Some "rate-limiting") None None (AStr "svc1") ANone AFalse _ _
    (or_introl (ex_intro _ _ eq_refl)) eq_refl H) as (Hq & Ha & _).
  split; [exact Hq | exact Ha].
Defined.

(** ** The matcher of [plugin_query] *)

Section Matching_facts.

Context {World : Type}.
Variable send : request → World → reply * World.
Variable uuid : uuid_module.
Local Abbreviation M := (@M World).
Local Abbreviation state := (@state World).

(** What the loop keeps passed the test, or was in [result] before. *)
Lemma select_Return test items result kept :
  select test items result = Return kept →
  ∀ x, x ∈ kept → x ∈ result ∨ (x ∈ items ∧ test x = Return true).
Proof.
  revert result. induction items as [|y items IH]; intros result; simpl.
  - intros [= <-] x Hx. by left.
  - destruct (test y) as [b|e|s] eqn:E; simpl; [|done..].
    intros H x Hx. destruct (IH _ H x Hx) as [Hr|[Hi Ht]].
    + destruct b; [|by left].
      apply elem_of_app in Hr as [Hr|Hr%list_elem_of_singleton]; [by left|].
      subst. right. split; [by left|done].
    + right. split; [by right|done].
Qed.

(** The loop on items that all pass or fail the test without an exception. *)
Lemma select_filter test (keep : val → bool) items result :
  (∀ x, x ∈ items → test x = Return (keep x)) →
  select test items result = Return (result ++ List.filter keep items).
Proof.
  revert result. induction items as [|y items IH]; intros result Hall; simpl.
  - by rewrite app_nil_r.
  - rewrite (Hall y) by by left. simpl.
    rewrite IH by (intros x Hx; apply Hall; by right).
    destruct (keep y); [by rewrite <- app_assoc | done].
Qed.

Lemma opt_truthy_Some id : opt_truthy id = true → ∃ s, id = Some s.
Proof. destruct id; [eauto|done]. Qed.

Lemma ne_opt_str_false v s : ne_opt_str v (Some s) = false → v = VStr s.
Proof.
  destruct v; simpl; try done.
  intros H%negb_false_iff%String.eqb_eq. by subst.
Qed.

Lemma binding_agrees_true plugin relation id :
  id ≠ Some "" →
  binding_agrees (binding plugin relation) id = Return true →
  binding_matches plugin relation id.
Proof.
  intros Hid. unfold binding_agrees, binding_matches, bound, bound_id.
  destruct (truthy (binding plugin relation)) eqn:Ht;
    destruct (opt_truthy id) eqn:Hi; simpl; try done.
  - apply opt_truthy_Some in Hi as [s ->].
    destruct (binding plugin relation) as [| | | | |m]; simpl; try done.
    intros [= H%negb_true_iff%ne_opt_str_false]. by rewrite H.
  - intros _. destruct id as [s|]; [|done].
    unfold opt_truthy in Hi. simpl in Hi.
    apply negb_false_iff, String.eqb_eq in Hi. by subst.
Qed.

Lemma outcome_bind_inv {A B} (c : outcome A) (f : A → outcome B) b :
  c ≫= f = Return b → ∃ a, c = Return a ∧ f a = Return b.
Proof. destruct c; [eauto|done..]. Qed.

Lemma dot_get_Return v key default x :
  dot_get v key default = Return x → ∃ m, v = VDict m.
Proof. destruct v; try done. eauto. Qed.

Lemma plugin_matches_true name cid sid rid plugin :
  cid ≠ Some "" → sid ≠ Some "" → rid ≠ Some "" →
  plugin_matches name cid sid rid plugin = Return true →
  ne_opt_str (binding plugin "name") name = false
  ∧ binding_matches plugin "consumer" cid
  ∧ binding_matches plugin "service" sid
  ∧ binding_matches plugin "route" rid.
Proof.
  intros Hcid Hsid Hrid. unfold plugin_matches.
  intros (pc & Hpc & H)%outcome_bind_inv.
  destruct (dot_get_Return _ _ _ _ Hpc) as [m ->].
  injection Hpc as <-.
  apply outcome_bind_inv in H as (ps & [= <-] & H).
  apply outcome_bind_inv in H as (pr & [= <-] & H).
  apply outcome_bind_inv in H as (pn & [= <-] & H).
  fold (binding (VDict m) "consumer") (binding (VDict m) "service")
       (binding (VDict m) "route") (binding (VDict m) "name") in H.
  destruct (ne_opt_str _ name) eqn:Hn; [done|].
  apply outcome_bind_inv in H as (bc & Hc & H).
  destruct bc; [|done]. simpl in H.
  apply outcome_bind_inv in H as (bs & Hs & H).
  destruct bs; [|done]. simpl in H.
  apply (binding_agrees_true (VDict m) "consumer") in Hc; [|done].
  apply (binding_agrees_true (VDict m) "service") in Hs; [|done].
  apply (binding_agrees_true (VDict m) "route") in H; [|done].
  done.
Qed.

(** A block of [plugin_query] that went through is a [resolution]. *)
Lemma query_binding_Return (getter : val → M val) collection message name uri st uri' id st' :
  query_binding uuid getter collection message name uri st = (Return (uri', id), st') →
  resolution getter name st id st'
  ∧ uri' = (if arg_truthy name
            then VList [VStr collection; arg_val name; VStr "plugins"] else uri)
  ∧ (∀ s, id = Some s → uuid_accepts uuid s = true).
Proof.
  unfold query_binding, resolution. destruct (arg_truthy name).
  - intros (found & st1 & Hg & H)%bind_inv.
    apply bind_inv in H as (found_id & st2 & [Hd ->]%pure_inv & H).
    apply bind_inv in H as (s & st3 & [Hu ->]%pure_inv & H).
    destruct (is_none found) eqn:Hn; [done|].
    injection H as <- <- <-.
    unfold uuid_UUID in Hu. destruct found_id as [| | |s'| |]; try done.
    destruct (uuid_accepts uuid s') eqn:Ha; [|done]. injection Hu as ->.
    destruct found as [| | | | |m]; try done. simpl in Hd. injection Hd as Hd.
    split; [|split; [done|]].
    + exists (VDict m), s'. simpl. by rewrite <- Hd.
    + by intros ? [= <-].
  - intros [= <- <- <-]. split; [done|]. split; [done|]. by intros.
Qed.

(** An id that [uuid.UUID] accepted is not the empty string. *)
Lemma accepted_nonempty (id : option string) :
  (∀ s, id = Some s → uuid_accepts uuid s = true) → id ≠ Some "".
Proof.
  intros H ->. specialize (H "" eq_refl).
  by rewrite (uuid_rejects_empty uuid) in H.
Qed.

(** C2: every plugin that [plugin_query] returns agrees with the three
    resolved bindings.  For each of service, route and consumer: when the
    query carries no name for it (the argument is falsy) no id is resolved and
    the plugin is not bound; when the query carries a name, the resolver gave
    an object whose id the plugin is bound to, so in particular the plugin is
    bound.  The three bindings are treated independently of each other. *)
Theorem plugin_query_binding_symmetry
    fuel name service_name route_name consumer_name plugin_id
    (st st' : state) (result : list val) :
  plugin_query send uuid fuel name service_name route_name consumer_name plugin_id st
    = (Return result, st') →
  ∃ service_id route_id consumer_id st1 st2 st3,
    resolution (service_get send) service_name st service_id st1
    ∧ resolution (route_get send) route_name st1 route_id st2
    ∧ resolution (consumer_get send) consumer_name st2 consumer_id st3
    ∧ ∀ plugin, plugin ∈ result →
        binding_matches plugin "service" service_id
        ∧ binding_matches plugin "route" route_id
        ∧ binding_matches plugin "consumer" consumer_id.
Proof.
  intros H. unfold plugin_query in H.
  assert (
    ('(uri, service_id) ←
       query_binding uuid (service_get send) "services"
         "Service 'None' not found. Has it been created?" service_name
         (if opt_truthy plugin_id then VList [VStr "plugins"; opt_val plugin_id]
          else VList [VStr "plugins"]);
     '(uri, route_id) ←
       query_binding uuid (route_get send) "routes"
         "Route 'None' not found. Has it been created?" route_name uri;
     '(uri, consumer_id) ←
       query_binding uuid (consumer_get send) "consumers"
         "Consumer None not found. Has it been created?" consumer_name uri;
     res ← _get send uri VNone;
     plugins ← plugin_query_while send fuel res res;
     data ← pure (getitem plugins "data");
     items ← pure (iter data);
     pure (select (plugin_matches name consumer_id service_id route_id) items []))
      st = (Return result, st')) as H'.
  { destruct plugin_id, name; done. }
  clear H.
  apply bind_inv in H' as ([uri1 sid] & st1 & (Hs & _ & As)%query_binding_Return & H).
  apply bind_inv in H as ([uri2 rid] & st2 & (Hr & _ & Ar)%query_binding_Return & H).
  apply bind_inv in H as ([uri3 cid] & st3 & (Hc & _ & Ac)%query_binding_Return & H).
  apply accepted_nonempty in As, Ar, Ac.
  apply bind_inv in H as (res & st4 & _ & H).
  apply bind_inv in H as (plugins & st5 & _ & H).
  apply bind_inv in H as (data & st6 & _ & H).
  apply bind_inv in H as (items & st7 & _ & H).
  apply pure_inv in H as [Hsel _]. symmetry in Hsel.
  exists sid, rid, cid, st1, st2, st3. split; [done|]. split; [done|]. split; [done|].
  intros plugin Hin.
  destruct (select_Return _ _ _ _ Hsel plugin Hin) as [Hnil|[_ Hm]].
  { by apply elem_of_nil in Hnil. }
  apply plugin_matches_true in Hm as (_ & ? & ? & ?); done.
Qed.

End Matching_facts.

(** On [gateway1] the query for ["rate-limiting"] on ["svc1"] without a
    consumer returns the plugin bound to the service only, not the one that is
    bound to a consumer as well. *)
Lemma plugin_query_binding_symmetry_witness :
  plugin_query gateway1 uuid36 1 (Some "rate-limiting") (AStr "svc1") ANone AFalse None
      example_state
    = (Return [only_service],
       after_gets example_state
         ["http://kong:8001/services/svc1"; "http://kong:8001/services/svc1/plugins"])
  ∧ ∃ service_id route_id consumer_id st1 st2 st3,
      resolution (service_get gateway1) (AStr "svc1") example_state service_id st1
      ∧ resolution (route_get gateway1) ANone st1 route_id st2
      ∧ resolution (consumer_get gateway1) AFalse st2 consumer_id st3
      ∧ ∀ plugin, plugin ∈ [only_service] →
          binding_matches plugin "service" service_id
          ∧ binding_matches plugin "route" route_id
          ∧ binding_matches plugin "consumer" consumer_id.
Proof.
  assert (plugin_query gateway1 uuid36 1 (Some "rate-limiting") (AStr "svc1") ANone
            AFalse None example_state
          = (Return [only_service],
             after_gets example_state
               ["http://kong:8001/services/svc1";
                "http://kong:8001/services/svc1/plugins"])) as H
    by (vm_compute; reflexivity).
  split; [exact H|].
  exact (plugin_query_binding_symmetry gateway1 uuid36 _ _ _ _ _ _ _ _ _ H).
Defined.

(** ** The payload of [plugin_apply] *)

Section Payload_facts.

Context {World : Type}.
Variable send : request → World → reply * World.
Local Abbreviation M := (@M World).
Local Abbreviation state := (@state World).

Lemma apply_binding_Return (getter : val → M val) label key name data st data' st' :
  apply_binding getter label key name data st = (Return data', st') →
  ∃ id, payload_id getter name st id st'
        ∧ data' = match id with Some x => <[key := x]> data | None => data end.
Proof.
  unfold apply_binding, payload_id. destruct (arg_truthy name).
  - intros (found & st1 & Hg & H)%bind_inv.
    destruct (is_none found); [done|].
    apply bind_inv in H as (x & st2 & [Hx ->]%pure_inv & [= <- <-]).
    exists (Some x). split; [|done]. by exists found, x.
  - intros [= <- <-]. by exists None.
Qed.

Lemma prepared_lookup (config : gmap string val) k :
  _prepare_config config !! ("config." +:+ k) = config !! k.
Proof. unfold _prepare_config. apply (lookup_kmap (String.append "config.")). Qed.

Lemma prepared_other (config : gmap string val) k :
  (∀ k', k ≠ "config." +:+ k') → _prepare_config config !! k = None.
Proof.
  intros H. unfold _prepare_config.
  apply (lookup_kmap_None (String.append "config.")). intros k' ->. by destruct (H k').
Qed.

Lemma prepared_is_Some (config : gmap string val) k :
  is_Some (_prepare_config config !! k) →
  ∃ k', k = "config." +:+ k' ∧ is_Some (config !! k').
Proof. unfold _prepare_config. apply (lookup_kmap_is_Some (String.append "config.")). Qed.

(** C5: the payload [plugin_apply] builds from a config mapping holds the
    plugin name under ["name"]; every entry of the config under its key
    prefixed with ["config."], the value as it is, nested or not; under
    ["service.id"], ["route.id"] and ["consumer.id"] the ['id'] of the
    resolved object when the name was supplied, and nothing otherwise; and no
    other key, so no key of the config without the prefix. *)
Theorem plugin_payload_contents
    name (config : gmap string val) service_name route_name consumer_name
    (st st' : state) (data : gmap string val) :
  plugin_payload send name (VDict config) service_name route_name consumer_name st
    = (Return data, st') →
  data !! "name" = Some (opt_val name)
  ∧ (∀ k, data !! ("config." +:+ k) = config !! k)
  ∧ (∃ service_id route_id consumer_id st1 st2,
       payload_id (service_get send) service_name st service_id st1
       ∧ payload_id (route_get send) route_name st1 route_id st2
       ∧ payload_id (consumer_get send) consumer_name st2 consumer_id st'
       ∧ data !! "service.id" = service_id
       ∧ data !! "route.id" = route_id
       ∧ data !! "consumer.id" = consumer_id)
  ∧ (∀ k, is_Some (data !! k) →
       k ∈ ["name"; "service.id"; "route.id"; "consumer.id"]
       ∨ ∃ k', k = "config." +:+ k' ∧ is_Some (config !! k')).
Proof.
  unfold plugin_payload.
  intros (d0 & st0 & [= <- <-] & H)%bind_inv.
  apply bind_inv in H as (d1 & st1 & (sid & Hs & ->)%apply_binding_Return & H).
  apply bind_inv in H as (d2 & st2 & (rid & Hr & ->)%apply_binding_Return & H).
  apply apply_binding_Return in H as (cid & Hc & ->).
  set (d0 := _prepare_config config ∪ {["name" := opt_val name]}).
  assert (∀ (o : option val) key (d : gmap string val) k, k ≠ key →
    match o with Some x => <[key := x]> d | None => d end !! k = d !! k) as Hne.
  { intros [x|] key d k Hk; [by rewrite lookup_insert_ne|done]. }
  assert (∀ (o : option val) key (d : gmap string val), d !! key = None →
    match o with Some x => <[key := x]> d | None => d end !! key = o) as Heq.
  { intros [x|] key d Hk; [by rewrite lookup_insert_eq|done]. }
  assert (∀ k, (∀ k', k ≠ "config." +:+ k') → k ≠ "name" → d0 !! k = None) as Hd0.
  { intros k Hk Hn. unfold d0. apply lookup_union_None. split.
    - by apply prepared_other.
    - by rewrite lookup_singleton_ne. }
  split; [|split; [|split]].
  - rewrite !Hne by done. unfold d0.
    rewrite lookup_union_r by (by apply prepared_other).
    by rewrite lookup_singleton_eq.
  - intros k. rewrite !Hne by done. unfold d0.
    destruct (config !! k) as [v|] eqn:Hk.
    + apply lookup_union_Some_l. by rewrite prepared_lookup.
    + apply lookup_union_None. split; [by rewrite prepared_lookup|].
      by rewrite lookup_singleton_ne.
  - exists sid, rid, cid, st1, st2. repeat (split; [done|]).
    split; [|split].
    + rewrite !Hne by done. apply Heq, Hd0; done.
    + rewrite Hne by done. apply Heq. rewrite Hne by done. apply Hd0; done.
    + apply Heq. rewrite !Hne by done. apply Hd0; done.
  - intros k Hk.
    destruct (decide (k = "consumer.id")) as [->|H1]; [left; set_solver|].
    destruct (decide (k = "route.id")) as [->|H2]; [left; set_solver|].
    destruct (decide (k = "service.id")) as [->|H3]; [left; set_solver|].
    rewrite !Hne in Hk by done. unfold d0 in Hk.
    apply lookup_union_is_Some in Hk as [Hk|Hk].
    + right. by apply prepared_is_Some.
    + left. destruct (decide (k = "name")) as [->|H4]; [set_solver|].
      rewrite lookup_singleton_ne in Hk by done. by destruct Hk.
Qed.

End Payload_facts.

(** The config [{"a": 1, "b": {"c": 2}}] applied to ["rate-limiting"] on
    ["svc1"] gives [config.a = 1] and [config.b = {"c": 2}], the id of the
    service under ["service.id"], and neither [a] nor [b]. *)
Lemma plugin_payload_contents_witness :
  plugin_payload gateway1 (Some "rate-limiting") (VDict example_config)
      (AStr "svc1") ANone AFalse example_state
    = (Return example_payload,
       after_gets example_state ["http://kong:8001/services/svc1"])
  ∧ example_payload !! "name" = Some (VStr "rate-limiting")
  ∧ example_payload !! "config.a" = Some (VInt 1)
  ∧ example_payload !! "config.b" = Some (VDict {["c" := VInt 2]})
  ∧ ¬ is_Some (example_payload !! "a")
  ∧ ¬ is_Some (example_payload !! "b").
Proof.
  assert (plugin_payload gateway1 (Some "rate-limiting") (VDict example_config)
            (AStr "svc1") ANone AFalse example_state
          = (Return example_payload,
             after_gets example_state ["http://kong:8001/services/svc1"])) as H
    by (vm_compute; reflexivity).
  split; [exact H|].
  destruct (plugin_payload_contents gateway1 _ _ _ _ _ _ _ _ H)
    as (Hname & Hconfig & _ & Hkeys).
  split; [exact Hname|].
  split; [exact (Hconfig "a")|].
  split; [exact (Hconfig "b")|].
  split.
  - intros [Hin|(k' & Hk & _)]%Hkeys; [|discriminate Hk].
    repeat (apply elem_of_cons in Hin as [Hin|Hin]; [discriminate Hin|]).
    by apply elem_of_nil in Hin.
  - intros [Hin|(k' & Hk & _)]%Hkeys; [|discriminate Hk].
    repeat (apply elem_of_cons in Hin as [Hin|Hin]; [discriminate Hin|]).
    by apply elem_of_nil in Hin.
Defined.

(** ** The writes: POST, PATCH and DELETE *)

Section Write_facts.

Context {World : Type}.
Variable send : request → World → reply * World.
Variable uuid : uuid_module.
Local Abbreviation M := (@M World).
Local Abbreviation state := (@state World).

Lemma url_collection (collection : string) (st : state) :
  _url (VList [VStr collection]) st
    = (Return (base_url (self st) +:+ "/" +:+ collection), st).
Proof. done. Qed.

Lemma url_member (collection id : string) (st : state) :
  _url (VList [VStr collection; VStr id]) st
    = (Return (base_url (self st) +:+ "/" +:+ collection +:+ "/" +:+ id), st).
Proof. done. Qed.

Lemma post_sends uri data url (st : state) :
  _url uri st = (Return url, st) →
  _post send uri data None st
    = (written 201 url data (send (write_request st POST url data) (world st)).1,
       sent st (write_request st POST url data)
         (send (write_request st POST url data) (world st)).2).
Proof.
  intros Hu. unfold _post, update_headers.
  rewrite (bind_Return _ _ st () st) by done.
  rewrite (bind_Return _ _ _ _ _ Hu).
  unfold mbind, M_bind, requests, write_request, sent, written.
  destruct (send _ (world st)) as [[r|] w]; simpl; [|done].
  unfold codes_created. destruct (status_code r =? 201); [done|].
  unfold pure, raise. by destruct (dot_json r).
Qed.

Lemma patch_sends uri data url (st : state) :
  _url uri st = (Return url, st) →
  _patch send uri data None st
    = (written 200 url data (send (write_request st PATCH url data) (world st)).1,
       sent st (write_request st PATCH url data)
         (send (write_request st PATCH url data) (world st)).2).
Proof.
  intros Hu. unfold _patch, update_headers.
  rewrite (bind_Return _ _ st () st) by done.
  rewrite (bind_Return _ _ _ _ _ Hu).
  unfold mbind, M_bind, requests, write_request, sent, written.
  destruct (send _ (world st)) as [[r|] w]; simpl; [|done].
  unfold codes_ok. destruct (status_code r =? 200); [done|].
  unfold pure, raise. by destruct (dot_json r).
Qed.

Lemma delete_sends uri url (st : state) :
  _url uri st = (Return url, st) →
  _delete send uri st
    = (deleted (send (write_request st DELETE url VNone) (world st)).1,
       sent st (write_request st DELETE url VNone)
         (send (write_request st DELETE url VNone) (world st)).2).
Proof.
  intros Hu. unfold _delete.
  rewrite (bind_Return _ _ _ _ _ Hu).
  unfold mbind, M_bind, requests, write_request, sent, deleted.
  destruct (send _ (world st)) as [[r|] w]; simpl; [|done].
  unfold codes_no_content. by destruct (status_code r =? 204).
Qed.

End Write_facts.

(** ** Create, update, delete or fail *)

Section Decide_facts.

Context {World : Type}.
Variable send : request → World → reply * World.
Variable uuid : uuid_module.
Local Abbreviation M := (@M World).
Local Abbreviation state := (@state World).

Lemma binding_VStr p key s :
  binding p key = VStr s → dot_get p key VNone = Return (VStr s).
Proof. destruct p; simpl; try done. by intros ->. Qed.

Lemma reads_keep_writes {A} (c : M A) st o st' :
  reads_only c → c st = (o, st') →
  self st' = self st ∧ writes (trace st') = writes (trace st).
Proof.
  intros Hc H. destruct (Hc _ _ _ H) as (Hs & gets & -> & Hg).
  split; [done|]. by rewrite writes_app, (writes_only_gets _ Hg), app_nil_r.
Qed.

(** C1: once the payload is built and the query has returned the matches
    [p], [plugin_apply] sends exactly one more request when [p] has at most
    one plugin: with no match a POST of the payload to the plugins collection,
    with one match a PATCH of the payload to that plugin's id.  With two
    matches or more it sends nothing and raises a [ValueError] whose message
    carries the name, the service, the route and the consumer; [plugin_delete]
    does the same on two matches or more.  Neither the payload nor the query
    has written anything before. *)
Theorem plugin_apply_creates_updates_or_fails
    fuel name config service_name route_name consumer_name
    (st st1 st2 : state) (data : gmap string val) (p : list val) :
  plugin_payload send name config service_name route_name consumer_name st
    = (Return data, st1) →
  plugin_query send uuid fuel name service_name route_name consumer_name None st1
    = (Return p, st2) →
  (∃ o st3,
     plugin_apply send uuid fuel name config service_name route_name consumer_name st
       = (o, st3)
     ∧ match p with
       | [] =>
           trace st3 = trace st2 ++
             [write_request st POST (base_url (self st) +:+ "/plugins") (VDict data)]
       | [p0] =>
           ∀ id, binding p0 "id" = VStr id →
             trace st3 = trace st2 ++
               [write_request st PATCH (base_url (self st) +:+ "/plugins/" +:+ id)
                  (VDict data)]
       | _ :: _ :: _ =>
           o = Raise (ValueError
                 ("Multiple Plugin records for name: '" +:+ opt_str name
                  +:+ "', service: '" +:+ arg_str service_name
                  +:+ "', route: '" +:+ arg_str route_name
                  +:+ "', consumer: '" +:+ arg_str consumer_name +:+ "'"))
           ∧ st3 = st2
       end)
  ∧ writes (trace st2) = writes (trace st)
  ∧ ∀ p' st',
      plugin_query send uuid fuel name service_name route_name consumer_name None st
        = (Return p', st') →
      (1 < length p')%nat →
      plugin_delete send uuid fuel name service_name route_name consumer_name st
        = (Raise (ValueError
             ("Found multiple Plugin records for name: '" +:+ opt_str name
              +:+ "', service: '" +:+ arg_str service_name
              +:+ "', route: '" +:+ arg_str route_name
              +:+ "', consumer: '" +:+ arg_str consumer_name +:+ "'")), st')
      ∧ writes (trace st') = writes (trace st).
Proof.
  intros Hd Hq.
  destruct (reads_keep_writes _ _ _ _
    (reads_only_plugin_payload send _ _ _ _ _) Hd) as [Hs1 Hw1].
  destruct (reads_keep_writes _ _ _ _
    (reads_only_plugin_query send uuid _ _ _ _ _ _) Hq) as [Hs2 Hw2].
  split; [|split].
  - unfold plugin_apply.
    rewrite (bind_Return _ _ _ _ _ Hd), (bind_Return _ _ _ _ _ Hq).
    destruct p as [|p0 [|p1 p]]; simpl.
    + rewrite (post_sends send _ _ _ _ (url_collection "plugins" st2)).
      eexists _, _. split; [done|]. simpl.
      unfold write_request. by rewrite Hs2, Hs1.
    + destruct (dot_get p0 "id" VNone) as [i|e|s] eqn:Hi.
      * destruct (_patch send (VList [VStr "plugins"; i]) (VDict data) None st2)
          as [o st3] eqn:Hp.
        exists o, st3. rewrite (bind_Return _ _ st2 i st2) by done.
        split; [done|]. intros id Hid. apply binding_VStr in Hid.
        rewrite Hid in Hi. injection Hi as <-.
        rewrite (patch_sends send _ _ _ _ (url_member "plugins" id st2)) in Hp.
        injection Hp as _ <-. simpl.
        unfold write_request. by rewrite Hs2, Hs1.
      * eexists _, _. rewrite (bind_Raise _ _ st2 e st2) by done.
        split; [done|]. intros id Hid. apply binding_VStr in Hid. congruence.
      * eexists _, _. rewrite (bind_Stuck _ _ st2 s st2) by done.
        split; [done|]. intros id Hid. apply binding_VStr in Hid. congruence.
    + eexists _, _. split; [done|]. done.
  - congruence.
  - intros p' st' Hq' Hlen.
    destruct (reads_keep_writes _ _ _ _
      (reads_only_plugin_query send uuid _ _ _ _ _ _) Hq') as [_ Hw'].
    split; [|done]. unfold plugin_delete.
    rewrite (bind_Return _ _ _ _ _ Hq').
    apply Nat.ltb_lt in Hlen. by rewrite Hlen.
Qed.

End Decide_facts.

(** On [gateway1] one ["rate-limiting"] plugin is bound to ["svc1"] alone:
    applying the example config to it sends one PATCH of the payload to the id
    of that plugin. *)
Lemma plugin_apply_creates_updates_or_fails_witness :
  plugin_payload gateway1 (Some "rate-limiting") (VDict example_config)
      (AStr "svc1") ANone AFalse example_state
    = (Return example_payload,
       after_gets example_state ["http://kong:8001/services/svc1"])
  ∧ plugin_query gateway1 uuid36 1 (Some "rate-limiting") (AStr "svc1") ANone AFalse
      None (after_gets example_state ["http://kong:8001/services/svc1"])
    = (Return [only_service],
       after_gets example_state
         ["http://kong:8001/services/svc1"; "http://kong:8001/services/svc1";
          "http://kong:8001/services/svc1/plugins"])
  ∧ ∃ o st3,
      plugin_apply gateway1 uuid36 1 (Some "rate-limiting") (VDict example_config)
        (AStr "svc1") ANone AFalse example_state = (o, st3)
      ∧ trace st3
        = trace (after_gets example_state
                   ["http://kong:8001/services/svc1"; "http://kong:8001/services/svc1";
                    "http://kong:8001/services/svc1/plugins"])
          ++ [write_request example_state PATCH
                "http://kong:8001/plugins/aaaaaaaa-aaaa-aaaa-aaaa-aaaaaaaaaaaa"
                (VDict example_payload)].
Proof.
  assert (plugin_payload gateway1 (Some "rate-limiting") (VDict example_config)
            (AStr "svc1") ANone AFalse example_state
          = (Return example_payload,
             after_gets example_state ["http://kong:8001/services/svc1"])) as H1
    by (vm_compute; reflexivity).
  assert (plugin_query gateway1 uuid36 1 (Some "rate-limiting") (AStr "svc1") ANone
            AFalse None (after_gets example_state ["http://kong:8001/services/svc1"])
          = (Return [only_service],
             after_gets example_state
               ["http://kong:8001/services/svc1"; "http://kong:8001/services/svc1";
                "http://kong:8001/services/svc1/plugins"])) as H2
    by (vm_compute; reflexivity).
  split; [exact H1|]. split; [exact H2|].
  destruct (plugin_apply_creates_updates_or_fails gateway1 uuid36 _ _ _ _ _ _ _ _ _ _ _
              H1 H2) as [(o & st3 & Ha & Hp) _].
  exists o, st3. split; [exact Ha|].
  exact (Hp plugin_a_id eq_refl).
Defined.

(** ** The two deletes *)

Section Delete_facts.

Context {World : Type}.
Variable send : request → World → reply * World.
Variable uuid : uuid_module.
Local Abbreviation M := (@M World).
Local Abbreviation state := (@state World).

Lemma deleted_204 r w (a : reply * World) :
  a = (Answer r, w) → status_code r = 204 → deleted a.1 = Return true.
Proof. intros -> H. simpl. by rewrite H. Qed.

(** The deletes by the result of their lookup.  [plugin_delete] with no
    matching plugin returns [False] in the state the query left, in which
    nothing has been written; with exactly one match it sends one DELETE to
    that plugin's id, and returns [True] when the gateway answers 204.
    [route_delete] goes by what [route_get] returns: on [None], or any falsy
    result, it returns [False] without a write; on a truthy result it sends
    one DELETE to the route's id, and returns [True] when the gateway answers
    204.  Whether a route for which [route_get] returns [None] is absent is
    another matter, settled below. *)
Lemma delete_absent_or_present
    fuel name service_name route_name consumer_name (route_id : string) (st : state) :
  (∀ p st1,
     plugin_query send uuid fuel name service_name route_name consumer_name None st
       = (Return p, st1) →
     match p with
     | [] =>
         plugin_delete send uuid fuel name service_name route_name consumer_name st
           = (Return false, st1)
         ∧ writes (trace st1) = writes (trace st)
     | [p0] =>
         ∀ id, binding p0 "id" = VStr id →
           ∃ o st2,
             plugin_delete send uuid fuel name service_name route_name consumer_name st
               = (o, st2)
             ∧ trace st2 = trace st1 ++
                 [write_request st DELETE (base_url (self st) +:+ "/plugins/" +:+ id)
                    VNone]
             ∧ ∀ r w,
                 send (write_request st DELETE
                         (base_url (self st) +:+ "/plugins/" +:+ id) VNone) (world st1)
                   = (Answer r, w) →
                 status_code r = 204 → o = Return true
     | _ :: _ :: _ => True
     end)
  ∧ (∀ found st1,
       route_get send (VStr route_id) st = (Return found, st1) →
       if truthy found then
         ∃ o st2,
           route_delete send (VStr route_id) st = (o, st2)
           ∧ trace st2 = trace st1 ++
               [write_request st DELETE (base_url (self st) +:+ "/routes/" +:+ route_id)
                  VNone]
           ∧ ∀ r w,
               send (write_request st DELETE
                       (base_url (self st) +:+ "/routes/" +:+ route_id) VNone) (world st1)
                 = (Answer r, w) →
               status_code r = 204 → o = Return true
       else
         route_delete send (VStr route_id) st = (Return false, st1)
         ∧ writes (trace st1) = writes (trace st)).
Proof.
  split.
  - intros p st1 Hq.
    destruct (reads_keep_writes _ _ _ _
      (reads_only_plugin_query send uuid _ _ _ _ _ _) Hq) as [Hs Hw].
    unfold plugin_delete. rewrite (bind_Return _ _ _ _ _ Hq).
    destruct p as [|p0 [|p1 p]]; simpl; [done| |done].
    intros id Hid%binding_VStr.
    rewrite (bind_Return _ _ st1 (VStr id) st1) by by rewrite Hid.
    rewrite (delete_sends send _ _ _ (url_member "plugins" id st1)).
    assert (write_request st1 DELETE
              (base_url (self st1) +:+ "/" +:+ "plugins" +:+ "/" +:+ id) VNone
            = write_request st DELETE (base_url (self st) +:+ "/plugins/" +:+ id) VNone)
      as -> by (unfold write_request; by rewrite Hs).
    eexists _, _. split; [done|]. split; [done|].
    intros r w Hsend Hst. by eapply deleted_204.
  - intros found st1 Hg.
    destruct (reads_keep_writes _ _ _ _ (reads_only_route_get send _) Hg) as [Hs Hw].
    unfold route_delete. rewrite (bind_Return _ _ _ _ _ Hg).
    destruct (truthy found); [|done].
    rewrite (delete_sends send _ _ _ (url_member "routes" route_id st1)).
    assert (write_request st1 DELETE
              (base_url (self st1) +:+ "/" +:+ "routes" +:+ "/" +:+ route_id) VNone
            = write_request st DELETE
                (base_url (self st) +:+ "/routes/" +:+ route_id) VNone)
      as -> by (unfold write_request; by rewrite Hs).
    eexists _, _. split; [done|]. split; [done|].
    intros r w Hsend Hst. by eapply deleted_204.
Qed.

Lemma get_failed uri url (st : state) r w :
  _url uri st = (Return url, st) →
  send (get_request st url) (world st) = (Answer r, w) →
  400 ≤ status_code r < 600 →
  _get send uri VNone st
    = (Raise (HTTPError (status_code r)), sent st (get_request st url) w).
Proof.
  intros Hu Hs Hr. unfold _get. rewrite (bind_Return _ _ _ _ _ Hu).
  unfold mbind at 1. unfold M_bind, requests. fold (get_request st url).
  rewrite Hs. simpl. unfold mbind, M_bind, pure, raise_for_status.
  assert ((400 <=? status_code r) && (status_code r <? 600) = true) as ->; [|done].
  apply andb_true_iff. split; [apply Z.leb_le | apply Z.ltb_lt]; lia.
Qed.

(** C7: [route_delete] does not tell a route that is absent from a lookup
    that failed.  Whenever the gateway answers the GET of the route with a 4xx
    or 5xx status, a 500, 503 or 401 as much as a 404, [route_delete] returns
    [False] after that one GET and sends no DELETE, whether the gateway holds
    the route or not.  Its sibling [plugin_delete] lets the failure of its
    lookup through: when the GET that lists the plugins is answered with such
    a status it raises [HTTPError] with the status, and does not return
    [False]. *)
Theorem route_delete_failed_lookup
    fuel (name : string) service_name route_name consumer_name (route_id : string)
    (st : state) :
  (∀ r w,
     send (get_request st (base_url (self st) +:+ "/routes/" +:+ route_id)) (world st)
       = (Answer r, w) →
     400 ≤ status_code r < 600 →
     route_delete send (VStr route_id) st
       = (Return false,
          sent st (get_request st (base_url (self st) +:+ "/routes/" +:+ route_id)) w))
  ∧ (∀ r w,
       arg_truthy service_name = false → arg_truthy route_name = false →
       arg_truthy consumer_name = false →
       send (get_request st (base_url (self st) +:+ "/plugins")) (world st)
         = (Answer r, w) →
       400 ≤ status_code r < 600 →
       plugin_delete send uuid fuel (Some name) service_name route_name consumer_name st
         = (Raise (HTTPError (status_code r)),
            sent st (get_request st (base_url (self st) +:+ "/plugins")) w)).
Proof.
  split.
  - intros r w Hs Hr.
    pose proof (get_failed _ _ st r w (url_member "routes" route_id st) Hs Hr) as Hg.
    unfold route_delete.
    rewrite (bind_Return _ _ st VNone
               (sent st (get_request st (base_url (self st) +:+ "/routes/" +:+ route_id))
                  w)); [done|].
    unfold route_get, try_except_HTTPError. by rewrite Hg.
  - intros r w Fs Fr Fc Hs Hr.
    pose proof (get_failed _ _ st r w (url_collection "plugins" st) Hs Hr) as Hg.
    unfold plugin_delete. apply bind_Raise.
    unfold plugin_query, query_binding. rewrite Fs, Fr, Fc. simpl.
    rewrite (bind_Return _ _ st (VList [VStr "plugins"], None) st) by done.
    rewrite (bind_Return _ _ st (VList [VStr "plugins"], None) st) by done.
    rewrite (bind_Return _ _ st (VList [VStr "plugins"], None) st) by done.
    by rewrite (bind_Raise _ _ _ _ _ Hg).
Qed.

End Delete_facts.

(** On [gateway1]: no ["cors"] plugin is on ["svc1"], and deleting it returns
    [False] after the two GETs of the query; the ["rate-limiting"] plugin
    bound to ["svc1"] alone is deleted by one DELETE to its id, which the
    gateway answers with 204. *)
Lemma delete_absent_or_present_witness :
  plugin_delete gateway1 uuid36 1 (Some "cors") (AStr "svc1") ANone AFalse example_state
    = (Return false,
       after_gets example_state
         ["http://kong:8001/services/svc1"; "http://kong:8001/services/svc1/plugins"])
  ∧ ∃ st2,
      plugin_delete gateway1 uuid36 1 (Some "rate-limiting") (AStr "svc1") ANone AFalse
        example_state = (Return true, st2)
      ∧ trace st2
        = trace (after_gets example_state
                   ["http://kong:8001/services/svc1";
                    "http://kong:8001/services/svc1/plugins"])
          ++ [write_request example_state DELETE
                "http://kong:8001/plugins/aaaaaaaa-aaaa-aaaa-aaaa-aaaaaaaaaaaa" VNone].
Proof.
  assert (plugin_query gateway1 uuid36 1 (Some "cors") (AStr "svc1") ANone AFalse None
            example_state
          = (Return [],
             after_gets example_state
               ["http://kong:8001/services/svc1";
                "http://kong:8001/services/svc1/plugins"])) as H0
    by (vm_compute; reflexivity).
  assert (plugin_query gateway1 uuid36 1 (Some "rate-limiting") (AStr "svc1") ANone
            AFalse None example_state
          = (Return [only_service],
             after_gets example_state
               ["http://kong:8001/services/svc1";
                "http://kong:8001/services/svc1/plugins"])) as H1
    by (vm_compute; reflexivity).
  split.
  - exact (proj1 (proj1 (delete_absent_or_present gateway1 uuid36 1 (Some "cors")
                           (AStr "svc1") ANone AFalse "" example_state) _ _ H0)).
  - destruct (proj1 (delete_absent_or_present gateway1 uuid36 1 (Some "rate-limiting")
                       (AStr "svc1") ANone AFalse "" example_state) _ _ H1
                plugin_a_id eq_refl) as (o & st2 & Hd & Ht & Ho).
    exists st2. split; [|exact Ht].
    rewrite Hd. f_equal. exact (Ho (Response 204 None) () eq_refl eq_refl).
Defined.

(** The gateway that is not ready holds the route ["r1"]: the first
    [route_delete] is answered 503 on its lookup and returns [False] without a
    DELETE, and the gateway still holds the route; the route is served to the
    next lookup, and the same call again deletes it. *)
Lemma route_delete_failed_lookup_witness :
  route_delete gateway_warming (VStr "r1") warming_state
    = (Return false,
       State example_client (true, true)
         [get_request warming_state "http://kong:8001/routes/r1"])
  ∧ route_get gateway_warming (VStr "r1")
      (State example_client (true, true)
         [get_request warming_state "http://kong:8001/routes/r1"])
    = (Return route_r1,
       State example_client (true, true)
         [get_request warming_state "http://kong:8001/routes/r1";
          get_request warming_state "http://kong:8001/routes/r1"])
  ∧ route_delete gateway_warming (VStr "r1")
      (State example_client (true, true)
         [get_request warming_state "http://kong:8001/routes/r1"])
    = (Return true,
       State example_client (true, false)
         [get_request warming_state "http://kong:8001/routes/r1";
          get_request warming_state "http://kong:8001/routes/r1";
          write_request warming_state DELETE "http://kong:8001/routes/r1" VNone]).
Proof.
  split; [|split; vm_compute; reflexivity].
  exact (proj1 (route_delete_failed_lookup gateway_warming uuid36 0 "cors" ANone ANone
                  AFalse "r1" warming_state)
           unavailable (true, true) eq_refl ltac:(simpl; lia)).
Defined.

(** ** The pagination loop *)

Section Pagination_facts.

Context {World : Type}.
Variable send : request → World → reply * World.
Local Abbreviation M := (@M World).
Local Abbreviation state := (@state World).

Lemma lstrip_no_leading s r : lstrip_slash s ≠ String "/" r.
Proof.
  induction s as [|c s IH]; simpl; [done|].
  destruct (Ascii.eqb_spec c "/") as [->|Hc]; [done|].
  assert (match c with
          | "/"%char => lstrip_slash s
          | _ => String c s
          end = String c s) as ->.
  { destruct c as [[] [] [] [] [] [] [] []]; try done. }
  by intros [= -> _].
Qed.

Lemma rstrip_head s c r :
  rstrip_slash s = String c r → ∃ r', s = String c r'.
Proof.
  destruct s as [|c' s]; simpl; [done|].
  destruct (rstrip_slash s); [destruct (Ascii.eqb c' "/")|]; intros [= <- _]; eauto.
Qed.

Lemma strip_no_leading s r : strip_slash s ≠ String "/" r.
Proof.
  unfold strip_slash. intros [r' H]%rstrip_head. by apply lstrip_no_leading in H.
Qed.

Lemma is_page_getitem p data next :
  is_page p data next →
  getitem p "data" = Return (VList data) ∧ getitem p "next" = Return next
  ∧ data_of p = data ∧ cursor_of p = match next with VStr c => c | _ => "" end.
Proof.
  intros (m & -> & Hd & Hn). unfold data_of, cursor_of. simpl. by rewrite Hd, Hn.
Qed.

Lemma get_page url status q w (st : state) :
  send (get_request st (base_url (self st) +:+ "/" +:+ url)) (world st)
    = (Answer (Response status (Some q)), w) →
  ¬ (400 ≤ status < 600) →
  _get send (VStr url) VNone st
    = (Return q, sent st (get_request st (base_url (self st) +:+ "/" +:+ url)) w).
Proof.
  intros Hsend Hst. unfold _get.
  rewrite (bind_Return _ _ st (base_url (self st) +:+ "/" +:+ url) st) by done.
  unfold mbind at 1. unfold M_bind, requests.
  fold (get_request st (base_url (self st) +:+ "/" +:+ url)). rewrite Hsend.
  unfold raise_for_status, mbind, M_bind, pure. simpl.
  destruct (400 <=? status) eqn:H1; destruct (status <? 600) eqn:H2; simpl; try done.
  apply Z.leb_le in H1. apply Z.ltb_lt in H2. lia.
Qed.

Lemma while_follows fuel plugins data0 next0 res (st st' : state) qs :
  follows send res st qs st' →
  is_page plugins data0 next0 →
  (length qs ≤ fuel)%nat →
  plugin_query_while send fuel plugins res st
    = (Return (with_data plugins (data0 ++ concat (data_of <$> qs))), st').
Proof.
  intros Hf. revert fuel plugins data0 next0.
  induction Hf as [p data next st Hp Hn
                  |p data cursor st status q w qs st' Hp Hc Hsend Hst Hf IH];
    intros fuel plugins data0 next0 Hpl Hlen.
  - destruct (is_page_getitem _ _ _ Hp) as (_ & Hnext & _).
    assert (plugin_query_while send fuel plugins p st = (Return plugins, st)) as ->.
    { destruct fuel; simpl;
        rewrite (bind_Return _ _ st next st) by (by unfold pure; rewrite Hnext);
        by rewrite Hn. }
    destruct Hpl as (m & -> & Hd & _). simpl.
    by rewrite app_nil_r, insert_id.
  - destruct fuel as [|fuel]; [simpl in Hlen; lia|]. simpl in Hlen.
    destruct (is_page_getitem _ _ _ Hp) as (_ & Hnext & _).
    destruct (is_page_getitem _ _ _ Hpl) as (Hdata & _).
    assert (∃ dq nq, is_page q dq nq) as (dq & nq & Hq).
    { inversion Hf; eauto. }
    destruct (is_page_getitem _ _ _ Hq) as (Hqdata & _ & Hqd & _).
    simpl.
    rewrite (bind_Return _ _ st (VStr cursor) st) by (by unfold pure; rewrite Hnext).
    assert (truthy (VStr cursor) = true) as ->.
    { simpl. by apply negb_true_iff, String.eqb_neq. }
    rewrite (bind_Return _ _ st (VStr (strip_slash cursor)) st) by done.
    rewrite (bind_Return _ _ _ _ _ (get_page _ _ _ _ _ Hsend Hst)).
    set (st1 := sent st _ w) in *.
    rewrite (bind_Return _ _ st1 (VList data0) st1) by (by unfold pure; rewrite Hdata).
    rewrite (bind_Return _ _ st1 (VList dq) st1) by (by unfold pure; rewrite Hqdata).
    rewrite (bind_Return _ _ st1 (VList (data0 ++ dq)) st1) by done.
    destruct Hpl as (m & -> & Hd & Hnx).
    rewrite (bind_Return _ _ st1 (VDict (<["data" := VList (data0 ++ dq)]> m)) st1)
      by done.
    rewrite (IH fuel _ (data0 ++ dq) next0).
    + simpl. by rewrite insert_insert_eq, Hqd, app_assoc.
    + exists (<["data" := VList (data0 ++ dq)]> m). split; [done|].
      split; [by rewrite lookup_insert_eq | by rewrite lookup_insert_ne].
    + lia.
Qed.

Lemma follows_trace p (st st' : state) qs :
  follows send p st qs st' →
  self st' = self st
  ∧ trace st' = trace st ++
      (cursor_request st <$> removelast (p :: qs)).
Proof.
  induction 1 as [p data next st Hp Hn
                 |p data cursor st status q w qs st' Hp Hc Hsend Hst Hf [IHs IHt]].
  - split; [done|]. simpl. by rewrite app_nil_r.
  - split; [by rewrite IHs|]. rewrite IHt.
    destruct (is_page_getitem _ _ _ Hp) as (_ & _ & _ & Hcur).
    change (removelast (p :: q :: qs)) with (p :: removelast (q :: qs)).
    rewrite fmap_cons. unfold cursor_request at 2. rewrite Hcur.
    unfold sent at 1. simpl. rewrite <- app_assoc. simpl.
    do 2 f_equal.
Qed.

(** C8: when the pages after the first are served one after the other, each
    at the cursor of the page before it, and the last cursor is falsy, the
    loop of [plugin_query] ends for every fuel that covers the number of these
    pages and returns the first page with, as its data, the data of all the
    pages in the order they were served.  The requests it sends are the GETs
    of the cursors, one per page but the last, each as a path under the base
    URL with its slashes at both ends stripped; the stripped cursor never
    starts with a slash. *)
Theorem plugin_query_while_concatenates fuel first (st st' : state) later :
  follows send first st later st' →
  (length later ≤ fuel)%nat →
  plugin_query_while send fuel first first st
    = (Return (with_data first (concat (data_of <$> first :: later))), st')
  ∧ trace st' = trace st ++
      (cursor_request st <$> removelast (first :: later))
  ∧ ∀ page rest, strip_slash (cursor_of page) ≠ String "/" rest.
Proof.
  intros Hf Hlen. split; [|split].
  - assert (∃ d n, is_page first d n) as (d & n & Hp) by (inversion Hf; eauto).
    destruct (is_page_getitem _ _ _ Hp) as (_ & _ & Hd & _).
    rewrite fmap_cons. simpl. rewrite Hd.
    by apply (while_follows _ _ _ n).
  - by apply follows_trace.
  - intros page rest. apply strip_no_leading.
Qed.

End Pagination_facts.

(** On [gateway3] the three pages are walked in order and their data
    concatenated. *)
Lemma plugin_query_while_concatenates_witness :
  follows gateway3 page1 (after_gets example_state ["http://kong:8001/plugins"])
    [page2; page3]
    (after_gets example_state
       ["http://kong:8001/plugins"; "http://kong:8001/plugins?offset=2";
        "http://kong:8001/plugins?offset=3"])
  ∧ plugin_query_while gateway3 2 page1 page1
      (after_gets example_state ["http://kong:8001/plugins"])
    = (Return (list_page [only_service; service_and_consumer; reference plugin_b_id]
                 (VStr "/plugins?offset=2")),
       after_gets example_state
         ["http://kong:8001/plugins"; "http://kong:8001/plugins?offset=2";
          "http://kong:8001/plugins?offset=3"]).
Proof.
  assert (follows gateway3 page1 (after_gets example_state ["http://kong:8001/plugins"])
            [page2; page3]
            (after_gets example_state
               ["http://kong:8001/plugins"; "http://kong:8001/plugins?offset=2";
                "http://kong:8001/plugins?offset=3"])) as H.
  { eapply (follows_next gateway3 page1 [only_service] "/plugins?offset=2" _ 200 page2 ()).
    - eexists. split; [reflexivity|]. split; vm_compute; reflexivity.
    - discriminate.
    - reflexivity.
    - lia.
    - eapply (follows_next gateway3 page2 [service_and_consumer] "/plugins?offset=3"
                _ 200 page3 ()).
      + eexists. split; [reflexivity|]. split; vm_compute; reflexivity.
      + discriminate.
      + reflexivity.
      + lia.
      + eapply (follows_end gateway3 page3 [reference plugin_b_id] VNone).
        * eexists. split; [reflexivity|]. split; vm_compute; reflexivity.
        * reflexivity. }
  split; [exact H|].
  destruct (plugin_query_while_concatenates gateway3 2 _ _ _ _ H (le_n 2)) as [Hw _].
  rewrite Hw. vm_compute. reflexivity.
Defined.

(** ** The matcher of [route_query] *)

Section Route_facts.

Context {World : Type}.
Variable send : request → World → reply * World.
Local Abbreviation M := (@M World).
Local Abbreviation state := (@state World).

(** Two lists of strings sort to the same list exactly when one is a
    permutation of the other. *)
Lemma sorted_str_eq_iff l1 l2 : sorted_str l1 = sorted_str l2 ↔ same_multiset l1 l2.
Proof.
  unfold sorted_str, same_multiset. split.
  - intros H. rewrite <- (merge_sort_Permutation String.le l1), H.
    apply merge_sort_Permutation.
  - intros H. apply (Sorted_unique String.le).
    + apply Sorted_merge_sort, _.
    + apply Sorted_merge_sort, _.
    + by rewrite !merge_sort_Permutation.
Qed.

Global Instance same_multiset_dec l1 l2 : Decision (same_multiset l1 l2).
Proof.
  refine (cast_if (decide (sorted_str l1 = sorted_str l2)));
    abstract (by rewrite <- sorted_str_eq_iff).
Defined.

Global Instance route_equivalent_dec route hosts paths methods protocols :
  Decision (route_equivalent same_multiset route hosts paths methods protocols).
Proof. unfold route_equivalent. apply _. Defined.

Lemma filter_bool_decide {A} (P : A → Prop) `{∀ x, Decision (P x)} (l : list A) :
  List.filter (λ x, bool_decide (P x)) l = filter P l.
Proof.
  induction l as [|x l IH]; [done|]. simpl. rewrite filter_cons.
  case_bool_decide; case_decide; try done. by rewrite IH.
Qed.

Lemma all_str_iter l ls : all_str l = Some ls → sorted (VList l) = Return (sorted_str ls).
Proof. intros H. unfold sorted. simpl. by rewrite H. Qed.

(** A match field of a route, read as [route_query] reads it and compared
    with the wanted strings. *)
Lemma field_sorted_eq m field l wanted :
  route_field (VDict m) field = Some l →
  ∃ x, existing (VDict m) field = Return x
       ∧ sorted_eq x wanted = Return (bool_decide (same_multiset l wanted)).
Proof.
  unfold route_field, existing, sorted_eq. simpl.
  destruct (m !! field) as [v|]; simpl.
  - destruct v as [| | | |items|]; simpl; try done.
    + intros [= <-]. eexists. split; [done|]. simpl.
      f_equal. apply bool_decide_ext, sorted_str_eq_iff.
    + intros Hl. eexists. split; [done|].
      rewrite (all_str_iter _ _ Hl). simpl.
      f_equal. apply bool_decide_ext, sorted_str_eq_iff.
  - intros [= <-]. eexists. split; [done|]. simpl.
    f_equal. apply bool_decide_ext, sorted_str_eq_iff.
Qed.

Lemma route_matches_equivalent hosts paths methods protocols route :
  is_route route →
  route_matches hosts paths methods protocols route
    = Return (bool_decide
                (route_equivalent same_multiset route hosts paths methods protocols)).
Proof.
  intros Hr.
  assert (∀ field, field ∈ ["hosts"; "paths"; "methods"; "protocols"] →
    route_field route field = Some (field_strings route field)) as Hf.
  { intros field Hin. destruct (Hr field Hin) as [l Hl].
    unfold field_strings. by rewrite Hl. }
  assert (∃ m, route = VDict m) as [m ->].
  { destruct (Hr "hosts") as [l Hl]; [set_solver|]. destruct route; try done. eauto. }
  destruct (field_sorted_eq m "hosts" _ hosts (Hf "hosts" ltac:(set_solver)))
    as (xh & Hxh & Hsh).
  destruct (field_sorted_eq m "paths" _ paths (Hf "paths" ltac:(set_solver)))
    as (xp & Hxp & Hsp).
  destruct (field_sorted_eq m "methods" _ methods (Hf "methods" ltac:(set_solver)))
    as (xm & Hxm & Hsm).
  destruct (field_sorted_eq m "protocols" _ protocols (Hf "protocols" ltac:(set_solver)))
    as (xr & Hxr & Hsr).
  unfold route_matches. rewrite Hxh, Hxp, Hxm, Hxr. simpl.
  rewrite Hsh. simpl. unfold route_equivalent.
  destruct (decide (same_multiset (field_strings (VDict m) "hosts") hosts)) as [H1|H1].
  2: { rewrite (bool_decide_eq_false_2 _ H1). simpl.
       symmetry. f_equal. apply bool_decide_eq_false_2. tauto. }
  rewrite (bool_decide_eq_true_2 _ H1). simpl. rewrite Hsp. simpl.
  destruct (decide (same_multiset (field_strings (VDict m) "paths") paths)) as [H2|H2].
  2: { rewrite (bool_decide_eq_false_2 _ H2). simpl.
       symmetry. f_equal. apply bool_decide_eq_false_2. tauto. }
  rewrite (bool_decide_eq_true_2 _ H2). simpl. rewrite Hsm. simpl.
  destruct (decide (same_multiset (field_strings (VDict m) "methods") methods)) as [H3|H3].
  2: { rewrite (bool_decide_eq_false_2 _ H3). simpl.
       symmetry. f_equal. apply bool_decide_eq_false_2. tauto. }
  rewrite (bool_decide_eq_true_2 _ H3). simpl. rewrite Hsr.
  f_equal. apply bool_decide_ext. tauto.
Qed.

(** C3, as the code has it: for a service that resolves and routes as the
    admin API lists them, [route_query] keeps the routes whose hosts, paths,
    methods and protocols are each a permutation of the wanted collection
    (the same strings, each as many times, in any order), an absent or null
    field counting as empty.  It returns [None] when no route is kept, the
    route when one is kept, and raises a [ValueError] when several are. *)
Theorem route_query_matches_permutations
    service_name hosts paths methods protocols (st st1 st2 : state) s routes :
  service_get send (VStr service_name) st = (Return s, st1) →
  is_none s = false →
  route_list send (VStr service_name) st1 = (Return (VList routes), st2) →
  Forall is_route routes →
  route_query send service_name hosts paths methods protocols st
    = (match filter (λ r, route_equivalent same_multiset r hosts paths methods protocols)
               routes with
       | [] => Return VNone
       | [r] => Return r
       | _ :: _ :: _ => Raise (ValueError "Duplicate routes found. Clean up manually first")
       end, st2).
Proof.
  intros Hs Hn Hl Hr. unfold route_query.
  rewrite (bind_Return _ _ _ _ _ Hs), Hn, (bind_Return _ _ _ _ _ Hl).
  rewrite (bind_Return _ _ st2 routes st2) by done.
  assert (select (route_matches hosts paths methods protocols) routes []
          = Return (filter (λ r, route_equivalent same_multiset r hosts paths methods
                                   protocols) routes)) as Hsel.
  { rewrite <- filter_bool_decide.
    rewrite (select_filter _ (λ r, bool_decide (route_equivalent same_multiset r hosts
                                                  paths methods protocols))); [done|].
    intros r Hin. apply route_matches_equivalent.
    by apply (proj1 (Forall_forall _ _) Hr). }
  rewrite (bind_Return _ _ st2 _ st2) by (by unfold pure; rewrite Hsel).
  by destruct (filter _ routes) as [|r [|r' rs]].
Qed.

End Route_facts.

Lemma is_route_route_ab : is_route route_ab.
Proof.
  intros field Hin.
  repeat (apply elem_of_cons in Hin as [->|Hin]; [vm_compute; eauto|]).
  by apply elem_of_nil in Hin.
Qed.

Lemma is_route_route_aa : is_route route_aa.
Proof.
  intros field Hin.
  repeat (apply elem_of_cons in Hin as [->|Hin]; [vm_compute; eauto|]).
  by apply elem_of_nil in Hin.
Qed.

(** The route with the hosts [a] and [b] is found by a query for [b] and [a],
    and not by a query for [a] alone. *)
Lemma route_query_matches_permutations_witness :
  service_get gateway_ab (VStr "svc1") example_state
    = (Return service1, after_gets example_state ["http://kong:8001/services/svc1"])
  ∧ route_list gateway_ab (VStr "svc1")
      (after_gets example_state ["http://kong:8001/services/svc1"])
    = (Return (VList [route_ab]),
       after_gets example_state
         ["http://kong:8001/services/svc1"; "http://kong:8001/services/svc1/routes"])
  ∧ route_query gateway_ab "svc1" ["b"; "a"] [] [] [] example_state
    = (Return route_ab,
       after_gets example_state
         ["http://kong:8001/services/svc1"; "http://kong:8001/services/svc1/routes"])
  ∧ route_query gateway_ab "svc1" ["a"] [] [] [] example_state
    = (Return VNone,
       after_gets example_state
         ["http://kong:8001/services/svc1"; "http://kong:8001/services/svc1/routes"]).
Proof.
  assert (service_get gateway_ab (VStr "svc1") example_state
          = (Return service1,
             after_gets example_state ["http://kong:8001/services/svc1"])) as H1
    by (vm_compute; reflexivity).
  assert (route_list gateway_ab (VStr "svc1")
            (after_gets example_state ["http://kong:8001/services/svc1"])
          = (Return (VList [route_ab]),
             after_gets example_state
               ["http://kong:8001/services/svc1";
                "http://kong:8001/services/svc1/routes"])) as H2
    by (vm_compute; reflexivity).
  split; [exact H1|]. split; [exact H2|].
  assert (Forall is_route [route_ab]) as H3
    by (constructor; [exact is_route_route_ab | constructor]).
  split.
  - rewrite (route_query_matches_permutations gateway_ab "svc1" ["b"; "a"] [] [] []
               _ _ _ _ _ H1 eq_refl H2 H3).
    reflexivity.
  - rewrite (route_query_matches_permutations gateway_ab "svc1" ["a"] [] [] []
               _ _ _ _ _ H1 eq_refl H2 H3).
    reflexivity.
Defined.

(** C3, as the spec states it, fails on a collection with a repeated string:
    the route that lists the host [a] twice has, field by field, the same set
    of strings as the query for the host [a], and [route_query] does not
    return it. *)
Lemma route_query_set_equality_counterexample :
  is_route route_aa
  ∧ route_equivalent same_set route_aa ["a"] [] [] []
  ∧ route_query gateway_aa "svc1" ["a"] [] [] [] example_state
    = (Return VNone,
       after_gets example_state
         ["http://kong:8001/services/svc1"; "http://kong:8001/services/svc1/routes"]).
Proof.
  split; [exact is_route_route_aa|]. split.
  - unfold route_equivalent, same_set.
    assert (field_strings route_aa "hosts" = ["a"; "a"]) as -> by (vm_compute; reflexivity).
    assert (field_strings route_aa "paths" = []) as -> by (vm_compute; reflexivity).
    assert (field_strings route_aa "methods" = []) as -> by (vm_compute; reflexivity).
    assert (field_strings route_aa "protocols" = []) as -> by (vm_compute; reflexivity).
    repeat split; try done; rewrite !elem_of_cons; tauto.
  - vm_compute. reflexivity.
Qed.

Lemma same_set_multiset_NoDup l1 l2 :
  NoDup l1 → NoDup l2 → same_set l1 l2 ↔ same_multiset l1 l2.
Proof.
  intros H1 H2. unfold same_set, same_multiset. split.
  - by apply NoDup_Permutation.
  - intros H x. by rewrite H.
Qed.

(** ** The resolver [route_get] *)

Section Resolver_facts.

Context {World : Type}.
Variable send : request → World → reply * World.
Local Abbreviation M := (@M World).
Local Abbreviation state := (@state World).

(** C6, as the code has it: [route_get] sends one GET to the route's URL.
    It returns the parsed body when the status is not a 4xx or 5xx one, and
    [None] for every 4xx or 5xx status, 404 or not, since it catches every
    [requests.HTTPError].  A failure that is not an HTTP status error passes
    through: no answer from the gateway, or an answer that is not JSON. *)
Theorem route_get_answers (route_id : string) (st : state) :
  route_get send (VStr route_id) st
    = (match (send (get_request st (base_url (self st) +:+ "/routes/" +:+ route_id))
                (world st)).1 with
       | NoAnswer => Raise ConnectionError
       | Answer r =>
           if (400 <=? status_code r) && (status_code r <? 600) then Return VNone
           else match json r with
                | Some v => Return v
                | None => Raise JSONDecodeError
                end
       end,
       sent st (get_request st (base_url (self st) +:+ "/routes/" +:+ route_id))
         (send (get_request st (base_url (self st) +:+ "/routes/" +:+ route_id))
            (world st)).2).
Proof.
  unfold route_get, try_except_HTTPError, _get.
  rewrite (bind_Return _ _ st (base_url (self st) +:+ "/routes/" +:+ route_id) st)
    by done.
  unfold mbind at 1. unfold M_bind, requests.
  fold (get_request st (base_url (self st) +:+ "/routes/" +:+ route_id)).
  destruct (send _ (world st)) as [[r|] w]; simpl; [|done].
  unfold mbind, M_bind, pure, raise_for_status, dot_json.
  destruct ((400 <=? status_code r) && (status_code r <? 600)); simpl; [done|].
  by destruct (json r).
Qed.

End Resolver_facts.

(** C6, as the spec states it, fails on a server error: a gateway that
    answers 500 makes [route_get] return [None], as it does for 404. *)
Lemma route_get_server_error_counterexample :
  route_get gateway_500 (VStr "r1") example_state
    = (Return VNone, after_gets example_state ["http://kong:8001/routes/r1"]).
Proof. vm_compute. reflexivity. Qed.

(** ** The object across the request methods *)

Section Object_facts.

Context {World : Type}.
Variable send : request → World → reply * World.
Local Abbreviation M := (@M World).
Local Abbreviation state := (@state World).

Lemma keeps_self_ret {A} (a : A) : keeps_self (mret a : M A).
Proof. by intros st. Qed.

Lemma keeps_self_pure {A} (c : outcome A) : keeps_self (pure c : M A).
Proof. by intros st. Qed.

Lemma keeps_self_bind {A B} (c : M A) (f : A → M B) :
  keeps_self c → (∀ a, keeps_self (f a)) → keeps_self (c ≫= f).
Proof.
  intros Hc Hf st. unfold mbind, M_bind. specialize (Hc st).
  destruct (c st) as [[a|e|s] st1]; simpl in *; [|done..].
  by rewrite Hf.
Qed.

Lemma keeps_self_url uri : keeps_self (_url uri : M string).
Proof.
  unfold _url. apply keeps_self_bind; [by intros st|]. intros k.
  destruct (List.filter _ _); [apply keeps_self_ret | apply keeps_self_pure].
Qed.

Lemma keeps_self_requests m url params data :
  keeps_self (requests send m url params data).
Proof. intros st. unfold requests. by destruct (send _ (world st)). Qed.

Lemma keeps_self_get uri params : keeps_self (_get send uri params).
Proof.
  unfold _get. apply keeps_self_bind; [apply keeps_self_url|]. intros url.
  apply keeps_self_bind; [apply keeps_self_requests|]. intros r.
  apply keeps_self_bind; intros; apply keeps_self_pure.
Qed.

Lemma keeps_self_put uri data : keeps_self (_put send uri data).
Proof.
  unfold _put. apply keeps_self_bind; [apply keeps_self_url|]. intros url.
  apply keeps_self_bind; [apply keeps_self_requests|]. intros r.
  destruct (status_code r =? codes_created); [apply keeps_self_ret|].
  apply keeps_self_bind; intros; apply keeps_self_pure.
Qed.

Lemma keeps_self_delete uri : keeps_self (_delete send uri).
Proof.
  unfold _delete. apply keeps_self_bind; [apply keeps_self_url|]. intros url.
  apply keeps_self_bind; [apply keeps_self_requests|]. intros r.
  destruct (negb _); [apply keeps_self_pure | apply keeps_self_ret].
Qed.

Lemma update_headers_self hdrs (st : state) :
  update_headers hdrs st
    = (Return (), State (with_headers (self st) hdrs) (world st) (trace st)).
Proof.
  unfold update_headers, with_headers. destruct hdrs as [h|].
  - case_bool_decide as Hh.
    + subst h. rewrite (left_id_L ∅ (∪)). by destruct st as [[] ? ?].
    + done.
  - by destruct st as [[] ? ?].
Qed.

Lemma post_self uri data hdrs (st : state) :
  self (_post send uri data hdrs st).2 = with_headers (self st) hdrs.
Proof.
  unfold _post. rewrite (bind_Return _ _ _ _ _ (update_headers_self hdrs st)).
  set (st1 := State _ _ _).
  assert (keeps_self
    (url ← _url uri;
     r ← requests send POST url VNone data;
     if status_code r =? codes_created then pure (dot_json r)
     else err ← pure (dot_json r);
          raise (UnexpectedStatus (status_code r) codes_created url err data))) as H.
  { apply keeps_self_bind; [apply keeps_self_url|]. intros url.
    apply keeps_self_bind; [apply keeps_self_requests|]. intros r.
    destruct (status_code r =? codes_created); [apply keeps_self_pure|].
    apply keeps_self_bind; intros; apply keeps_self_pure. }
  by rewrite (H st1).
Qed.

Lemma patch_self uri data hdrs (st : state) :
  self (_patch send uri data hdrs st).2 = with_headers (self st) hdrs.
Proof.
  unfold _patch. rewrite (bind_Return _ _ _ _ _ (update_headers_self hdrs st)).
  set (st1 := State _ _ _).
  assert (keeps_self
    (url ← _url uri;
     r ← requests send PATCH url VNone data;
     if status_code r =? codes_ok then pure (dot_json r)
     else err ← pure (dot_json r);
          raise (UnexpectedStatus (status_code r) codes_ok url err data))) as H.
  { apply keeps_self_bind; [apply keeps_self_url|]. intros url.
    apply keeps_self_bind; [apply keeps_self_requests|]. intros r.
    destruct (status_code r =? codes_ok); [apply keeps_self_pure|].
    apply keeps_self_bind; intros; apply keeps_self_pure. }
  by rewrite (H st1).
Qed.

Lemma init_self url auth_user auth_pass ping w :
  self (Kong__init__ send url auth_user auth_pass ping w).2
    = constructed url auth_user auth_pass.
Proof.
  unfold Kong__init__.
  assert (keeps_self (if ping then status send;; mret () else mret () : M unit)) as H.
  { destruct ping; [|apply keeps_self_ret].
    apply keeps_self_bind; [apply keeps_self_get|]. intros; apply keeps_self_ret. }
  rewrite H. unfold constructed. by destruct auth_user, auth_pass.
Qed.

(** C9, as the code has it: [__init__] sets the base URL, the credential pair
    and the header map (empty, or the admin token).  [_get], [_put] and
    [_delete] leave the object as it is, whatever the gateway answers.
    [_post] and [_patch] leave the base URL and the credentials as they are
    and merge the extra headers they are given into the header map of the
    object, where they stay for the later calls; without extra headers, or
    with an empty mapping, they leave the object as it is. *)
Theorem request_methods_and_the_object uri params data hdrs (st : state) :
  self (_get send uri params st).2 = self st
  ∧ self (_put send uri data st).2 = self st
  ∧ self (_delete send uri st).2 = self st
  ∧ self (_post send uri data hdrs st).2 = with_headers (self st) hdrs
  ∧ self (_patch send uri data hdrs st).2 = with_headers (self st) hdrs
  ∧ with_headers (self st) None = self st
  ∧ with_headers (self st) (Some ∅) = self st
  ∧ ∀ url auth_user auth_pass ping w,
      self (Kong__init__ send url auth_user auth_pass ping w).2
        = constructed url auth_user auth_pass.
Proof.
  split; [apply keeps_self_get|]. split; [apply keeps_self_put|].
  split; [apply keeps_self_delete|]. split; [apply post_self|].
  split; [apply patch_self|]. split; [done|]. split.
  - unfold with_headers. rewrite (left_id_L ∅ (∪)). by destruct (self st).
  - apply init_self.
Qed.

End Object_facts.

(** C9, as the spec states it, fails on [_post] with extra headers, which is
    how [route_apply] calls it: the header map of the object, empty before the
    call, holds the content type after it. *)
Lemma post_changes_headers_counterexample :
  headers (self example_state) = ∅
  ∧ headers (self (_post gateway1 (VStr "routes") (VStr "{}") (Some json_headers)
                     example_state).2)
    = json_headers
  ∧ json_headers !! "content-type" = Some "application/json".
Proof. repeat split; vm_compute; reflexivity. Qed.

(** ** Checks of the model on small inputs *)

Example strip_slash_cursor : strip_slash "/plugins?offset=2" = "plugins?offset=2".
Proof. reflexivity. Qed.

Example strip_slash_both_ends : strip_slash "//routes/r1/" = "routes/r1".
Proof. reflexivity. Qed.

Example sorted_str_hosts : sorted_str ["b"; "a"; "c"; "a"] = ["a"; "a"; "b"; "c"].
Proof. reflexivity. Qed.

Example url_skips_None :
  _url (VList [VStr "services"; VNone; VStr "routes"]) example_state
    = (Return "http://kong:8001/services/routes", example_state).
Proof. reflexivity. Qed.

Example url_of_nothing : _url VNone example_state = (Return "http://kong:8001", example_state).
Proof. reflexivity. Qed.

Example prepare_config_example :
  _prepare_config example_config
    = <["config.a" := VInt 1]> {["config.b" := VDict {["c" := VInt 2]}]}.
Proof. vm_compute. reflexivity. Qed.

(** In the admin API a binding is [null] or an object with an [id]: it is
    bound exactly when it is not [null]. *)
Lemma bound_reference plugin relation m :
  binding plugin relation = VDict m → is_Some (m !! "id") → bound plugin relation.
Proof.
  intros Hb [x Hx]. unfold bound. rewrite Hb. simpl.
  apply negb_true_iff, bool_decide_eq_false_2. intros ->.
  by rewrite lookup_empty in Hx.
Qed.

Lemma unbound_null plugin relation :
  binding plugin relation = VNone → ¬ bound plugin relation.
Proof. intros Hb. unfold bound. by rewrite Hb. Qed.

(** The query for the consumer ["con1"] on [gateway1] returns the plugin bound
    to the consumer, and the query without a consumer the other one. *)
Example plugin_query_with_consumer :
  (plugin_query gateway1 uuid36 1 (Some "rate-limiting") (AStr "svc1") ANone
     (AStr "con1") None example_state).1
    = Return [service_and_consumer].
Proof. vm_compute. reflexivity. Qed.

(** Two plugins with the same name and bindings: the apply and the delete
    stop on the ambiguity. *)
Example plugin_apply_ambiguous :
  (plugin_apply
     (table_gateway
        [ (GET, "http://kong:8001/plugins",
           ok (list_page [plugin_object plugin_a_id "cors" VNone VNone VNone;
                          plugin_object plugin_b_id "cors" VNone VNone VNone] VNone)) ])
     uuid36 1 (Some "cors") VNone ANone ANone AFalse example_state).1
    = Raise (ValueError
        "Multiple Plugin records for name: 'cors', service: 'None', route: 'None', consumer: 'False'").
Proof. vm_compute. reflexivity. Qed.

(** Without a name and an id the query stops before any request; with the
    name ["cors"] it goes past the test. *)
Lemma plugin_query_needs_name_or_id_witness :
  plugin_query gateway1 uuid36 1 None ANone ANone AFalse None example_state
    = (Raise (ValueError "Need at least one of 'plugin_id' or 'name'"), example_state)
  ∧ (plugin_query gateway1 uuid36 1 (Some "cors") ANone ANone AFalse None
       example_state).1
    ≠ Raise (ValueError "Need at least one of 'plugin_id' or 'name'").
Proof.
  destruct (plugin_query_needs_name_or_id gateway1 uuid36 1 ANone ANone AFalse
              example_state) as [H0 H1].
  split; [exact H0|].
  exact (H1 (Some "cors") None (or_introl (ex_intro _ "cors" eq_refl))).
Defined.

(** * Further properties of the client *)

(** ** The transport adapter, verb by verb *)

Section Adapter_facts.

Context {World : Type}.
Variable send : request → World → reply * World.
Local Abbreviation M := (@M World).
Local Abbreviation state := (@state World).

Lemma join_slash_strings (l : list string) :
  l ≠ [] → join_slash (VStr <$> l) = Return (String.concat "/" l).
Proof.
  induction l as [|x [|y l] IH]; intros Hl; [done|done|].
  change (join_slash (VStr <$> (x :: y :: l)))
    with (r ← join_slash (VStr <$> (y :: l)); Return (x +:+ "/" +:+ r)).
  by rewrite IH.
Qed.

Lemma filter_present (segments : list (option string)) :
  List.filter (λ x, negb (is_none x)) (opt_val <$> segments) = VStr <$> omap id segments.
Proof.
  induction segments as [|[x|] segments IH]; [done| |].
  - rewrite fmap_cons. simpl. by rewrite IH.
  - rewrite fmap_cons. simpl. apply IH.
Qed.

Lemma url_segments (segments : list (option string)) (st : state) :
  _url (VList (opt_val <$> segments)) st = (Return (url_of st segments), st).
Proof.
  unfold _url, url_of. rewrite (bind_Return _ _ st (self st) st) by done.
  rewrite filter_present.
  destruct (omap id segments) as [|x l] eqn:E; [done|].
  change (VStr (base_url (self st)) :: (VStr <$> (x :: l)))
    with (VStr <$> (base_url (self st) :: x :: l)).
  by rewrite join_slash_strings.
Qed.

Lemma join_slash_other (items : list val) x :
  x ∈ items → (∀ s, x ≠ VStr s) → join_slash items = Raise TypeError.
Proof.
  induction items as [|y items IH]; intros Hin Hx; [by apply elem_of_nil in Hin|].
  apply elem_of_cons in Hin as [<-|Hin].
  - destruct x; try done. by destruct (Hx s).
  - destruct y; try done. destruct items as [|z items]; [by apply elem_of_nil in Hin|].
    change (join_slash (VStr s :: z :: items))
      with (r ← join_slash (z :: items); Return (s +:+ "/" +:+ r)).
    by rewrite IH.
Qed.

(** X1: [_url] joins the base URL and the segments that are not [None] with
    slashes, in their order, and gives the base URL alone when no segment is
    left; a single [str] counts as one segment.  A segment that is neither
    [None] nor a [str] makes it raise [TypeError].  In every case the object
    and the trace stay as they are. *)
Theorem url_joins_present_segments (segments : list (option string)) (st : state) :
  _url (VList (opt_val <$> segments)) st
    = (Return (String.concat "/" (base_url (self st) :: omap id segments)), st)
  ∧ (omap id segments = [] →
       _url (VList (opt_val <$> segments)) st = (Return (base_url (self st)), st))
  ∧ (∀ path, _url (VStr path) st = (Return (base_url (self st) +:+ "/" +:+ path), st))
  ∧ (∀ items x, x ∈ items → x ≠ VNone → (∀ s, x ≠ VStr s) →
       _url (VList items) st = (Raise TypeError, st)).
Proof.
  split; [apply url_segments|]. split; [|split].
  - intros H. rewrite url_segments. unfold url_of. by rewrite H.
  - done.
  - intros items x Hin Hn Hs. unfold _url.
    rewrite (bind_Return _ _ st (self st) st) by done.
    assert (x ∈ List.filter (λ x, negb (is_none x)) items) as Hf.
    { apply list_elem_of_In, List.filter_In. split; [by apply list_elem_of_In|].
      by destruct x. }
    destruct (List.filter _ items) as [|y l] eqn:E; [by apply elem_of_nil in Hf|].
    unfold pure. f_equal. apply (join_slash_other _ x); [by right|done].
Qed.

Lemma requests_run m url params data (st : state) :
  requests send m url params data st
    = (match (send (request_of (self st) m url params data) (world st)).1 with
       | Answer r => Return r
       | NoAnswer => Raise ConnectionError
       end,
       sent st (request_of (self st) m url params data)
         (send (request_of (self st) m url params data) (world st)).2).
Proof.
  unfold requests, request_of, sent. by destruct (send _ (world st)) as [[r|] w].
Qed.

Lemma get_run (segments : list (option string)) params (st : state) :
  _get send (VList (opt_val <$> segments)) params st
    = (match (send (request_of (self st) GET (url_of st segments) params VNone)
                (world st)).1 with
       | NoAnswer => Raise ConnectionError
       | Answer r =>
           if (400 <=? status_code r) && (status_code r <? 600)
           then Raise (HTTPError (status_code r))
           else match json r with
                | Some v => Return v
                | None => Raise JSONDecodeError
                end
       end,
       sent st (request_of (self st) GET (url_of st segments) params VNone)
         (send (request_of (self st) GET (url_of st segments) params VNone)
            (world st)).2).
Proof.
  unfold _get. rewrite (bind_Return _ _ _ _ _ (url_segments segments st)).
  unfold mbind at 1. unfold M_bind. rewrite requests_run.
  destruct (send _ (world st)) as [[r|] w]; simpl; [|done].
  unfold mbind, M_bind, pure, raise_for_status, dot_json.
  destruct ((400 <=? status_code r) && (status_code r <? 600)); simpl; [done|].
  by destruct (json r).
Qed.

(** X2: [_get] sends one GET with the object's credentials and headers.  It
    raises [HTTPError] with the status for a 4xx or 5xx answer, returns the
    parsed body for every other status (200, and also 201, 204 or a 3xx),
    raises the JSON error when that body is not JSON, and the connection error
    when there is no answer. *)
Theorem get_by_status (segments : list (option string)) params (st : state) :
  _get send (VList (opt_val <$> segments)) params st
    = (match (send (request_of (self st) GET (url_of st segments) params VNone)
                (world st)).1 with
       | NoAnswer => Raise ConnectionError
       | Answer r =>
           if (400 <=? status_code r) && (status_code r <? 600)
           then Raise (HTTPError (status_code r))
           else match json r with
                | Some v => Return v
                | None => Raise JSONDecodeError
                end
       end,
       sent st (request_of (self st) GET (url_of st segments) params VNone)
         (send (request_of (self st) GET (url_of st segments) params VNone)
            (world st)).2).
Proof. apply get_run. Qed.

Lemma post_patch_run (segments : list (option string)) data hdrs (st : state) :
  _post send (VList (opt_val <$> segments)) data hdrs st
    = (match (send (request_of (with_headers (self st) hdrs) POST (url_of st segments)
                      VNone data) (world st)).1 with
       | NoAnswer => Raise ConnectionError
       | Answer r =>
           match json r with
           | None => Raise JSONDecodeError
           | Some body =>
               if status_code r =? 201 then Return body
               else Raise (UnexpectedStatus (status_code r) 201 (url_of st segments)
                             body data)
           end
       end,
       State (with_headers (self st) hdrs)
         (send (request_of (with_headers (self st) hdrs) POST (url_of st segments)
                  VNone data) (world st)).2
         (trace st ++ [request_of (with_headers (self st) hdrs) POST
                         (url_of st segments) VNone data]))
  ∧ _patch send (VList (opt_val <$> segments)) data hdrs st
    = (match (send (request_of (with_headers (self st) hdrs) PATCH (url_of st segments)
                      VNone data) (world st)).1 with
       | NoAnswer => Raise ConnectionError
       | Answer r =>
           match json r with
           | None => Raise JSONDecodeError
           | Some body =>
               if status_code r =? 200 then Return body
               else Raise (UnexpectedStatus (status_code r) 200 (url_of st segments)
                             body data)
           end
       end,
       State (with_headers (self st) hdrs)
         (send (request_of (with_headers (self st) hdrs) PATCH (url_of st segments)
                  VNone data) (world st)).2
         (trace st ++ [request_of (with_headers (self st) hdrs) PATCH
                         (url_of st segments) VNone data])).
Proof.
  assert (url_of (State (with_headers (self st) hdrs) (world st) (trace st)) segments
          = url_of st segments) as Hu.
  { unfold url_of. by destruct hdrs. }
  split.
  - unfold _post. rewrite (bind_Return _ _ _ _ _ (update_headers_self hdrs st)).
    rewrite (bind_Return _ _ _ _ _ (url_segments segments _)), Hu.
    unfold mbind at 1. unfold M_bind. rewrite requests_run. unfold sent. simpl.
    destruct (send _ (world st)) as [[r|] w]; simpl; [|done].
    unfold codes_created, dot_json, pure, raise, mbind, M_bind.
    destruct (status_code r =? 201); by destruct (json r).
  - unfold _patch. rewrite (bind_Return _ _ _ _ _ (update_headers_self hdrs st)).
    rewrite (bind_Return _ _ _ _ _ (url_segments segments _)), Hu.
    unfold mbind at 1. unfold M_bind. rewrite requests_run. unfold sent. simpl.
    destruct (send _ (world st)) as [[r|] w]; simpl; [|done].
    unfold codes_ok, dot_json, pure, raise, mbind, M_bind.
    destruct (status_code r =? 200); by destruct (json r).
Qed.

(** X3: [_post] and [_patch] first merge the extra headers into the header
    map of the object, then send one request with the body and the merged
    headers.  They return the parsed body when the status is the expected one
    (201 for [_post], 200 for [_patch]); on any other status they raise the
    exception that carries the status, the expected status, the URL, the
    parsed body and the data sent.  When the body is not JSON the JSON error
    is raised instead, whatever the status. *)
Theorem post_patch_by_status (segments : list (option string)) data hdrs (st : state) :
  _post send (VList (opt_val <$> segments)) data hdrs st
    = (match (send (request_of (with_headers (self st) hdrs) POST (url_of st segments)
                      VNone data) (world st)).1 with
       | NoAnswer => Raise ConnectionError
       | Answer r =>
           match json r with
           | None => Raise JSONDecodeError
           | Some body =>
               if status_code r =? 201 then Return body
               else Raise (UnexpectedStatus (status_code r) 201 (url_of st segments)
                             body data)
           end
       end,
       State (with_headers (self st) hdrs)
         (send (request_of (with_headers (self st) hdrs) POST (url_of st segments)
                  VNone data) (world st)).2
         (trace st ++ [request_of (with_headers (self st) hdrs) POST
                         (url_of st segments) VNone data]))
  ∧ _patch send (VList (opt_val <$> segments)) data hdrs st
    = (match (send (request_of (with_headers (self st) hdrs) PATCH (url_of st segments)
                      VNone data) (world st)).1 with
       | NoAnswer => Raise ConnectionError
       | Answer r =>
           match json r with
           | None => Raise JSONDecodeError
           | Some body =>
               if status_code r =? 200 then Return body
               else Raise (UnexpectedStatus (status_code r) 200 (url_of st segments)
                             body data)
           end
       end,
       State (with_headers (self st) hdrs)
         (send (request_of (with_headers (self st) hdrs) PATCH (url_of st segments)
                  VNone data) (world st)).2
         (trace st ++ [request_of (with_headers (self st) hdrs) PATCH
                         (url_of st segments) VNone data])).
Proof. apply post_patch_run. Qed.

(** X4: [_put] sends one PUT.  On 201 it returns [True] without reading the
    body; otherwise it raises [HTTPError] for a 4xx or 5xx status and returns
    the parsed body for the statuses left (200 among them). *)
Theorem put_by_status (segments : list (option string)) data (st : state) :
  _put send (VList (opt_val <$> segments)) data st
    = (match (send (request_of (self st) PUT (url_of st segments) VNone data)
                (world st)).1 with
       | NoAnswer => Raise ConnectionError
       | Answer r =>
           if status_code r =? 201 then Return (VBool true)
           else if (400 <=? status_code r) && (status_code r <? 600)
           then Raise (HTTPError (status_code r))
           else match json r with
                | Some v => Return v
                | None => Raise JSONDecodeError
                end
       end,
       sent st (request_of (self st) PUT (url_of st segments) VNone data)
         (send (request_of (self st) PUT (url_of st segments) VNone data) (world st)).2).
Proof.
  unfold _put. rewrite (bind_Return _ _ _ _ _ (url_segments segments st)).
  unfold mbind at 1. unfold M_bind. rewrite requests_run.
  destruct (send _ (world st)) as [[r|] w]; simpl; [|done].
  unfold codes_created. destruct (status_code r =? 201); [done|].
  unfold mbind, M_bind, pure, raise_for_status, dot_json.
  destruct ((400 <=? status_code r) && (status_code r <? 600)); simpl; [done|].
  by destruct (json r).
Qed.

(** X5: [_delete] sends one DELETE without a body.  It returns [True] on 204
    and on no other status: every other answer, a 200 or a 404 as well, raises
    the exception that carries the status; it never returns [False] and never
    reads the body. *)
Theorem delete_by_status (segments : list (option string)) (st : state) :
  _delete send (VList (opt_val <$> segments)) st
    = (match (send (request_of (self st) DELETE (url_of st segments) VNone VNone)
                (world st)).1 with
       | NoAnswer => Raise ConnectionError
       | Answer r =>
           if status_code r =? 204 then Return true
           else Raise (UnexpectedDeleteStatus (status_code r) 204)
       end,
       sent st (request_of (self st) DELETE (url_of st segments) VNone VNone)
         (send (request_of (self st) DELETE (url_of st segments) VNone VNone)
            (world st)).2)
  ∧ (_delete send (VList (opt_val <$> segments)) st).1 ≠ Return false.
Proof.
  assert (_delete send (VList (opt_val <$> segments)) st
    = (match (send (request_of (self st) DELETE (url_of st segments) VNone VNone)
                (world st)).1 with
       | NoAnswer => Raise ConnectionError
       | Answer r =>
           if status_code r =? 204 then Return true
           else Raise (UnexpectedDeleteStatus (status_code r) 204)
       end,
       sent st (request_of (self st) DELETE (url_of st segments) VNone VNone)
         (send (request_of (self st) DELETE (url_of st segments) VNone VNone)
            (world st)).2)) as H.
  { unfold _delete. rewrite (bind_Return _ _ _ _ _ (url_segments segments st)).
    unfold mbind at 1. unfold M_bind. rewrite requests_run.
    destruct (send _ (world st)) as [[r|] w]; simpl; [|done].
    unfold codes_no_content. by destruct (status_code r =? 204). }
  split; [exact H|]. rewrite H. simpl.
  destruct (send _ (world st)) as [[r|] w]; simpl; [|done].
  by destruct (status_code r =? 204).
Qed.

(** X6: [Kong(base_url, auth_user, auth_pass, ping)] without [ping] sends
    nothing.  With [ping] it sends one GET to [<base_url>/status], already
    with the credentials and the token header of the new object, and the
    construction fails when that request does: on a 4xx or 5xx status, on no
    answer, on a body that is not JSON.  The content of the status is not
    looked at. *)
Theorem init_pings_status url auth_user auth_pass (w : World) :
  Kong__init__ send url auth_user auth_pass false w
    = (Return (), State (constructed url auth_user auth_pass) w [])
  ∧ Kong__init__ send url auth_user auth_pass true w
    = (match (send (request_of (constructed url auth_user auth_pass) GET
                      (url +:+ "/status") VNone VNone) w).1 with
       | NoAnswer => Raise ConnectionError
       | Answer r =>
           if (400 <=? status_code r) && (status_code r <? 600)
           then Raise (HTTPError (status_code r))
           else match json r with
                | Some _ => Return ()
                | None => Raise JSONDecodeError
                end
       end,
       State (constructed url auth_user auth_pass)
         (send (request_of (constructed url auth_user auth_pass) GET
                  (url +:+ "/status") VNone VNone) w).2
         [request_of (constructed url auth_user auth_pass) GET (url +:+ "/status")
            VNone VNone]).
Proof.
  assert (∀ k : Kong,
    (status send;; mret ()) (State k w [])
    = (match (send (request_of k GET (base_url k +:+ "/status") VNone VNone) w).1 with
       | NoAnswer => Raise ConnectionError
       | Answer r =>
           if (400 <=? status_code r) && (status_code r <? 600)
           then Raise (HTTPError (status_code r))
           else match json r with
                | Some _ => Return ()
                | None => Raise JSONDecodeError
                end
       end,
       State k (send (request_of k GET (base_url k +:+ "/status") VNone VNone) w).2
         [request_of k GET (base_url k +:+ "/status") VNone VNone])) as H.
  { intros k. unfold status, _get.
    unfold mbind at 1. unfold M_bind at 1.
    rewrite (bind_Return _ _ (State k w []) (base_url k +:+ "/status") (State k w []))
      by done.
    unfold mbind at 1. unfold M_bind at 1. rewrite requests_run. unfold sent. simpl.
    destruct (send _ w) as [[r|] w']; simpl; [|done].
    unfold mbind, M_bind, pure, raise_for_status, dot_json.
    destruct ((400 <=? status_code r) && (status_code r <? 600)); simpl; [done|].
    by destruct (json r). }
  unfold Kong__init__, constructed. split.
  - by destruct auth_user, auth_pass.
  - destruct auth_user as [u|], auth_pass as [p|]; apply H.
Qed.

End Adapter_facts.

(** ** The health properties *)

Section Health_facts.

Context {World : Type}.
Variable send : request → World → reply * World.
Local Abbreviation M := (@M World).
Local Abbreviation state := (@state World).

(** X7: [healthy] returns the value under ['database']['reachable'] of the
    status, and [False] when the status has no ['database'] or the database no
    ['reachable'].  A status that is not an object, or a ['database'] that is
    present and not an object ([null], say), raises [AttributeError].
    Nothing but the GET of the status is sent. *)
Theorem healthy_reads_reachable (st st' : state) s :
  status send st = (Return s, st') →
  healthy send st
    = (match s with
       | VDict m =>
           match m !! "database" with
           | None => Return (VBool false)
           | Some (VDict d) => Return (default (VBool false) (d !! "reachable"))
           | Some _ => Raise AttributeError
           end
       | _ => Raise AttributeError
       end, st').
Proof.
  intros Hs. unfold healthy. rewrite (bind_Return _ _ _ _ _ Hs).
  destruct s as [| | | | |m]; try done.
  unfold mbind, M_bind, pure. simpl.
  destruct (m !! "database") as [[| | | | |d]|]; simpl; try done.
Qed.

Lemma get_str_run (path : string) params (st : state) :
  _get send (VStr path) params st
    = (match (send (request_of (self st) GET (base_url (self st) +:+ "/" +:+ path)
                      params VNone) (world st)).1 with
       | NoAnswer => Raise ConnectionError
       | Answer r =>
           if (400 <=? status_code r) && (status_code r <? 600)
           then Raise (HTTPError (status_code r))
           else match json r with
                | Some v => Return v
                | None => Raise JSONDecodeError
                end
       end,
       sent st (request_of (self st) GET (base_url (self st) +:+ "/" +:+ path) params VNone)
         (send (request_of (self st) GET (base_url (self st) +:+ "/" +:+ path)
                  params VNone) (world st)).2).
Proof.
  unfold _get.
  rewrite (bind_Return _ _ st (base_url (self st) +:+ "/" +:+ path) st) by done.
  unfold mbind at 1. unfold M_bind. rewrite requests_run.
  destruct (send _ (world st)) as [[r|] w]; simpl; [|done].
  unfold mbind, M_bind, pure, raise_for_status, dot_json.
  destruct ((400 <=? status_code r) && (status_code r <? 600)); simpl; [done|].
  by destruct (json r).
Qed.

(** X8: [version] asks for the base URL followed by a slash (the empty path
    is a segment like another) and returns the ['version'] of the answer,
    [None] when the answer has none. *)
Theorem version_asks_root (st : state) :
  (∃ w, (version send st).2
        = sent st (request_of (self st) GET (base_url (self st) +:+ "/") VNone VNone) w)
  ∧ ∀ m st', _get send (VStr "") VNone st = (Return (VDict m), st') →
      version send st = (Return (default VNone (m !! "version")), st').
Proof.
  split.
  - unfold version, mbind, M_bind. rewrite get_str_run.
    eexists. by repeat case_match.
  - intros m st' Hg. unfold version. by rewrite (bind_Return _ _ _ _ _ Hg).
Qed.

End Health_facts.

(** The status of [gateway_status] reports a reachable database. *)
Lemma healthy_reads_reachable_witness :
  status gateway_status example_state
    = (Return status_body, after_gets example_state ["http://kong:8001/status"])
  ∧ healthy gateway_status example_state
    = (Return (VBool true), after_gets example_state ["http://kong:8001/status"]).
Proof.
  assert (status gateway_status example_state
          = (Return status_body,
             after_gets example_state ["http://kong:8001/status"])) as H
    by (vm_compute; reflexivity).
  split; [exact H|].
  rewrite (healthy_reads_reachable gateway_status _ _ _ H). reflexivity.
Defined.

(** ** More on the routes *)

Section Route_more_facts.

Context {World : Type}.
Variable send : request → World → reply * World.
Variable json_dumps : val → string.
Local Abbreviation M := (@M World).
Local Abbreviation state := (@state World).

Lemma bind_ext {A B} (c : M A) (f g : A → M B) (st : state) :
  (∀ a st1, f a st1 = g a st1) → (c ≫= f) st = (c ≫= g) st.
Proof.
  intros H. unfold mbind, M_bind. destruct (c st) as [[a|e|s] st1]; [apply H|done..].
Qed.

Lemma select_ext (test test' : val → outcome bool) items result :
  (∀ x, test x = test' x) → select test items result = select test' items result.
Proof.
  intros H. revert result. induction items as [|x items IH]; intros result; [done|].
  simpl. rewrite <- H. destruct (test x) as [b|e|s]; simpl; [apply IH|done..].
Qed.

Lemma select_total test items result kept :
  select test items result = Return kept → ∀ x, x ∈ items → ∃ b, test x = Return b.
Proof.
  revert result. induction items as [|y items IH]; intros result H x Hx.
  - by apply elem_of_nil in Hx.
  - simpl in H. destruct (test y) as [b|e|s] eqn:E; simpl in H; [|done..].
    apply elem_of_cons in Hx as [->|Hx]; [eauto|]. by eapply IH.
Qed.

Lemma select_passes test items kept :
  select test items [] = Return kept → kept = List.filter (passes test) items.
Proof.
  intros H. pose proof (select_total _ _ _ _ H) as Ht.
  rewrite (select_filter test (passes test)) in H.
  - by injection H as <-.
  - intros x Hx. destruct (Ht x Hx) as [b Hb]. unfold passes. by rewrite Hb.
Qed.

Lemma sorted_eq_permutation x wanted wanted' :
  wanted ≡ₚ wanted' → sorted_eq x wanted = sorted_eq x wanted'.
Proof.
  intros H. unfold sorted_eq.
  by rewrite (proj2 (sorted_str_eq_iff wanted wanted') H).
Qed.

Lemma route_matches_permutation hosts hosts' paths paths' methods methods'
    protocols protocols' r :
  hosts ≡ₚ hosts' → paths ≡ₚ paths' → methods ≡ₚ methods' → protocols ≡ₚ protocols' →
  route_matches hosts paths methods protocols r
    = route_matches hosts' paths' methods' protocols' r.
Proof.
  intros Hh Hp Hm Hr. unfold route_matches.
  destruct (existing r "hosts") as [xh|e|s]; [|done..]. simpl.
  destruct (existing r "paths") as [xp|e|s]; [|done..]. simpl.
  destruct (existing r "methods") as [xm|e|s]; [|done..]. simpl.
  destruct (existing r "protocols") as [xr|e|s]; [|done..]. simpl.
  by rewrite (sorted_eq_permutation xh _ _ Hh), (sorted_eq_permutation xp _ _ Hp),
    (sorted_eq_permutation xm _ _ Hm), (sorted_eq_permutation xr _ _ Hr).
Qed.

(** X9: the order in which the wanted hosts, paths, methods and protocols
    are given makes no difference to [route_query]: on any gateway, with any
    routes, two queries whose collections are permutations of each other end
    alike, in the same state. *)
Theorem route_query_ignores_order service_name
    hosts hosts' paths paths' methods methods' protocols protocols' (st : state) :
  hosts ≡ₚ hosts' → paths ≡ₚ paths' → methods ≡ₚ methods' → protocols ≡ₚ protocols' →
  route_query send service_name hosts paths methods protocols st
    = route_query send service_name hosts' paths' methods' protocols' st.
Proof.
  intros Hh Hp Hm Hr. unfold route_query.
  apply bind_ext. intros s st1. destruct (is_none s); [done|].
  apply bind_ext. intros routes st2.
  apply bind_ext. intros items st3.
  by rewrite (select_ext _ (route_matches hosts' paths' methods' protocols'))
    by (intros x; by apply route_matches_permutation).
Qed.

(** X10: a route that [route_query] returns is one of the routes the gateway
    listed for the service, it passes the test of the four collections, and
    no other listed route does; when [route_query] returns [None], no listed
    route passes the test.  The list is read after the service has resolved
    to something else than [None]. *)
Theorem route_query_returns_the_only_match
    service_name hosts paths methods protocols (st st' : state) r :
  route_query send service_name hosts paths methods protocols st = (Return r, st') →
  ∃ s st1 routes items,
    service_get send (VStr service_name) st = (Return s, st1)
    ∧ s ≠ VNone
    ∧ route_list send (VStr service_name) st1 = (Return routes, st')
    ∧ iter routes = Return items
    ∧ ((r = VNone
        ∧ ∀ x, x ∈ items → route_matches hosts paths methods protocols x = Return false)
       ∨ (r ∈ items
          ∧ route_matches hosts paths methods protocols r = Return true
          ∧ ∀ x, x ∈ items →
              route_matches hosts paths methods protocols x = Return true → x = r)).
Proof.
  unfold route_query. intros (s & st1 & Hs & H)%bind_inv.
  destruct (is_none s) eqn:Hn; [done|].
  apply bind_inv in H as (routes & st2 & Hl & H).
  apply bind_inv in H as (items & st3 & [Hi ->]%pure_inv & H).
  apply bind_inv in H as (kept & st4 & [Hk ->]%pure_inv & H).
  symmetry in Hi, Hk.
  pose proof (select_total _ _ _ _ Hk) as Ht.
  apply select_passes in Hk.
  exists s, st1, routes, items.
  assert (st' = st2) as ->.
  { destruct (1 <? length kept)%nat; [done|]. by injection H. }
  split; [done|]. split; [by destruct s|]. split; [done|]. split; [done|].
  assert (∀ x, x ∈ items →
    (route_matches hosts paths methods protocols x = Return true ↔ x ∈ kept)) as Hin.
  { intros x Hx. rewrite Hk, list_elem_of_In, List.filter_In, <- list_elem_of_In.
    unfold passes. destruct (Ht x Hx) as [b ->]. split.
    - by intros [= ->].
    - by intros [_ ->]. }
  destruct kept as [|r0 [|r1 kept]]; simpl in H; [| |done].
  - injection H as <-. left. split; [done|].
    intros x Hx. destruct (Ht x Hx) as [[] Hb]; [|done].
    apply (Hin x Hx) in Hb. by apply elem_of_nil in Hb.
  - injection H as <-. right.
    assert (r0 ∈ items) as Hr0.
    { apply list_elem_of_In.
      apply (proj1 (List.filter_In
                      (passes (route_matches hosts paths methods protocols)) r0 items)).
      rewrite <- Hk. by left. }
    split; [done|]. split.
    + apply (Hin r0 Hr0). by left.
    + intros x Hx Hb. apply (Hin x Hx) in Hb.
      by apply list_elem_of_singleton in Hb.
Qed.

(** X11: when the service does not resolve, [route_query] raises the
    [ValueError] "Service <name> not found. Has it been created?" in the state
    the lookup left: the routes of the service are not asked for. *)
Theorem route_query_unresolved_service
    service_name hosts paths methods protocols (st st' : state) :
  service_get send (VStr service_name) st = (Return VNone, st') →
  route_query send service_name hosts paths methods protocols st
    = (Raise (ValueError ("Service " +:+ service_name
                          +:+ " not found. Has it been created?")), st').
Proof. intros H. unfold route_query. by rewrite (bind_Return _ _ _ _ _ H). Qed.

End Route_more_facts.

(** ** [route_apply] *)

Section Route_apply_facts.

Context {World : Type}.
Variable send : request → World → reply * World.
Variable json_dumps : val → string.
Local Abbreviation M := (@M World).
Local Abbreviation state := (@state World).

Lemma post_str_run (path : string) data hdrs (st : state) :
  _post send (VStr path) data hdrs st
    = (answered 201 (base_url (self st) +:+ "/" +:+ path) data
         (send (request_of (with_headers (self st) hdrs) POST
                  (base_url (self st) +:+ "/" +:+ path) VNone data) (world st)).1,
       State (with_headers (self st) hdrs)
         (send (request_of (with_headers (self st) hdrs) POST
                  (base_url (self st) +:+ "/" +:+ path) VNone data) (world st)).2
         (trace st ++ [request_of (with_headers (self st) hdrs) POST
                         (base_url (self st) +:+ "/" +:+ path) VNone data])).
Proof.
  unfold _post. rewrite (bind_Return _ _ _ _ _ (update_headers_self hdrs st)).
  assert (base_url (with_headers (self st) hdrs) = base_url (self st)) as Hb
    by by destruct hdrs.
  rewrite (bind_Return _ _ _ (base_url (self st) +:+ "/" +:+ path)
             (State (with_headers (self st) hdrs) (world st) (trace st)))
    by (unfold _url, mbind, M_bind, get_self; simpl; by rewrite Hb).
  unfold mbind at 1. unfold M_bind. rewrite requests_run. unfold sent, answered. simpl.
  destruct (send _ (world st)) as [[r|] w]; simpl; [|done].
  unfold codes_created, dot_json, pure, raise, mbind, M_bind.
  destruct (status_code r =? 201); by destruct (json r).
Qed.

Lemma patch_member_run (collection id : string) data hdrs (st : state) :
  _patch send (VList [VStr collection; VStr id]) data hdrs st
    = (answered 200 (base_url (self st) +:+ "/" +:+ collection +:+ "/" +:+ id) data
         (send (request_of (with_headers (self st) hdrs) PATCH
                  (base_url (self st) +:+ "/" +:+ collection +:+ "/" +:+ id) VNone data)
            (world st)).1,
       State (with_headers (self st) hdrs)
         (send (request_of (with_headers (self st) hdrs) PATCH
                  (base_url (self st) +:+ "/" +:+ collection +:+ "/" +:+ id) VNone data)
            (world st)).2
         (trace st ++ [request_of (with_headers (self st) hdrs) PATCH
                         (base_url (self st) +:+ "/" +:+ collection +:+ "/" +:+ id)
                         VNone data])).
Proof.
  unfold _patch. rewrite (bind_Return _ _ _ _ _ (update_headers_self hdrs st)).
  assert (base_url (with_headers (self st) hdrs) = base_url (self st)) as Hb
    by by destruct hdrs.
  rewrite (bind_Return _ _ _ (base_url (self st) +:+ "/" +:+ collection +:+ "/" +:+ id)
             (State (with_headers (self st) hdrs) (world st) (trace st)))
    by (unfold _url, mbind, M_bind, get_self; simpl; by rewrite Hb).
  unfold mbind at 1. unfold M_bind. rewrite requests_run. unfold sent, answered. simpl.
  destruct (send _ (world st)) as [[r|] w]; simpl; [|done].
  unfold codes_ok, dot_json, pure, raise, mbind, M_bind.
  destruct (status_code r =? 200); by destruct (json r).
Qed.

Lemma route_apply_with_field service_name name hosts paths methods protocols
    strip_path preserve_host route_id :
  is_Some protocols ∨ is_Some hosts ∨ is_Some paths ∨ is_Some methods →
  route_apply send json_dumps service_name name hosts paths methods protocols
    strip_path preserve_host route_id
  = match service_name with
    | None => raise (ValueError "service_name needs to be specified.")
    | Some service =>
        s ← service_get send (VStr service);
        if is_none s then
          raise (ValueError ("Service " +:+ service +:+ " not found. Has it been created?"))
        else
          payload ← pure (route_payload s name hosts paths methods protocols
                            strip_path preserve_host);
          if opt_truthy route_id then
            _patch send (VList [VStr "routes"; opt_val route_id])
              (VStr (json_dumps payload)) (Some json_headers)
          else
            _post send (VStr "routes") (VStr (json_dumps payload)) (Some json_headers)
    end.
Proof.
  intros H. unfold route_apply. destruct protocols, hosts, paths, methods; try done.
  by destruct H as [[? [=]]|[[? [=]]|[[? [=]]|[? [=]]]]].
Qed.

(** X12: [route_apply] refuses its arguments before any request: without any
    of protocols, hosts, paths and methods it raises the [ValueError] "Need at
    least one of protocols, hosts, paths or methods." (also when the service
    name is missing too), and with one of them but no service name the
    [ValueError] "service_name needs to be specified."; the state is the one
    of the call.  When the service does not resolve it raises the [ValueError]
    "Service <name> not found. Has it been created?" and nothing has been
    written. *)
Theorem route_apply_validates service_name name hosts paths methods protocols
    strip_path preserve_host route_id (st : state) :
  route_apply send json_dumps service_name name None None None None
      strip_path preserve_host route_id st
    = (Raise (ValueError "Need at least one of protocols, hosts, paths or methods."), st)
  ∧ (is_Some protocols ∨ is_Some hosts ∨ is_Some paths ∨ is_Some methods →
     route_apply send json_dumps None name hosts paths methods protocols
         strip_path preserve_host route_id st
       = (Raise (ValueError "service_name needs to be specified."), st)
     ∧ ∀ service st',
         service_get send (VStr service) st = (Return VNone, st') →
         route_apply send json_dumps (Some service) name hosts paths methods protocols
             strip_path preserve_host route_id st
           = (Raise (ValueError ("Service " +:+ service
                                 +:+ " not found. Has it been created?")), st')
         ∧ writes (trace st') = writes (trace st)).
Proof.
  split; [done|]. intros Hf.
  split; [by rewrite route_apply_with_field|]. intros service st' Hg.
  rewrite route_apply_with_field by done.
  rewrite (bind_Return _ _ _ _ _ Hg). split; [done|].
  by destruct (reads_keep_writes _ _ _ _ (reads_only_service_get send _) Hg).
Qed.

(** X13: with a field given and a service that resolves to an object,
    [route_apply] sends exactly one request after the lookup of the service:
    a PATCH to [<base>/routes/<route_id>] when a route id is given, a POST to
    [<base>/routes] otherwise.  It does not look at the routes that exist.
    The body is the serialised document with the name, the four collections,
    the two flags and the service as [{"id": <id of the service>}]; the
    request carries the content type [application/json] over the headers of
    the object, and the object keeps it.  The result is the parsed answer on
    200 for the PATCH and 201 for the POST. *)
Theorem route_apply_writes_once service name hosts paths methods protocols
    strip_path preserve_host route_id (st st1 : state) (m : gmap string val) :
  is_Some protocols ∨ is_Some hosts ∨ is_Some paths ∨ is_Some methods →
  service_get send (VStr service) st = (Return (VDict m), st1) →
  let body :=
    VStr (json_dumps (VDict (route_document (default VNone (m !! "id")) name
                               hosts paths methods protocols strip_path preserve_host))) in
  let url :=
    if opt_truthy route_id
    then base_url (self st) +:+ "/routes/" +:+ default "" route_id
    else base_url (self st) +:+ "/routes" in
  let req :=
    request_of (with_headers (self st) (Some json_headers))
      (if opt_truthy route_id then PATCH else POST) url VNone body in
  route_apply send json_dumps (Some service) name hosts paths methods protocols
      strip_path preserve_host route_id st
    = (answered (if opt_truthy route_id then 200 else 201) url body
         (send req (world st1)).1,
       State (with_headers (self st) (Some json_headers)) (send req (world st1)).2
         (trace st1 ++ [req])).
Proof.
  intros Hf Hg. simpl.
  destruct (reads_keep_writes _ _ _ _ (reads_only_service_get send _) Hg) as [Hs _].
  rewrite route_apply_with_field by done.
  rewrite (bind_Return _ _ _ _ _ Hg). simpl.
  rewrite (bind_Return _ _ st1
             (VDict (route_document (default VNone (m !! "id")) name hosts paths methods
                       protocols strip_path preserve_host)) st1) by done.
  destruct (opt_truthy route_id) eqn:Hr.
  - destruct route_id as [id|]; [|done]. simpl.
    rewrite patch_member_run. by rewrite Hs.
  - rewrite post_str_run. by rewrite Hs.
Qed.

(** X14: once [route_apply] has sent its request, the content type it passed
    stays in the header map of the object: every later GET of that object, and
    every later POST without extra headers, such as the one of
    [plugin_apply], carries [content-type: application/json]. *)
Theorem route_apply_leaves_content_type service name hosts paths methods protocols
    strip_path preserve_host route_id (st st1 : state) (m : gmap string val) :
  is_Some protocols ∨ is_Some hosts ∨ is_Some paths ∨ is_Some methods →
  service_get send (VStr service) st = (Return (VDict m), st1) →
  ∀ segments params data,
    ∃ get post,
      trace (_get send (VList (opt_val <$> segments)) params
               (route_apply send json_dumps (Some service) name hosts paths methods
                  protocols strip_path preserve_host route_id st).2).2
        = trace (route_apply send json_dumps (Some service) name hosts paths methods
                   protocols strip_path preserve_host route_id st).2 ++ [get]
      ∧ req_method get = GET
      ∧ req_headers get !! "content-type" = Some "application/json"
      ∧ trace (_post send (VList (opt_val <$> segments)) data None
                 (route_apply send json_dumps (Some service) name hosts paths methods
                    protocols strip_path preserve_host route_id st).2).2
          = trace (route_apply send json_dumps (Some service) name hosts paths methods
                     protocols strip_path preserve_host route_id st).2 ++ [post]
      ∧ req_method post = POST
      ∧ req_data post = data
      ∧ req_headers post !! "content-type" = Some "application/json".
Proof.
  intros Hf Hg segments params data.
  destruct (reads_keep_writes _ _ _ _ (reads_only_service_get send _) Hg) as [Hs _].
  assert (headers (self (route_apply send json_dumps (Some service) name hosts paths
                           methods protocols strip_path preserve_host route_id st).2)
            !! "content-type" = Some "application/json") as Hh.
  { rewrite route_apply_with_field by done.
    rewrite (bind_Return _ _ _ _ _ Hg). simpl.
    rewrite (bind_Return _ _ st1
               (VDict (route_document (default VNone (m !! "id")) name hosts paths
                         methods protocols strip_path preserve_host)) st1) by done.
    destruct (opt_truthy route_id).
    - rewrite patch_self. simpl. apply lookup_union_Some_l, lookup_singleton_eq.
    - rewrite post_self. simpl. apply lookup_union_Some_l, lookup_singleton_eq. }
  set (st2 := (route_apply _ _ _ _ _ _ _ _ _ _ _ _).2) in *.
  eexists _, _. rewrite get_run. destruct (post_patch_run send segments data None st2)
    as [-> _].
  simpl. repeat split; done.
Qed.

End Route_apply_facts.

(** The hosts [a], [b] and the hosts [b], [a] give the same query. *)
Lemma route_query_ignores_order_witness :
  route_query gateway_ab "svc1" ["a"; "b"] [] [] [] example_state
    = route_query gateway_ab "svc1" ["b"; "a"] [] [] [] example_state.
Proof.
  apply (route_query_ignores_order gateway_ab "svc1" ["a"; "b"] ["b"; "a"]);
    [apply perm_swap | done..].
Defined.

(** The route returned for the hosts [b], [a] on [gateway_ab] is the listed
    route. *)
Lemma route_query_returns_the_only_match_witness :
  route_query gateway_ab "svc1" ["b"; "a"] [] [] [] example_state
    = (Return route_ab,
       after_gets example_state
         ["http://kong:8001/services/svc1"; "http://kong:8001/services/svc1/routes"])
  ∧ ∃ s st1 routes items,
      service_get gateway_ab (VStr "svc1") example_state = (Return s, st1)
      ∧ s ≠ VNone
      ∧ route_list gateway_ab (VStr "svc1") st1
        = (Return routes,
           after_gets example_state
             ["http://kong:8001/services/svc1"; "http://kong:8001/services/svc1/routes"])
      ∧ iter routes = Return items
      ∧ ((route_ab = VNone
          ∧ ∀ x, x ∈ items → route_matches ["b"; "a"] [] [] [] x = Return false)
         ∨ (route_ab ∈ items
            ∧ route_matches ["b"; "a"] [] [] [] route_ab = Return true
            ∧ ∀ x, x ∈ items →
                route_matches ["b"; "a"] [] [] [] x = Return true → x = route_ab)).
Proof.
  assert (route_query gateway_ab "svc1" ["b"; "a"] [] [] [] example_state
          = (Return route_ab,
             after_gets example_state
               ["http://kong:8001/services/svc1";
                "http://kong:8001/services/svc1/routes"])) as H
    by (vm_compute; reflexivity).
  split; [exact H|].
  exact (route_query_returns_the_only_match gateway_ab _ _ _ _ _ _ _ _ H).
Defined.

(** A gateway without the service: the query stops after the lookup. *)
Lemma route_query_unresolved_service_witness :
  service_get (table_gateway []) (VStr "svc1") example_state
    = (Return VNone, after_gets example_state ["http://kong:8001/services/svc1"])
  ∧ route_query (table_gateway []) "svc1" ["a"] [] [] [] example_state
    = (Raise (ValueError "Service svc1 not found. Has it been created?"),
       after_gets example_state ["http://kong:8001/services/svc1"]).
Proof.
  assert (service_get (table_gateway []) (VStr "svc1") example_state
          = (Return VNone,
             after_gets example_state ["http://kong:8001/services/svc1"])) as H
    by (vm_compute; reflexivity).
  split; [exact H|].
  exact (route_query_unresolved_service (table_gateway []) "svc1" ["a"] [] [] [] _ _ H).
Defined.

(** Without a service name, and with a service the gateway does not know. *)
Lemma route_apply_validates_witness :
  route_apply (table_gateway []) dumps_name None None (Some ["a"]) None None None
      false false None example_state
    = (Raise (ValueError "service_name needs to be specified."), example_state)
  ∧ route_apply (table_gateway []) dumps_name (Some "svc1") None (Some ["a"]) None None
      None false false None example_state
    = (Raise (ValueError "Service svc1 not found. Has it been created?"),
       after_gets example_state ["http://kong:8001/services/svc1"]).
Proof.
  destruct (route_apply_validates (table_gateway []) dumps_name None None (Some ["a"])
              None None None false false None example_state) as [_ H].
  destruct (H (or_intror (or_introl (ex_intro _ _ eq_refl)))) as [H1 H2].
  split; [exact H1|].
  assert (service_get (table_gateway []) (VStr "svc1") example_state
          = (Return VNone,
             after_gets example_state ["http://kong:8001/services/svc1"])) as Hg
    by (vm_compute; reflexivity).
  exact (proj1 (H2 "svc1" _ Hg)).
Defined.

(** A new route for the host [a] on ["svc1"]: one GET of the service, one
    POST to the routes, with the content type. *)
Lemma route_apply_writes_once_witness :
  service_get gateway_routes (VStr "svc1") example_state
    = (Return service1, after_gets example_state ["http://kong:8001/services/svc1"])
  ∧ route_apply gateway_routes dumps_name (Some "svc1") (Some "r") (Some ["a"]) None None
      None false false None example_state
    = (Return route_ab,
       State (MkKong "http://kong:8001" None json_headers) ()
         [get_request example_state "http://kong:8001/services/svc1";
          Request POST "http://kong:8001/routes" VNone (VStr "{name: r}") None
            json_headers]).
Proof.
  assert (service_get gateway_routes (VStr "svc1") example_state
          = (Return service1,
             after_gets example_state ["http://kong:8001/services/svc1"])) as Hg
    by (vm_compute; reflexivity).
  split; [exact Hg|].
  rewrite (route_apply_writes_once gateway_routes dumps_name "svc1" (Some "r")
             (Some ["a"]) None None None false false None _ _ _
             (or_intror (or_introl (ex_intro _ _ eq_refl))) Hg).
  vm_compute. reflexivity.
Defined.

(** After that route, a GET of the plugins and a POST of a plugin carry the
    content type. *)
Lemma route_apply_leaves_content_type_witness :
  service_get gateway_routes (VStr "svc1") example_state
    = (Return service1, after_gets example_state ["http://kong:8001/services/svc1"])
  ∧ ∃ get post,
      trace (_get gateway_routes (VList (opt_val <$> [Some "plugins"])) VNone
               (route_apply gateway_routes dumps_name (Some "svc1") (Some "r")
                  (Some ["a"]) None None None false false None example_state).2).2
        = trace (route_apply gateway_routes dumps_name (Some "svc1") (Some "r")
                   (Some ["a"]) None None None false false None example_state).2 ++ [get]
      ∧ req_method get = GET
      ∧ req_headers get !! "content-type" = Some "application/json"
      ∧ trace (_post gateway_routes (VList (opt_val <$> [Some "plugins"]))
                 (VDict example_payload) None
                 (route_apply gateway_routes dumps_name (Some "svc1") (Some "r")
                    (Some ["a"]) None None None false false None example_state).2).2
          = trace (route_apply gateway_routes dumps_name (Some "svc1") (Some "r")
                     (Some ["a"]) None None None false false None example_state).2
            ++ [post]
      ∧ req_method post = POST
      ∧ req_data post = VDict example_payload
      ∧ req_headers post !! "content-type" = Some "application/json".
Proof.
  assert (service_get gateway_routes (VStr "svc1") example_state
          = (Return service1,
             after_gets example_state ["http://kong:8001/services/svc1"])) as Hg
    by (vm_compute; reflexivity).
  split; [exact Hg|].
  exact (route_apply_leaves_content_type gateway_routes dumps_name "svc1" (Some "r")
           (Some ["a"]) None None None false false None _ _ _
           (or_intror (or_introl (ex_intro _ _ eq_refl))) Hg
           [Some "plugins"] VNone (VDict example_payload)).
Defined.

(** ** More on [plugin_query] *)

Section Plugin_query_facts.

Context {World : Type}.
Variable send : request → World → reply * World.
Variable uuid : uuid_module.
Local Abbreviation M := (@M World).
Local Abbreviation state := (@state World).

Lemma arg_truthy_str a : arg_truthy a = true → arg_val a = VStr (arg_str a).
Proof. by destruct a. Qed.

(** The [uri] that the three blocks of [plugin_query] leave is the [scope]. *)
Lemma scope_uri service_name route_name consumer_name plugin_id :
  (if arg_truthy consumer_name
   then VList [VStr "consumers"; arg_val consumer_name; VStr "plugins"]
   else if arg_truthy route_name
   then VList [VStr "routes"; arg_val route_name; VStr "plugins"]
   else if arg_truthy service_name
   then VList [VStr "services"; arg_val service_name; VStr "plugins"]
   else if opt_truthy plugin_id then VList [VStr "plugins"; opt_val plugin_id]
   else VList [VStr "plugins"])
  = VList (opt_val <$> scope service_name route_name consumer_name plugin_id).
Proof.
  unfold scope.
  destruct (arg_truthy consumer_name) eqn:Hc; [by rewrite (arg_truthy_str _ Hc)|].
  destruct (arg_truthy route_name) eqn:Hr; [by rewrite (arg_truthy_str _ Hr)|].
  destruct (arg_truthy service_name) eqn:Hs; [by rewrite (arg_truthy_str _ Hs)|].
  by destruct (opt_truthy plugin_id).
Qed.

(** What a run of [plugin_query] that returns went through. *)
Lemma plugin_query_inv fuel name service_name route_name consumer_name plugin_id
    (st st' : state) result :
  plugin_query send uuid fuel name service_name route_name consumer_name plugin_id st
    = (Return result, st') →
  ∃ service_id route_id consumer_id st1 st2 st3 res st4 plugins data items,
    resolution (service_get send) service_name st service_id st1
    ∧ resolution (route_get send) route_name st1 route_id st2
    ∧ resolution (consumer_get send) consumer_name st2 consumer_id st3
    ∧ service_id ≠ Some "" ∧ route_id ≠ Some "" ∧ consumer_id ≠ Some ""
    ∧ _get send (VList (opt_val <$> scope service_name route_name consumer_name plugin_id))
        VNone st3 = (Return res, st4)
    ∧ plugin_query_while send fuel res res st4 = (Return plugins, st')
    ∧ getitem plugins "data" = Return data
    ∧ iter data = Return items
    ∧ select (plugin_matches name consumer_id service_id route_id) items []
      = Return result.
Proof.
  intros H. unfold plugin_query in H.
  assert (
    ('(uri, service_id) ←
       query_binding uuid (service_get send) "services"
         "Service 'None' not found. Has it been created?" service_name
         (if opt_truthy plugin_id then VList [VStr "plugins"; opt_val plugin_id]
          else VList [VStr "plugins"]);
     '(uri, route_id) ←
       query_binding uuid (route_get send) "routes"
         "Route 'None' not found. Has it been created?" route_name uri;
     '(uri, consumer_id) ←
       query_binding uuid (consumer_get send) "consumers"
         "Consumer None not found. Has it been created?" consumer_name uri;
     res ← _get send uri VNone;
     plugins ← plugin_query_while send fuel res res;
     data ← pure (getitem plugins "data");
     items ← pure (iter data);
     pure (select (plugin_matches name consumer_id service_id route_id) items []))
      st = (Return result, st')) as H'.
  { destruct plugin_id, name; done. }
  clear H.
  apply bind_inv in H' as ([uri1 sid] & st1 & (Hs & -> & As)%query_binding_Return & H).
  apply bind_inv in H as ([uri2 rid] & st2 & (Hr & -> & Ar)%query_binding_Return & H).
  apply bind_inv in H as ([uri3 cid] & st3 & (Hc & -> & Ac)%query_binding_Return & H).
  apply (accepted_nonempty uuid) in As, Ar, Ac.
  rewrite scope_uri in H.
  apply bind_inv in H as (res & st4 & Hg & H).
  apply bind_inv in H as (plugins & st5 & Hw & H).
  apply bind_inv in H as (data & st6 & [Hd ->]%pure_inv & H).
  apply bind_inv in H as (items & st7 & [Hi ->]%pure_inv & H).
  apply pure_inv in H as [Hsel ->].
  exists sid, rid, cid, st1, st2, st3, res, st4, plugins, data, items.
  repeat (split; [done|]). done.
Qed.

(** X15: every plugin that [plugin_query] returns has the name asked for
    under ['name']; when the query has an id and no name, the plugins
    returned are those without a name. *)
Theorem plugin_query_keeps_the_name
    fuel name service_name route_name consumer_name plugin_id
    (st st' : state) result :
  plugin_query send uuid fuel name service_name route_name consumer_name plugin_id st
    = (Return result, st') →
  ∀ plugin, plugin ∈ result → binding plugin "name" = opt_val name.
Proof.
  intros (sid & rid & cid & st1 & st2 & st3 & res & st4 & plugins & data & items
          & _ & _ & _ & Hs & Hr & Hc & _ & _ & _ & _ & Hsel)%plugin_query_inv
    plugin Hin.
  destruct (select_Return _ _ _ _ Hsel plugin Hin) as [Hnil|[_ Hm]].
  { by apply elem_of_nil in Hnil. }
  apply plugin_matches_true in Hm as (Hn & _); [|done..].
  destruct name as [n|]; simpl.
  - by apply ne_opt_str_false.
  - by destruct (binding plugin "name").
Qed.



(** X17: a query by id alone asks for [<base>/plugins/<id>] and then reads
    ['next'] of the answer: when the gateway answers with the plugin itself,
    an object without ['next'], [plugin_query] raises [KeyError] for
    ['next'] after that one request. *)
Theorem plugin_query_by_id_needs_next
    fuel name service_name route_name consumer_name (id : string)
    (st : state) status (m : gmap string val) w :
  arg_truthy service_name = false → arg_truthy route_name = false →
  arg_truthy consumer_name = false → id ≠ "" →
  send (request_of (self st) GET (base_url (self st) +:+ "/plugins/" +:+ id) VNone VNone)
    (world st) = (Answer (Response status (Some (VDict m))), w) →
  ¬ (400 ≤ status < 600) →
  m !! "next" = None →
  plugin_query send uuid fuel name service_name route_name consumer_name (Some id) st
    = (Raise (KeyError "next"),
       sent st (request_of (self st) GET (base_url (self st) +:+ "/plugins/" +:+ id)
                  VNone VNone) w).
Proof.
  intros Fs Fr Fc Hid Hsend Hst Hnext.
  assert (opt_truthy (Some id) = true) as Ht.
  { unfold opt_truthy. simpl. by apply negb_true_iff, String.eqb_neq. }
  assert (_get send (VList [VStr "plugins"; VStr id]) VNone st
          = (Return (VDict m),
             sent st (request_of (self st) GET
                        (base_url (self st) +:+ "/plugins/" +:+ id) VNone VNone) w)) as Hg.
  { pose proof (get_run send [Some "plugins"; Some id] VNone st) as H.
    change (url_of st [Some "plugins"; Some id])
      with (base_url (self st) +:+ "/plugins/" +:+ id) in H.
    rewrite Hsend in H. simpl in H.
    destruct (400 <=? status) eqn:H1; destruct (status <? 600) eqn:H2; simpl in H;
      try exact H.
    apply Z.leb_le in H1. apply Z.ltb_lt in H2. lia. }
  unfold plugin_query, query_binding. rewrite Fs, Fr, Fc, Ht. simpl.
  assert (∀ st1 : state,
    plugin_query_while send fuel (VDict m) (VDict m) st1 = (Raise (KeyError "next"), st1))
    as Hw.
  { intros st1. destruct fuel; simpl; unfold mbind, M_bind, pure; simpl;
      by rewrite Hnext. }
  destruct name;
    rewrite (bind_Return _ _ st (VList [VStr "plugins"; VStr id], None) st) by done;
    rewrite (bind_Return _ _ st (VList [VStr "plugins"; VStr id], None) st) by done;
    rewrite (bind_Return _ _ st (VList [VStr "plugins"; VStr id], None) st) by done;
    rewrite (bind_Return _ _ _ _ _ Hg);
    by rewrite (bind_Raise _ _ _ _ _ (Hw _)).
Qed.

(** X18: [plugin_query] checks the id of a resolved service before it lists
    anything: when the object of the service has no ['id'] it raises
    [TypeError], and when the id is a string that [uuid.UUID] does not accept
    it raises [ValueError]; in both cases the state is the one the lookup of
    the service left. *)
Theorem plugin_query_checks_the_id
    fuel name service_name route_name consumer_name plugin_id
    (st st1 : state) (m : gmap string val) :
  is_Some name ∨ is_Some plugin_id →
  arg_truthy service_name = true →
  service_get send (arg_val service_name) st = (Return (VDict m), st1) →
  (m !! "id" = None →
   plugin_query send uuid fuel name service_name route_name consumer_name plugin_id st
     = (Raise TypeError, st1))
  ∧ (∀ s, m !! "id" = Some (VStr s) → uuid_accepts uuid s = false →
     plugin_query send uuid fuel name service_name route_name consumer_name plugin_id st
       = (Raise (ValueError "badly formed hexadecimal UUID string"), st1)).
Proof.
  intros Hsome Ht Hg.
  assert (∀ e, uuid_UUID uuid (default VNone (m !! "id")) = Raise e →
    plugin_query send uuid fuel name service_name route_name consumer_name plugin_id st
      = (Raise e, st1)) as H.
  { intros e He. unfold plugin_query.
    assert (∀ uri, query_binding uuid (service_get send) "services"
              "Service 'None' not found. Has it been created?" service_name uri st
            = (Raise e, st1)) as Hq.
    { intros uri. unfold query_binding. rewrite Ht.
      rewrite (bind_Return _ _ _ _ _ Hg).
      rewrite (bind_Return _ _ st1 (default VNone (m !! "id")) st1) by done.
      by rewrite (bind_Raise _ _ st1 e st1) by (by unfold pure; rewrite He). }
    destruct plugin_id, name; try (by rewrite (bind_Raise _ _ _ _ _ (Hq _))).
    destruct Hsome as [[? [=]]|[? [=]]]. }
  split.
  - intros Hn. apply H. by rewrite Hn.
  - intros s Hs Ha. apply H. rewrite Hs. simpl. by rewrite Ha.
Qed.

Lemma while_loops fuel (k : Kong) res data cursor :
  is_page res data (VStr cursor) → cursor ≠ "" →
  (∀ w, ∃ status w',
     send (request_of k GET (base_url k +:+ "/" +:+ strip_slash cursor) VNone VNone) w
       = (Answer (Response status (Some res)), w')
     ∧ ¬ (400 ≤ status < 600)) →
  ∀ first data0 next0 (st : state),
    self st = k → is_page first data0 next0 →
    (plugin_query_while send fuel first res st).1 = Stuck OutOfFuel.
Proof.
  intros Hres Hc Hsend.
  destruct (is_page_getitem _ _ _ Hres) as (Hrd & Hrn & _).
  assert (truthy (VStr cursor) = true) as Ht.
  { simpl. by apply negb_true_iff, String.eqb_neq. }
  induction fuel as [|fuel IH]; intros first data0 next0 st Hk Hfirst.
  - simpl. rewrite (bind_Return _ _ st (VStr cursor) st) by (by unfold pure; rewrite Hrn).
    by rewrite Ht.
  - simpl. rewrite (bind_Return _ _ st (VStr cursor) st) by (by unfold pure; rewrite Hrn).
    rewrite Ht.
    rewrite (bind_Return _ _ st (VStr (strip_slash cursor)) st) by done.
    destruct (Hsend (world st)) as (status & w' & Hs & Hst).
    destruct (is_page_getitem _ _ _ Hfirst) as (Hfd & _).
    rewrite <- Hk in Hs.
    rewrite (bind_Return _ _ _ _ _ (get_page send _ _ _ _ _ Hs Hst)).
    set (st1 := sent st _ w').
    rewrite (bind_Return _ _ st1 (VList data0) st1) by (by unfold pure; rewrite Hfd).
    rewrite (bind_Return _ _ st1 (VList data) st1) by (by unfold pure; rewrite Hrd).
    rewrite (bind_Return _ _ st1 (VList (data0 ++ data)) st1) by done.
    destruct Hfirst as (m & -> & Hd & Hn).
    rewrite (bind_Return _ _ st1 (VDict (<["data" := VList (data0 ++ data)]> m)) st1)
      by done.
    apply (IH _ (data0 ++ data) next0); [done|].
    exists (<["data" := VList (data0 ++ data)]> m). split; [done|].
    split; [by rewrite lookup_insert_eq | by rewrite lookup_insert_ne].
Qed.

(** X19: the loop of [plugin_query] has no bound and no memory of the cursors
    it has followed: when the page at a cursor carries that same cursor, the
    loop asks for it again and again, and no amount of fuel lets it end. *)
Theorem plugin_query_while_follows_a_loop
    (st : state) first data0 next0 res data cursor :
  is_page first data0 next0 →
  is_page res data (VStr cursor) → cursor ≠ "" →
  (∀ w, ∃ status w',
     send (request_of (self st) GET
             (base_url (self st) +:+ "/" +:+ strip_slash cursor) VNone VNone) w
       = (Answer (Response status (Some res)), w')
     ∧ ¬ (400 ≤ status < 600)) →
  ∀ fuel, (plugin_query_while send fuel first res st).1 = Stuck OutOfFuel.
Proof.
  intros Hfirst Hres Hc Hsend fuel.
  by apply (while_loops fuel (self st) res data cursor Hres Hc Hsend first data0 next0).
Qed.

End Plugin_query_facts.

(** The plugins returned on [gateway1] for ["rate-limiting"] and the consumer
    carry that name. *)
Lemma plugin_query_keeps_the_name_witness :
  plugin_query gateway1 uuid36 1 (Some "rate-limiting") (AStr "svc1") ANone
      (AStr "con1") None example_state
    = (Return [service_and_consumer],
       after_gets example_state
         ["http://kong:8001/services/svc1"; "http://kong:8001/consumers/con1";
          "http://kong:8001/consumers/con1/plugins"])
  ∧ ∀ plugin, plugin ∈ [service_and_consumer] →
      binding plugin "name" = VStr "rate-limiting".
Proof.
  assert (plugin_query gateway1 uuid36 1 (Some "rate-limiting") (AStr "svc1") ANone
            (AStr "con1") None example_state
          = (Return [service_and_consumer],
             after_gets example_state
               ["http://kong:8001/services/svc1"; "http://kong:8001/consumers/con1";
                "http://kong:8001/consumers/con1/plugins"])) as H
    by (vm_compute; reflexivity).
  split; [exact H|].
  exact (plugin_query_keeps_the_name gateway1 uuid36 _ _ _ _ _ _ _ _ _ H).
Defined.


(** The plugin served at its id has no ['next']. *)
Lemma plugin_query_by_id_needs_next_witness :
  plugin_query gateway_one uuid36 1 None ANone ANone AFalse (Some plugin_a_id)
      example_state
    = (Raise (KeyError "next"),
       after_gets example_state
         ["http://kong:8001/plugins/aaaaaaaa-aaaa-aaaa-aaaa-aaaaaaaaaaaa"]).
Proof.
  refine (plugin_query_by_id_needs_next gateway_one uuid36 1 None ANone ANone AFalse
            plugin_a_id example_state 200 _ () eq_refl eq_refl eq_refl _ eq_refl _ _).
  - discriminate.
  - lia.
  - vm_compute. reflexivity.
Defined.

(** The service of [gateway_bad_id] has the id ["123"]. *)
Lemma plugin_query_checks_the_id_witness :
  service_get gateway_bad_id (VStr "svc1") example_state
    = (Return (VDict {["id" := VStr "123"]}),
       after_gets example_state ["http://kong:8001/services/svc1"])
  ∧ plugin_query gateway_bad_id uuid36 1 (Some "cors") (AStr "svc1") ANone AFalse None
      example_state
    = (Raise (ValueError "badly formed hexadecimal UUID string"),
       after_gets example_state ["http://kong:8001/services/svc1"]).
Proof.
  assert (service_get gateway_bad_id (VStr "svc1") example_state
          = (Return (VDict {["id" := VStr "123"]}),
             after_gets example_state ["http://kong:8001/services/svc1"])) as H
    by (vm_compute; reflexivity).
  split; [exact H|].
  refine (proj2 (plugin_query_checks_the_id gateway_bad_id uuid36 1 (Some "cors")
                   (AStr "svc1") ANone AFalse None _ _ _
                   (or_introl (ex_intro _ _ eq_refl)) eq_refl H) "123" _ eq_refl).
  vm_compute. reflexivity.
Defined.

(** On [gateway_loop] the page of the plugins points to itself. *)
Lemma plugin_query_while_follows_a_loop_witness :
  ∃ res, is_page res [only_service] (VStr "/plugins")
         ∧ (plugin_query_while gateway_loop 7 res res example_state).1 = Stuck OutOfFuel.
Proof.
  exists (list_page [only_service] (VStr "/plugins")).
  assert (is_page (list_page [only_service] (VStr "/plugins")) [only_service]
            (VStr "/plugins")) as Hp.
  { eexists. split; [reflexivity|]. split; vm_compute; reflexivity. }
  split; [exact Hp|].
  apply (plugin_query_while_follows_a_loop gateway_loop example_state _ _ _ _ _ _
           Hp Hp); [discriminate|].
  intros []. exists 200, (). split; [reflexivity | lia].
Defined.

(** ** What the operations write *)

Section Discipline_facts.

Context {World : Type}.
Variable send : request → World → reply * World.
Variable uuid : uuid_module.
Variable json_dumps : val → string.
Local Abbreviation M := (@M World).
Local Abbreviation state := (@state World).

Lemma reads_write_nothing {A} (c : M A) : reads_only c → writes_nothing c.
Proof. intros Hc st o st' H. by destruct (reads_keep_writes _ _ _ _ Hc H). Qed.

Lemma writes_nothing_pure {A} (c : outcome A) : writes_nothing (pure c : M A).
Proof. by intros st o st' [_ ->]%pure_inv. Qed.

Lemma writes_nothing_url uri : writes_nothing (_url uri : M string).
Proof. apply reads_write_nothing, reads_only_url. Qed.

Lemma writes_nothing_update_headers hdrs : writes_nothing (update_headers hdrs : M unit).
Proof. intros st o st'. rewrite update_headers_self. by intros [= _ <-]. Qed.

Lemma one_write_nothing {A} allowed (c : M A) :
  writes_nothing c → at_most_one_write allowed c.
Proof.
  intros Hc st o st' H. exists []. split; [simpl; lia|]. split; [constructor|].
  rewrite app_nil_r. by eapply Hc.
Qed.

Lemma one_write_after {A B} allowed (c : M A) (f : A → M B) :
  writes_nothing c → (∀ a, at_most_one_write allowed (f a)) →
  at_most_one_write allowed (c ≫= f).
Proof.
  intros Hc Hf st o st'. unfold mbind, M_bind.
  destruct (c st) as [[a|e|s] st1] eqn:E; pose proof (Hc _ _ _ E) as Hw.
  - intros Hfa. destruct (Hf _ _ _ _ Hfa) as (ws & Hlen & Hall & Ht).
    exists ws. by rewrite Ht, Hw.
  - intros [= <- <-]. exists []. rewrite app_nil_r.
    repeat split; [simpl; lia|constructor|done].
  - intros [= <- <-]. exists []. rewrite app_nil_r.
    repeat split; [simpl; lia|constructor|done].
Qed.

Lemma one_write_before {A B} allowed (c : M A) (f : A → M B) :
  at_most_one_write allowed c → (∀ a, writes_nothing (f a)) →
  at_most_one_write allowed (c ≫= f).
Proof.
  intros Hc Hf st o st'. unfold mbind, M_bind.
  destruct (c st) as [[a|e|s] st1] eqn:E;
    pose proof (Hc _ _ _ E) as (ws & Hlen & Hall & Ht).
  - intros Hfa. exists ws. by rewrite (Hf _ _ _ _ Hfa), Ht.
  - intros [= <- <-]. by exists ws.
  - intros [= <- <-]. by exists ws.
Qed.

Lemma one_write_requests allowed m url params data :
  m ∈ allowed → at_most_one_write allowed (requests send m url params data).
Proof.
  intros Hm st o st'. rewrite requests_run. intros [= _ <-]. simpl.
  rewrite writes_app. destruct (decide (m = GET)) as [->|Hg].
  - exists []. simpl. rewrite app_nil_r. repeat split; [lia|constructor].
  - eexists [_]. simpl. rewrite bool_decide_eq_false_2 by done. simpl.
    repeat split; [lia|]. by repeat constructor.
Qed.

Lemma one_write_post allowed uri data hdrs :
  POST ∈ allowed → at_most_one_write allowed (_post send uri data hdrs).
Proof.
  intros Hm. unfold _post.
  apply one_write_after; [apply writes_nothing_update_headers|]. intros _.
  apply one_write_after; [apply writes_nothing_url|]. intros url.
  apply one_write_before; [by apply one_write_requests|]. intros r.
  destruct (status_code r =? codes_created); [apply writes_nothing_pure|].
  intros st o st'. unfold mbind, M_bind, pure, raise.
  destruct (dot_json r); by intros [= _ <-].
Qed.

Lemma one_write_patch allowed uri data hdrs :
  PATCH ∈ allowed → at_most_one_write allowed (_patch send uri data hdrs).
Proof.
  intros Hm. unfold _patch.
  apply one_write_after; [apply writes_nothing_update_headers|]. intros _.
  apply one_write_after; [apply writes_nothing_url|]. intros url.
  apply one_write_before; [by apply one_write_requests|]. intros r.
  destruct (status_code r =? codes_ok); [apply writes_nothing_pure|].
  intros st o st'. unfold mbind, M_bind, pure, raise.
  destruct (dot_json r); by intros [= _ <-].
Qed.

Lemma one_write_delete allowed uri :
  DELETE ∈ allowed → at_most_one_write allowed (_delete send uri).
Proof.
  intros Hm. unfold _delete.
  apply one_write_after; [apply writes_nothing_url|]. intros url.
  apply one_write_before; [by apply one_write_requests|]. intros r.
  destruct (negb _); [apply writes_nothing_pure | by intros st o st' [= _ <-]].
Qed.

(** X20: whatever the gateway answers and however they end, [plugin_apply]
    and [route_apply] add at most one request that is not a GET to the trace,
    a POST or a PATCH, and [plugin_delete] and [route_delete] at most one, a
    DELETE.  None of them sends a PUT, and a failure never leaves two
    writes. *)
Theorem operations_write_at_most_once
    fuel name config service_name route_name consumer_name route_id
    service_opt route_name_opt hosts paths methods protocols strip_path preserve_host
    route_id_opt :
  at_most_one_write [POST; PATCH]
    (plugin_apply send uuid fuel name config service_name route_name consumer_name)
  ∧ at_most_one_write [DELETE]
      (plugin_delete send uuid fuel name service_name route_name consumer_name)
  ∧ at_most_one_write [DELETE] (route_delete send route_id)
  ∧ at_most_one_write [POST; PATCH]
      (route_apply send json_dumps service_opt route_name_opt hosts paths methods
         protocols strip_path preserve_host route_id_opt).
Proof.
  split; [|split; [|split]].
  - unfold plugin_apply.
    apply one_write_after;
      [apply reads_write_nothing, reads_only_plugin_payload|]. intros data.
    apply one_write_after;
      [apply reads_write_nothing, reads_only_plugin_query|]. intros p.
    destruct (1 <? length p)%nat; [apply one_write_nothing, writes_nothing_pure|].
    destruct p as [|p0 p].
    + apply one_write_post. set_solver.
    + apply one_write_after; [apply writes_nothing_pure|]. intros id.
      apply one_write_patch. set_solver.
  - unfold plugin_delete.
    apply one_write_after;
      [apply reads_write_nothing, reads_only_plugin_query|]. intros p.
    destruct (1 <? length p)%nat; [apply one_write_nothing, writes_nothing_pure|].
    destruct p as [|p0 p].
    + apply one_write_nothing. by intros st o st' [= _ <-].
    + apply one_write_after; [apply writes_nothing_pure|]. intros id.
      apply one_write_delete. set_solver.
  - unfold route_delete.
    apply one_write_after; [apply reads_write_nothing, reads_only_route_get|].
    intros r. destruct (truthy r).
    + apply one_write_delete. set_solver.
    + apply one_write_nothing. by intros st o st' [= _ <-].
  - unfold route_apply.
    assert (at_most_one_write [POST; PATCH]
      (match service_opt with
       | None => raise (ValueError "service_name needs to be specified.")
       | Some service =>
           s ← service_get send (VStr service);
           if is_none s then
             raise (ValueError ("Service " +:+ service
                                +:+ " not found. Has it been created?"))
           else
             payload ← pure (route_payload s route_name_opt hosts paths methods
                               protocols strip_path preserve_host);
             if opt_truthy route_id_opt then
               _patch send (VList [VStr "routes"; opt_val route_id_opt])
                 (VStr (json_dumps payload)) (Some json_headers)
             else
               _post send (VStr "routes") (VStr (json_dumps payload))
                 (Some json_headers)
       end : M val)) as H.
    { destruct service_opt as [service|];
        [|apply one_write_nothing, writes_nothing_pure].
      apply one_write_after; [apply reads_write_nothing, reads_only_service_get|].
      intros s. destruct (is_none s); [apply one_write_nothing, writes_nothing_pure|].
      apply one_write_after; [apply writes_nothing_pure|]. intros payload.
      destruct (opt_truthy route_id_opt);
        [apply one_write_patch | apply one_write_post]; set_solver. }
    destruct protocols, hosts, paths, methods; try exact H.
    apply one_write_nothing, writes_nothing_pure.
Qed.

End Discipline_facts.

(** ** More on [plugin_apply] and on the queries *)

Section Plugin_apply_facts.

Context {World : Type}.
Variable send : request → World → reply * World.
Variable uuid : uuid_module.
Local Abbreviation M := (@M World).
Local Abbreviation state := (@state World).

(** X21: [plugin_apply] returns what the gateway answers to its write.  With
    no match it returns the parsed body of the POST when the status is 201,
    with one match the parsed body of the PATCH when the status is 200.  On
    another status it raises the exception that carries the status, the
    expected status, the URL, the parsed body and the payload; when the body
    is not JSON it raises the JSON error, and without an answer the connection
    error. *)
Theorem plugin_apply_returns_the_record
    fuel name config service_name route_name consumer_name
    (st st1 st2 : state) (data : gmap string val) (p : list val) :
  plugin_payload send name config service_name route_name consumer_name st
    = (Return data, st1) →
  plugin_query send uuid fuel name service_name route_name consumer_name None st1
    = (Return p, st2) →
  (p = [] →
   plugin_apply send uuid fuel name config service_name route_name consumer_name st
     = (answered 201 (base_url (self st) +:+ "/plugins") (VDict data)
          (send (write_request st POST (base_url (self st) +:+ "/plugins") (VDict data))
             (world st2)).1,
        sent st2 (write_request st POST (base_url (self st) +:+ "/plugins") (VDict data))
          (send (write_request st POST (base_url (self st) +:+ "/plugins") (VDict data))
             (world st2)).2))
  ∧ (∀ p0 id, p = [p0] → binding p0 "id" = VStr id →
     plugin_apply send uuid fuel name config service_name route_name consumer_name st
       = (answered 200 (base_url (self st) +:+ "/plugins/" +:+ id) (VDict data)
            (send (write_request st PATCH (base_url (self st) +:+ "/plugins/" +:+ id)
                     (VDict data)) (world st2)).1,
          sent st2 (write_request st PATCH (base_url (self st) +:+ "/plugins/" +:+ id)
                      (VDict data))
            (send (write_request st PATCH (base_url (self st) +:+ "/plugins/" +:+ id)
                     (VDict data)) (world st2)).2)).
Proof.
  intros Hd Hq.
  destruct (reads_keep_writes _ _ _ _
    (reads_only_plugin_payload send _ _ _ _ _) Hd) as [Hs1 _].
  destruct (reads_keep_writes _ _ _ _
    (reads_only_plugin_query send uuid _ _ _ _ _ _) Hq) as [Hs2 _].
  assert (self st2 = self st) as Hs by congruence.
  unfold plugin_apply.
  rewrite (bind_Return _ _ _ _ _ Hd), (bind_Return _ _ _ _ _ Hq).
  split.
  - intros ->. simpl.
    destruct (post_patch_run send [Some "plugins"] (VDict data) None st2) as [H _].
    change (VList (opt_val <$> [Some "plugins"])) with (VList [VStr "plugins"]) in H.
    rewrite H. unfold url_of, write_request, request_of, sent, answered. simpl.
    rewrite Hs. by destruct st2.
  - intros p0 id -> Hid%binding_VStr. simpl.
    rewrite (bind_Return _ _ st2 (VStr id) st2) by (by unfold pure; rewrite Hid).
    destruct (post_patch_run send [Some "plugins"; Some id] (VDict data) None st2)
      as [_ H].
    change (VList (opt_val <$> [Some "plugins"; Some id]))
      with (VList [VStr "plugins"; VStr id]) in H.
    rewrite H. unfold url_of, write_request, request_of, sent, answered. simpl.
    rewrite Hs. by destruct st2.
Qed.

(** X22: a [config] that is neither [None] nor a [dict] (a list, a string)
    makes [plugin_apply] raise the [ValueError] "'config' parameter is not a
    dict" before any request; and the empty [dict] is the same as no config:
    the two calls end alike, with the same requests. *)
Theorem plugin_apply_config_is_a_dict
    fuel name config service_name route_name consumer_name (st : state) :
  (config ≠ VNone → (∀ c, config ≠ VDict c) →
   plugin_apply send uuid fuel name config service_name route_name consumer_name st
     = (Raise (ValueError "'config' parameter is not a dict"), st))
  ∧ plugin_apply send uuid fuel name (VDict ∅) service_name route_name consumer_name st
    = plugin_apply send uuid fuel name VNone service_name route_name consumer_name st.
Proof.
  split.
  - intros Hn Hd. unfold plugin_apply, plugin_payload.
    destruct config as [| | | | |c]; try done. by destruct (Hd c).
  - unfold plugin_apply, plugin_payload, _prepare_config.
    by rewrite kmap_empty, (left_id_L ∅ (∪)).
Qed.

Lemma reads_only_route_query service_name hosts paths methods protocols :
  reads_only (route_query send service_name hosts paths methods protocols).
Proof.
  unfold route_query. apply reads_only_bind; [apply reads_only_service_get|].
  intros s. destruct (is_none s); [apply reads_only_raise|].
  apply reads_only_bind; [apply reads_only_route_list|]. intros routes.
  apply reads_only_bind; [apply reads_only_pure|]. intros items.
  apply reads_only_bind; [apply reads_only_pure|]. intros result.
  destruct (1 <? length result)%nat; [apply reads_only_raise | apply reads_only_ret].
Qed.

(** X23: the queries only read.  [plugin_query], [plugin_list],
    [route_query], [route_list], [route_get], [status], [healthy] and
    [version] leave the object as it is and add nothing but GET requests to
    the trace, however they end. *)
Theorem queries_only_read
    fuel name service_name route_name consumer_name plugin_id
    service hosts paths methods protocols x :
  reads_only (plugin_query send uuid fuel name service_name route_name consumer_name
                plugin_id)
  ∧ reads_only (plugin_list send)
  ∧ reads_only (route_query send service hosts paths methods protocols)
  ∧ reads_only (route_list send x)
  ∧ reads_only (route_get send x)
  ∧ reads_only (status send)
  ∧ reads_only (healthy send)
  ∧ reads_only (version send).
Proof.
  split; [apply reads_only_plugin_query|]. split; [apply reads_only_get|].
  split; [apply reads_only_route_query|]. split; [apply reads_only_route_list|].
  split; [apply reads_only_route_get|]. split; [apply reads_only_get|]. split.
  - unfold healthy. apply reads_only_bind; [apply reads_only_get|]. intros s.
    apply reads_only_bind; intros; apply reads_only_pure.
  - unfold version. apply reads_only_bind; [apply reads_only_get|]. intros r.
    apply reads_only_pure.
Qed.

End Plugin_apply_facts.

(** On [gateway1] no ["cors"] plugin is on ["svc1"]: the apply posts it and
    returns the body of the 201 answer. *)
Lemma plugin_apply_returns_the_record_witness :
  plugin_payload gateway1 (Some "cors") VNone (AStr "svc1") ANone AFalse example_state
    = (Return (<["service.id" := VStr svc1_id]> {["name" := VStr "cors"]}),
       after_gets example_state ["http://kong:8001/services/svc1"])
  ∧ plugin_query gateway1 uuid36 1 (Some "cors") (AStr "svc1") ANone AFalse None
      (after_gets example_state ["http://kong:8001/services/svc1"])
    = (Return [],
       after_gets example_state
         ["http://kong:8001/services/svc1"; "http://kong:8001/services/svc1";
          "http://kong:8001/services/svc1/plugins"])
  ∧ (plugin_apply gateway1 uuid36 1 (Some "cors") VNone (AStr "svc1") ANone AFalse
       example_state).1
    = Return (reference plugin_b_id).
Proof.
  assert (plugin_payload gateway1 (Some "cors") VNone (AStr "svc1") ANone AFalse
            example_state
          = (Return (<["service.id" := VStr svc1_id]> {["name" := VStr "cors"]}),
             after_gets example_state ["http://kong:8001/services/svc1"])) as H1
    by (vm_compute; reflexivity).
  assert (plugin_query gateway1 uuid36 1 (Some "cors") (AStr "svc1") ANone AFalse None
            (after_gets example_state ["http://kong:8001/services/svc1"])
          = (Return [],
             after_gets example_state
               ["http://kong:8001/services/svc1"; "http://kong:8001/services/svc1";
                "http://kong:8001/services/svc1/plugins"])) as H2
    by (vm_compute; reflexivity).
  split; [exact H1|]. split; [exact H2|].
  rewrite (proj1 (plugin_apply_returns_the_record gateway1 uuid36 _ _ _ _ _ _ _ _ _ _ _
                    H1 H2) eq_refl).
  vm_compute. reflexivity.
Defined.

(** A list is no config. *)
Lemma plugin_apply_config_is_a_dict_witness :
  plugin_apply gateway1 uuid36 1 (Some "cors") (VList []) (AStr "svc1") ANone AFalse
      example_state
    = (Raise (ValueError "'config' parameter is not a dict"), example_state).
Proof.
  apply (proj1 (plugin_apply_config_is_a_dict gateway1 uuid36 1 (Some "cors") (VList [])
                  (AStr "svc1") ANone AFalse example_state)); discriminate.
Defined.

(** ** [render_list] *)

Lemma split_lines_one_line s rest :
  one_line s → split_lines (s +:+ String "010" rest) = s :: split_lines rest.
Proof.
  induction s as [|c s IH]; [done|]. intros [Hc Hs]. simpl.
  rewrite (proj2 (Ascii.eqb_neq _ _) Hc). by rewrite IH.
Qed.

Lemma split_lines_last s : one_line s → split_lines s = [s].
Proof.
  induction s as [|c s IH]; [done|]. intros [Hc Hs]. simpl.
  rewrite (proj2 (Ascii.eqb_neq _ _) Hc). by rewrite IH.
Qed.

Lemma append_assoc (a b c : string) : (a +:+ b) +:+ c = a +:+ (b +:+ c).
Proof.
  induction a as [|x a IH]; [done|].
  change (String x ((a +:+ b) +:+ c) = String x (a +:+ (b +:+ c))). by rewrite IH.
Qed.

Lemma split_lines_concat l tail :
  Forall one_line l → l ≠ [] →
  split_lines (String.concat newline l +:+ String "010" tail) = l ++ split_lines tail.
Proof.
  induction l as [|x [|y l] IH]; intros Hl Hne; [done| |].
  - simpl. apply Forall_cons in Hl as [Hx _]. by rewrite split_lines_one_line.
  - apply Forall_cons in Hl as [Hx Hl].
    change (String.concat newline (x :: y :: l))
      with (x +:+ newline +:+ String.concat newline (y :: l)).
    rewrite !append_assoc.
    change (newline +:+ ?z) with (String "010" z).
    rewrite split_lines_one_line by done. by rewrite IH.
Qed.

(** X24: [render_list] gives the empty string for the empty list and for no
    other list; for a list of strings without newlines, the text split at its
    newlines is an empty first line, the items in their order, and two empty
    pieces for the blank line at the end. *)
Theorem render_list_lines (inlist : list string) :
  (render_list inlist = "" ↔ inlist = [])
  ∧ (Forall one_line inlist → inlist ≠ [] →
     split_lines (render_list inlist) = "" :: inlist ++ [""; ""]).
Proof.
  split.
  - split; [|by intros ->]. by destruct inlist.
  - intros Hl Hne. destruct inlist as [|x l]; [done|].
    change (render_list (x :: l))
      with (String "010" (String.concat newline (x :: l)
                            +:+ String "010" (String "010" ""))).
    change (split_lines (String "010" ?s)) with ("" :: split_lines s).
    by rewrite split_lines_concat.
Qed.

(** Two items on two lines. *)
Lemma render_list_lines_witness :
  split_lines (render_list ["svc1"; "svc2"]) = [""; "svc1"; "svc2"; ""; ""].
Proof.
  refine (proj2 (render_list_lines ["svc1"; "svc2"]) _ _); [|done].
  repeat constructor; discriminate.
Defined.
